(** * Smash leaderboard video pipeline: a shallow embedding

    The development embeds four Python modules of the repository:

    - [batch_process_videos.py]   (module [Batch]): the streaming scan of a
      recording, the bounded sample window, the backward selection of the
      result-screen segment, and the guards of [save_match_stats];
    - [youtube_uploader.py]       (module [Youtube]): title, description
      and tags, the daily quota counter and the retry loop of the
      resumable upload;
    - [bulk_upload_to_youtube.py] (module [Bulk]): filename parsing,
      timestamp reconciliation and the idempotent skip of [process_video];
    - [r2_storage.py]             (module [R2]): the object keys and the
      upload to the bucket.

    Module [Listing] holds the directory listings of the two scripts
    ([get_video_files] and [scan_directory]) and the names of the files
    the batch processor writes.

    Conventions of the embedding.
    - Python [int] is [Z]; a float confidence score is a rational [Q]
      (scores are only compared, never added).
    - Python [str] is [string]; the helpers of [PyStr] implement the
      ASCII fragment of [str.replace], [str.title], [str.upper],
      [str.lower], [str.strip] and of the regular expressions used by the
      code.
    - A function that may raise returns a [PyResult]; the effects of the
      collaborators (record store, hosting API, clock, random source) are
      read from explicit environment records and every write is logged. *)

From Stdlib Require Import ZArith QArith List String Ascii Bool Lia Permutation Sorted.
From Stdlib Require Import DecimalString DecimalPos.
Import ListNotations.
Local Open Scope string_scope.
Local Open Scope list_scope.
Local Open Scope Z_scope.

Infix "+++" := String.append (right associativity, at level 60).

(** ** Results of Python calls *)

Inductive Exn : Type :=
| ValueError          (* datetime.strptime on an impossible date *)
| IndexError
| AttributeError
| HttpError (status : Z)
| OtherError.         (* any other exception: network faults, OS errors *)

Inductive PyResult (A : Type) : Type :=
| Ret (a : A)
| Raise (e : Exn).
Arguments Ret {A} a.
Arguments Raise {A} e.

(** ** Strings, the way the Python code uses them *)

Module PyStr.

Definition is_digit (c : ascii) : bool :=
  let n := N_of_ascii c in ((48 <=? n) && (n <=? 57))%N.

Definition is_lower (c : ascii) : bool :=
  let n := N_of_ascii c in ((97 <=? n) && (n <=? 122))%N.

Definition is_upper (c : ascii) : bool :=
  let n := N_of_ascii c in ((65 <=? n) && (n <=? 90))%N.

Definition to_upper (c : ascii) : ascii :=
  if is_lower c then ascii_of_N (N_of_ascii c - 32) else c.

Definition to_lower (c : ascii) : ascii :=
  if is_upper c then ascii_of_N (N_of_ascii c + 32) else c.

(** [s.upper()] *)
Fixpoint upper (s : string) : string :=
  match s with
  | EmptyString => EmptyString
  | String c r => String (to_upper c) (upper r)
  end.

(** [s.title()]: a cased character is upper-cased when the previous
    character is not cased and lower-cased otherwise. *)
Fixpoint title_from (prev_cased : bool) (s : string) : string :=
  match s with
  | EmptyString => EmptyString
  | String c r =>
      if is_lower c || is_upper c
      then String (if prev_cased then to_lower c else to_upper c) (title_from true r)
      else String c (title_from false r)
  end.

Definition title (s : string) : string := title_from false s.

(** Truthiness of a string: [if s:] *)
Definition truthy (s : string) : bool :=
  match s with EmptyString => false | _ => true end.

Fixpoint all_digits (s : string) : bool :=
  match s with
  | EmptyString => true
  | String c r => is_digit c && all_digits r
  end.

(** Longest prefix of digits and the rest: the greedy match of [\d+]. *)
Fixpoint span_digits (s : string) : string * string :=
  match s with
  | EmptyString => (EmptyString, EmptyString)
  | String c r =>
      if is_digit c
      then let (d, t) := span_digits r in (String c d, t)
      else (EmptyString, s)
  end.

Definition digit_val (c : ascii) : Z := Z.of_N (N_of_ascii c) - 48.

Fixpoint int_of_digits_from (acc : Z) (s : string) : Z :=
  match s with
  | EmptyString => acc
  | String c r => int_of_digits_from (10 * acc + digit_val c) r
  end.

(** [int(s)] for a string of decimal digits. *)
Definition int_of_digits (s : string) : Z := int_of_digits_from 0 s.

(** [s.replace(pat, '')] for a non-empty [pat]: every occurrence, found
    from left to right without overlap, is deleted.  [skip] counts the
    characters of the current occurrence still to drop. *)
Fixpoint remove_all_from (pat : string) (skip : nat) (s : string) : string :=
  match s with
  | EmptyString => EmptyString
  | String c r =>
      match skip with
      | S k => remove_all_from pat k r
      | O =>
          if prefix pat s
          then remove_all_from pat (Nat.pred (String.length pat)) r
          else String c (remove_all_from pat O r)
      end
  end.

Definition remove_all (pat s : string) : string := remove_all_from pat O s.

(** [pat in s] *)
Fixpoint contains (pat s : string) : bool :=
  prefix pat s ||
  match s with
  | EmptyString => false
  | String _ r => contains pat r
  end.

(** [s.endswith(suffix)] *)
Fixpoint ends_with (suffix s : string) : bool :=
  (s =? suffix)%string ||
  match s with
  | EmptyString => false
  | String _ r => ends_with suffix r
  end.

(** [s] without its prefix [pre]; [None] when [pre] is not a prefix. *)
Fixpoint strip_prefix (pre s : string) : option string :=
  match pre, s with
  | EmptyString, _ => Some s
  | String a p, String b r => if Ascii.eqb a b then strip_prefix p r else None
  | String _ _, EmptyString => None
  end.

(** A full match of [\d+] *)
Definition is_number (s : string) : bool := truthy s && all_digits s.

Definition newline : ascii := ascii_of_N 10.

(** The subject a pattern ending in [$] is matched against: Python's [$]
    also matches just before one final newline. *)
Fixpoint chomp (s : string) : string :=
  match s with
  | EmptyString => EmptyString
  | String c EmptyString => if Ascii.eqb c newline then EmptyString else s
  | String c r => String c (chomp r)
  end.

(** [str(n)] for an integer. *)
Definition of_Z (n : Z) : string := NilEmpty.string_of_int (Z.to_int n).

Fixpoint zeros (n : nat) : string :=
  match n with O => EmptyString | S k => String "0" (zeros k) end.

(** A non-negative number padded with zeros to [width] digits, as the
    numeric [strftime] directives render it. *)
Definition pad (width : nat) (n : Z) : string :=
  let s := of_Z n in zeros (width - String.length s) +++ s.

(** [re.match(r"^<pre>\d+$", s)] for a literal [pre] *)
Definition match_literal_number (pre s : string) : bool :=
  match strip_prefix pre (chomp s) with
  | Some rest => is_number rest
  | None => false
  end.

(** [s.lower()] *)
Fixpoint lower (s : string) : string :=
  match s with
  | EmptyString => EmptyString
  | String c r => String (to_lower c) (lower r)
  end.

(** [c.isspace()]: tab to carriage return, the four separators and the
    space. *)
Definition is_space (c : ascii) : bool :=
  let n := N_of_ascii c in (((9 <=? n) && (n <=? 13)) || ((28 <=? n) && (n <=? 32)))%N.

Fixpoint lstrip (s : string) : string :=
  match s with
  | EmptyString => EmptyString
  | String c r => if is_space c then lstrip r else s
  end.

Fixpoint rstrip (s : string) : string :=
  match s with
  | EmptyString => EmptyString
  | String c r =>
      match rstrip r with
      | EmptyString => if is_space c then EmptyString else String c EmptyString
      | kept => String c kept
      end
  end.

(** [s.strip()] *)
Definition strip (s : string) : string := rstrip (lstrip s).

End PyStr.

(** ** Naive date-times *)

Record DateTime : Type := mkDateTime {
  year : Z; month : Z; day : Z;
  hour : Z; minute : Z; second : Z;
  microsecond : Z
}.

Module Calendar.

Definition is_leap (y : Z) : bool :=
  ((y mod 4 =? 0) && negb (y mod 100 =? 0)) || (y mod 400 =? 0).

Definition days_in_month (y m : Z) : Z :=
  if m =? 2 then (if is_leap y then 29 else 28)
  else if (m =? 4) || (m =? 6) || (m =? 9) || (m =? 11) then 30
  else 31.

(** The range check of the [datetime] constructor. *)
Definition valid (d : DateTime) : bool :=
  (1 <=? year d) && (year d <=? 9999) &&
  (1 <=? month d) && (month d <=? 12) &&
  (1 <=? day d) && (day d <=? days_in_month (year d) (month d)) &&
  (0 <=? hour d) && (hour d <=? 23) &&
  (0 <=? minute d) && (minute d <=? 59) &&
  (0 <=? second d) && (second d <=? 59) &&
  (0 <=? microsecond d) && (microsecond d <=? 999999).

(** Days since 1970-01-01 in the proleptic Gregorian calendar. *)
Definition days_from_civil (y m d : Z) : Z :=
  let y' := if m <=? 2 then y - 1 else y in
  let era := y' / 400 in
  let yoe := y' - era * 400 in
  let mp := if 2 <? m then m - 3 else m + 9 in
  let doy := (153 * mp + 2) / 5 + d - 1 in
  let doe := yoe * 365 + yoe / 4 - yoe / 100 + doy in
  era * 146097 + doe - 719468.

(** Seconds since the epoch of [d.replace(tzinfo=UTC)]. *)
Definition utc_seconds (d : DateTime) : Z :=
  days_from_civil (year d) (month d) (day d) * 86400
  + hour d * 3600 + minute d * 60 + second d.

(** Microseconds since the epoch of [d.replace(tzinfo=UTC)]. *)
Definition utc_micros (d : DateTime) : Z :=
  utc_seconds d * 1000000 + microsecond d.

(** [d.strftime("%Y-%m-%d %H:%M")]; the year is written with four digits,
    as every platform writes the years from 1000 on. *)
Definition strftime_minutes (d : DateTime) : string :=
  PyStr.pad 4 (year d) +++ "-" +++ PyStr.pad 2 (month d) +++ "-" +++ PyStr.pad 2 (day d)
  +++ " " +++ PyStr.pad 2 (hour d) +++ ":" +++ PyStr.pad 2 (minute d).

End Calendar.

(** ** batch_process_videos.py *)

Module Batch.

(** Lines written to the log.  The text of a message is kept as a
    constructor, its formatted arguments as the constructor's fields.  The
    lines that only announce a step ("Extracting result screen from ...",
    the summary of the batch) are left out. *)
Inductive LogLine : Type :=
| ErrOpenFailed                      (* "Failed to open video: ..." *)
| InfoCapturedFrame42                (* "Captured frame 42 for player identification" *)
| InfoProgress (frame_count : Z)     (* "Processed n/total frames..." *)
| WarnNoFrames                       (* "No frames captured from video" *)
| WarnNoFrameAboveThreshold          (* "No frame found with game end confidence above threshold" *)
| WarnTooShort (n : nat)             (* "Result screen sequence too short (n frames)" *)
| InfoExtracted (n : nat) (c : Q)    (* "Extracted n result screen frames (confidence: c)" *)
| ErrExtractFailed                   (* "Failed to extract result screen from ..." *)
| ErrCreateVideoFailed               (* "Failed to create result video for ..." *)
| ErrStatsFailed                     (* "Failed to extract match stats from ..." *)
| InfoDryRun                         (* "[DRY RUN] Would process ..." *)
| InfoSaved                          (* "Successfully processed and saved: ..." *)
| WarnNotSaved                       (* "Match results extracted but not saved to database: ..." *)
| ErrProcessing                      (* "Error processing ...: e" *)
| ErrNoSupabase                      (* "Supabase client not available" *)
| WarnNoContest                      (* "Match is a no contest, skipping database save" *)
| WarnHasCpu                         (* "Match has CPU players, skipping database save" *)
| WarnUnknownPlayers                 (* "Match has unknown players (Player 1,2,3,etc.), ..." *)
| WarnOnline                         (* "Match is online, skipping database save" *)
| ErrSaving (e : Exn).               (* "Error saving match stats: e" *)

(** [self.game_end_confidence_threshold = 0.7] *)
Definition game_end_confidence_threshold : Q := 7 # 10.

Definition frame_skip_interval : Z := 2.
Definition max_frames : Z := 3600.
Definition min_result_frames : Z := 15.

(** [a >= b] and [a > b] on scores *)
Definition Qge_bool (a b : Q) : bool := Qle_bool b a.
Definition Qgt_bool (a b : Q) : bool := negb (Qle_bool a b).

Section Extraction.

(** A decoded frame.  The pixel arithmetic of [detect_game_end] is done
    by OpenCV and NumPy; [bright_ratio] stands for its result, the
    fraction of bright pixels in the fixed region, and is [None] when
    that computation raises.  The fraction is a quotient of two pixel
    counts, hence a rational; the code compares it as a float. *)
Variable Frame : Type.
Variable bright_ratio : Frame -> option Q.

(** [detect_game_end] *)
Definition detect_game_end (frame : Frame) : Q * bool :=
  match bright_ratio frame with
  | Some confidence =>
      (confidence, Qge_bool confidence game_end_confidence_threshold)
  | None => (0%Q, false)
  end.

(** What [cv2.VideoCapture] delivers for one file. *)
Record Video : Type := mkVideo {
  is_opened : bool;
  cap_fps : Z;                 (* int(cap.get(CAP_PROP_FPS)) *)
  decoded : list Frame         (* the frames [cap.read()] returns, in order *)
}.

(** The lines 218-225 of the scan: append the sample, then evict the
    oldest chunk when the window grew beyond [max_frames]. *)
Definition store_sample (frames : list Frame) (scores : list Q)
           (frame : Frame) (confidence : Q) : list Frame * list Q :=
  let frames := frames ++ [frame] in
  let scores := scores ++ [confidence] in
  if max_frames <? Z.of_nat (List.length frames) then
    let chunk_size := Z.min 50 (Z.of_nat (List.length frames) / 4) in
    (skipn (Z.to_nat chunk_size) frames, skipn (Z.to_nat chunk_size) scores)
  else (frames, scores).

Record Scan : Type := mkScan {
  frames : list Frame;
  scores : list Q;
  frame_42_image : option Frame;
  frame_count : Z;
  scan_log : list LogLine
}.

Definition scan_init : Scan := mkScan [] [] None 0 [].

(** One iteration of the [while True] loop, for a frame that was read. *)
Definition scan_step (st : Scan) (frame : Frame) : Scan :=
  let frame_count := frame_count st + 1 in
  let captured := frame_count =? 42 in
  let frame_42_image := if captured then Some frame else frame_42_image st in
  let log := if captured then scan_log st ++ [InfoCapturedFrame42] else scan_log st in
  let (confidence, _) := detect_game_end frame in
  let (frames, scores) :=
    if frame_count mod frame_skip_interval =? 0
    then store_sample (frames st) (scores st) frame confidence
    else (frames st, scores st) in
  let log := if frame_count mod 1000 =? 0 then log ++ [InfoProgress frame_count] else log in
  mkScan frames scores frame_42_image frame_count log.

Definition scan (video : list Frame) : Scan := fold_left scan_step video scan_init.

(** The backward loop [for i in range(len(scores) - 1, -1, -1)], run over
    the scores in reverse with the index [i] of the head.  The loop
    breaks at the first hit, so [best_confidence] is still [0.0] at
    every test; when the loop runs out [best_frame_index] is [-1]. *)
Fixpoint scan_backward (rev_scores : list Q) (i : Z) : Z * Q :=
  match rev_scores with
  | [] => (-1, 0%Q)
  | confidence :: earlier =>
      if Qge_bool confidence game_end_confidence_threshold
         && Qgt_bool confidence 0%Q
      then (i, confidence)
      else scan_backward earlier (i - 1)
  end.

(** [(best_frame_index, best_confidence)] after the loop. *)
Definition best_frame (scores : list Q) : Z * Q :=
  scan_backward (rev scores) (Z.of_nat (List.length scores) - 1).

(** [frames[k:]] for [k >= 0] *)
Definition slice_from {A : Type} (k : Z) (l : list A) : list A :=
  skipn (Z.to_nat k) l.

(** Lines 237-253: the boundary and the frames from it to the end;
    [None] is the early [return None, None, None]. *)
Definition select_result_frames (frames : list Frame) (scores : list Q)
  : option (list Frame) :=
  let (best_frame_index, _) := best_frame scores in
  if best_frame_index =? -1 then None
  else Some (slice_from best_frame_index frames).

(** What [extract_result_screen] returns: the triple
    [(result_frames, frame_42_image, fps)], or [(None, None, None)]. *)
Definition Extracted : Type := option (list Frame * option Frame * Z).

Definition extract_result_screen (video : Video) : Extracted * list LogLine :=
  if negb (is_opened video) then (None, [ErrOpenFailed])
  else
    let fps := if cap_fps video <=? 0 then 30 else cap_fps video in
    let st := scan (decoded video) in
    let log := scan_log st in
    match frames st, scores st with
    | [], _ | _, [] => (None, log ++ [WarnNoFrames])
    | _, _ =>
        let (best_frame_index, best_confidence) := best_frame (scores st) in
        if best_frame_index =? -1
        then (None, log ++ [WarnNoFrameAboveThreshold])
        else
          let result_frames := slice_from best_frame_index (frames st) in
          if Z.of_nat (List.length result_frames) <? min_result_frames
          then (None, log ++ [WarnTooShort (List.length result_frames)])
          else (Some (result_frames, frame_42_image st, fps),
                log ++ [InfoExtracted (List.length result_frames) best_confidence])
    end.

(** The window after a sequence of insertions, from the empty window
    the scan starts with. *)
Definition window_after (samples : list (Frame * Q)) : list Frame * list Q :=
  fold_left (fun w s => store_sample (fst w) (snd w) (fst s) (snd s))
            samples ([], []).

(** The frames the scan stores: those whose ordinal, counted from
    [ordinal] for the head, is a multiple of [frame_skip_interval]. *)
Fixpoint sampled_from (ordinal : Z) (video : list Frame) : list Frame :=
  match video with
  | [] => []
  | frame :: rest =>
      if ordinal mod frame_skip_interval =? 0
      then frame :: sampled_from (ordinal + 1) rest
      else sampled_from (ordinal + 1) rest
  end.

Definition with_score (frame : Frame) : Frame * Q :=
  (frame, fst (detect_game_end frame)).

End Extraction.

Arguments store_sample {Frame}.
Arguments window_after {Frame}.
Arguments sampled_from {Frame}.
Arguments select_result_frames {Frame}.
Arguments mkVideo {Frame}.
Arguments is_opened {Frame}.
Arguments cap_fps {Frame}.
Arguments decoded {Frame}.

(** *** Saving the extracted statistics *)

(** [class PlayerStats(BaseModel)] *)
Record PlayerStats : Type := mkPlayerStats {
  is_online_match : bool;
  smash_character : string;
  player_name : string;
  is_cpu : bool;
  total_kos : Z;
  total_falls : Z;
  total_sds : Z;
  has_won : bool
}.

(** A row of the [players] table, as the upsert returns it. *)
Record PlayerRow : Type := mkPlayerRow {
  player_id : string;
  player_elo : Z;
  display_name : string
}.

(** The row inserted into [match_participants]. *)
Record ParticipantRow : Type := mkParticipantRow {
  pr_player : string;
  pr_smash_character : string;
  pr_is_cpu : bool;
  pr_total_kos : Z;
  pr_total_falls : Z;
  pr_total_sds : Z;
  pr_has_won : bool;
  pr_match_id : Z;
  pr_created_at : DateTime
}.

(** The entries of the local [players] list of [save_match_stats]. *)
Record SavedPlayer : Type := mkSavedPlayer {
  sp_id : string;
  sp_elo : Z;
  sp_name : string;
  sp_character : string;
  sp_has_won : bool;
  sp_kos : Z;
  sp_falls : Z;
  sp_sds : Z
}.

Inductive Winner : Type := WinnerA | WinnerB.

(** Writes that reached the record store. *)
Inductive DbWrite : Type :=
| InsertMatch (created_at : DateTime) (id : Z)
| UpsertPlayer (name : string)
| InsertParticipant (row : ParticipantRow)
| UpdateElo (player : string) (elo : Z)
| UpdateInactivity.

(** The record store and the rating module as [save_match_stats] sees
    them.  [elo_utils] is not part of the sources at hand; its two
    functions are taken as they are called. *)
Record Store : Type := mkStore {
  supabase_client : bool;                        (* the client is not [None] *)
  insert_match : DateTime -> PyResult Z;         (* the id of the new row *)
  upsert_player : string -> PyResult PlayerRow;
  insert_participant : ParticipantRow -> PyResult unit;
  update_elo : string -> Z -> PyResult unit;
  calculate_elo_update_for_streaming :
    Z -> Z -> Winner -> string -> string -> PyResult (Z * Z);
  update_inactivity_status : PyResult unit
}.

(** [create_match] *)
Definition create_match (db : Store) (created_at : DateTime) : option Z * list DbWrite :=
  if negb (supabase_client db) then (None, [])
  else match insert_match db created_at with
       | Ret id => (Some id, [InsertMatch created_at id])
       | Raise _ => (None, [])
       end.

(** [get_player] *)
Definition get_player (db : Store) (name : string) : option PlayerRow * list DbWrite :=
  if negb (supabase_client db) then (None, [])
  else match upsert_player db name with
       | Ret row => (Some row, [UpsertPlayer name])
       | Raise _ => (None, [])
       end.

(** [update_player_elo]: logs and swallows its own exceptions. *)
Definition update_player_elo (db : Store) (player : string) (elo : Z) : list DbWrite :=
  if negb (supabase_client db) then []
  else match update_elo db player elo with
       | Ret _ => [UpdateElo player elo]
       | Raise _ => []
       end.

(** The three patterns of the unknown-player test. *)
Definition unknown_player_name (name : string) : bool :=
  PyStr.match_literal_number "Player " name
  || PyStr.match_literal_number "P" name
  || PyStr.match_literal_number "P " name.

(** The loop [for stat in stats] that saves the participants; it returns
    the [players] list, or the exception that left the loop. *)
Fixpoint save_participants (db : Store) (match_id : Z) (created_at : DateTime)
         (stats : list PlayerStats) (players : list SavedPlayer)
  : PyResult (list SavedPlayer) * list DbWrite :=
  match stats with
  | [] => (Ret players, [])
  | stat :: rest =>
      match get_player db (player_name stat) with
      | (None, w) =>
          let (r, w') := save_participants db match_id created_at rest players in
          (r, w ++ w')
      | (Some player, w) =>
          let row := mkParticipantRow (player_id player)
                       (PyStr.upper (smash_character stat)) (is_cpu stat)
                       (total_kos stat) (total_falls stat) (total_sds stat)
                       (has_won stat) match_id created_at in
          match insert_participant db row with
          | Raise e => (Raise e, w)
          | Ret _ =>
              let saved := mkSavedPlayer (player_id player) (player_elo player)
                             (display_name player) (smash_character stat)
                             (has_won stat) (total_kos stat) (total_falls stat)
                             (total_sds stat) in
              let (r, w') := save_participants db match_id created_at rest
                               (players ++ [saved]) in
              (r, w ++ [InsertParticipant row] ++ w')
          end
      end
  end.

(** The rating update [if len(stats) == 2]. *)
Definition update_ratings (db : Store) (stats : list PlayerStats)
           (players : list SavedPlayer) : PyResult unit * list DbWrite :=
  if Z.of_nat (List.length stats) =? 2 then
    match players with
    | p0 :: p1 :: _ =>
        let winner := if sp_has_won p0 then WinnerA else WinnerB in
        match calculate_elo_update_for_streaming db (sp_elo p0) (sp_elo p1) winner
                (sp_id p0) (sp_id p1) with
        | Ret (new_elo_1, new_elo_2) =>
            (Ret tt, update_player_elo db (sp_id p0) new_elo_1
                     ++ update_player_elo db (sp_id p1) new_elo_2)
        | Raise e => (Raise e, [])
        end
    | _ => (Raise IndexError, [])
    end
  else (Ret tt, []).

(** [stats[0].is_online_match]; the list is not empty when the test is
    reached, an empty list being a no contest. *)
Definition first_is_online (stats : list PlayerStats) : PyResult bool :=
  match stats with
  | stat :: _ => Ret (is_online_match stat)
  | [] => Raise IndexError
  end.

(** [save_match_stats]: the returned flag, the writes made and the log. *)
Definition save_match_stats (db : Store) (stats : list PlayerStats)
           (created_at : DateTime) : bool * list DbWrite * list LogLine :=
  if negb (supabase_client db) then (false, [], [ErrNoSupabase])
  else
    let match_is_no_contest := forallb (fun stat => negb (has_won stat)) stats in
    if match_is_no_contest then (false, [], [WarnNoContest])
    else
      let match_has_cpu := existsb is_cpu stats in
      if match_has_cpu then (false, [], [WarnHasCpu])
      else if existsb (fun stat => unknown_player_name (player_name stat)) stats
      then (false, [], [WarnUnknownPlayers])
      else
        match first_is_online stats with
        | Raise e => (false, [], [ErrSaving e])
        | Ret true => (false, [], [WarnOnline])
        | Ret false =>
            match create_match db created_at with
            | (None, w) => (false, w, [])
            | (Some match_id, w) =>
                match save_participants db match_id created_at stats [] with
                | (Raise e, w1) => (false, w ++ w1, [ErrSaving e])
                | (Ret players, w1) =>
                    match update_ratings db stats players with
                    | (Raise e, w2) => (false, w ++ w1 ++ w2, [ErrSaving e])
                    | (Ret _, w2) =>
                        match update_inactivity_status db with
                        | Raise e => (false, w ++ w1 ++ w2, [ErrSaving e])
                        | Ret _ => (true, w ++ w1 ++ w2 ++ [UpdateInactivity], [])
                        end
                    end
                end
            end
        end.

(** *** One file, and the batch *)

Section Orchestrator.

Variable Frame : Type.
Variable bright_ratio : Frame -> option Q.

(** What the collaborators deliver for one video file. *)
Record VideoFile : Type := mkVideoFile {
  creation_time : PyResult DateTime;         (* get_file_creation_time *)
  capture : Video Frame;
  writer_opens : bool;                       (* cv2.VideoWriter(...).isOpened() *)
  match_stats : option (list PlayerStats)    (* get_match_stats *)
}.

(** [create_result_video]; the path of the artifact is not modelled. *)
Definition create_result_video (file : VideoFile) (frames : list Frame) : option unit :=
  match frames with
  | [] => None
  | _ => if writer_opens file then Some tt else None
  end.

(** [process_video] *)
Definition process_video (dry_run : bool) (db : Store) (file : VideoFile)
  : PyResult bool * list DbWrite * list LogLine :=
  match creation_time file with
  | Raise e => (Raise e, [], [])
  | Ret created_at =>
      if dry_run then (Ret true, [], [InfoDryRun])
      else
        match extract_result_screen Frame bright_ratio (capture file) with
        | (None, log) => (Ret false, [], log ++ [ErrExtractFailed])
        | (Some (result_frames, frame_42_image, fps), log) =>
            match create_result_video file result_frames with
            | None => (Ret false, [], log ++ [ErrCreateVideoFailed])
            | Some _ =>
                match match_stats file with
                | None | Some [] => (Ret false, [], log ++ [ErrStatsFailed])
                | Some stats =>
                    let '(success, w, log') := save_match_stats db stats created_at in
                    (Ret success, w,
                     log ++ log' ++ [if success then InfoSaved else WarnNotSaved])
                end
            end
        end
  end.

(** The counters of the batch summary. *)
Record Counts : Type := mkCounts {
  processed_count : Z;
  skipped_count : Z;
  failed_count : Z
}.

(** The body of the loop of [process_all] for one file. *)
Definition process_one (dry_run : bool) (db : Store) (c : Counts) (file : VideoFile)
  : Counts :=
  match fst (fst (process_video dry_run db file)) with
  | Ret true => mkCounts (processed_count c + 1) (skipped_count c) (failed_count c)
  | Ret false => mkCounts (processed_count c) (skipped_count c + 1) (failed_count c)
  | Raise _ => mkCounts (processed_count c) (skipped_count c) (failed_count c + 1)
  end.

(** [process_all], from the counters of [__init__]. *)
Definition process_all (dry_run : bool) (db : Store) (files : list VideoFile) : Counts :=
  fold_left (process_one dry_run db) files (mkCounts 0 0 0).

End Orchestrator.

End Batch.

(** ** youtube_uploader.py *)

Module Youtube.

(** An entry of [metadata['players']].  The callers in the repository
    build every entry with all six keys; a value read from the record
    store may be [None]. *)
Record Player : Type := mkPlayer {
  name : option string;
  character : option string;
  kos : Z;
  falls : Z;
  sds : Z;
  won : bool
}.

(** The [metadata] dictionary; the callers always put a [datetime] under
    ['timestamp']. *)
Record Metadata : Type := mkMetadata {
  players : list Player;
  timestamp : DateTime
}.

(** Truthiness of a value that is a string or [None]. *)
Definition truthy_opt (v : option string) : bool :=
  match v with Some s => PyStr.truthy s | None => false end.

(** [f"{v}"] for a value that is a string or [None] *)
Definition format_opt (v : option string) : string :=
  match v with Some s => s | None => "None" end.

(** [p.get('character', '').title()]: [None] has no method [title]. *)
Definition titled_character (p : Player) : PyResult string :=
  match character p with
  | Some c => Ret (PyStr.title c)
  | None => Raise AttributeError
  end.

(** The [try] block of [build_title]: the two-player title, [Ret None]
    when the block falls through, [Raise] when it leaves by an exception. *)
Definition versus_title (match_id : Z) (metadata : Metadata) : PyResult (option string) :=
  match players metadata with
  | p1 :: p2 :: _ =>
      let p1_name := name p1 in
      let p2_name := name p2 in
      match titled_character p1 with
      | Raise e => Raise e
      | Ret p1_char =>
          match titled_character p2 with
          | Raise e => Raise e
          | Ret p2_char =>
              if truthy_opt p1_name && truthy_opt p2_name
                 && PyStr.truthy p1_char && PyStr.truthy p2_char
              then Ret (Some (format_opt p1_name +++ " (" +++ p1_char +++ ") vs "
                              +++ format_opt p2_name +++ " (" +++ p2_char
                              +++ ") - Match #" +++ PyStr.of_Z match_id))
              else Ret None
          end
      end
  | _ => Ret None
  end.

(** The fallback of [build_title] *)
Definition fallback_title (match_id : Z) (metadata : Metadata) : string :=
  "Match #" +++ PyStr.of_Z match_id +++ " - "
  +++ Calendar.strftime_minutes (timestamp metadata).

(** [build_title] *)
Definition build_title (match_id : Z) (metadata : Metadata) : string :=
  match versus_title match_id metadata with
  | Ret (Some t) => t
  | Ret None | Raise _ => fallback_title match_id metadata
  end.

(** [build_description] and [build_tags] produce text that no later step
    inspects; what matters to [upload_video] is whether they raise.
    [build_description] calls [.title()] on every character and
    [build_tags] calls [.strip()] on every name and character. *)
Definition build_description_raises (metadata : Metadata) : bool :=
  existsb (fun p => match character p with None => true | Some _ => false end)
          (players metadata).

Definition build_tags_raises (metadata : Metadata) : bool :=
  existsb (fun p => match name p with None => true | Some _ => false end)
          (players metadata)
  || existsb (fun p => match character p with None => true | Some _ => false end)
             (players metadata).

(** The fields of [YouTubeUploader]; a date is a day number. *)
Record Uploader : Type := mkUploader {
  youtube : bool;                        (* [self.youtube] is set *)
  daily_upload_count : Z;
  last_reset_date : Z;
  default_playlist_id : option string
}.

(** [__init__], run on the date [today] *)
Definition init (today : Z) : Uploader := mkUploader false 0 today None.

Definition daily_limit : Z := 5.

(** [check_quota_available], with [today = datetime.now().date()] *)
Definition check_quota_available (u : Uploader) (today : Z) : bool * Uploader :=
  let u := if negb (today =? last_reset_date u)
           then mkUploader (youtube u) 0 today (default_playlist_id u)
           else u in
  if daily_limit <=? daily_upload_count u then (false, u) else (true, u).

(** What the hosting service does on the successive calls of
    [request.next_chunk()]: it answers with a response (carrying an ['id']
    or not), reports progress without a response, or raises. *)
Inductive Transfer : Type :=
| Responds (video_id : option string)
| Progress (next : Transfer)
| Fails (e : Exn) (next : Transfer).

Definition max_retries : Z := 3.

(** [e.resp.status in [500, 502, 503, 504]] *)
Definition retriable_status (status : Z) : bool :=
  (status =? 500) || (status =? 502) || (status =? 503) || (status =? 504).

(** What one call of [_resumable_upload] did. *)
Record Trace : Type := mkTrace {
  attempts : nat;            (* calls of [next_chunk] *)
  sleeps : list Q            (* the arguments of [time.sleep], in order *)
}.

Definition no_trace : Trace := mkTrace 0 [].

Definition attempt (t : Trace) : Trace := mkTrace (S (attempts t)) (sleeps t).
Definition slept (t : Trace) (s : Q) : Trace := mkTrace (attempts t) (sleeps t ++ [s]).

Section ResumableUpload.

(** [random.random()]: the value of the k-th draw of this upload. *)
Variable random : nat -> Q.

(** The part of the loop body after the [try] statement. *)
Definition after_attempt (loop : bool -> Z -> Trace -> PyResult (option string) * Trace)
           (error : bool) (retry : Z) (t : Trace)
  : PyResult (option string) * Trace :=
  if error then
    let retry := retry + 1 in
    if max_retries <? retry then (Ret None, t)
    else
      let max_sleep := 2 ^ retry in
      let sleep_seconds := (random (List.length (sleeps t)) * inject_Z max_sleep)%Q in
      loop error retry (slept t sleep_seconds)
  else loop error retry t.

(** The [while] loop of [_resumable_upload].  [error] tells whether the
    variable [error] is set, which it stays once a retriable failure
    occurred. *)
Fixpoint resumable_loop (request : Transfer) (error : bool) (retry : Z) (t : Trace)
  : PyResult (option string) * Trace :=
  if negb (retry <=? max_retries) then (Ret None, t)
  else
    match request with
    | Responds (Some id) => (Ret (Some id), attempt t)
    | Responds None => (Ret None, attempt t)
    | Progress next => after_attempt (resumable_loop next) error retry (attempt t)
    | Fails (HttpError status) next =>
        if retriable_status status
        then after_attempt (resumable_loop next) true retry (attempt t)
        else (Raise (HttpError status), attempt t)
    | Fails _ next => after_attempt (resumable_loop next) true retry (attempt t)
    end.

(** [_resumable_upload] *)
Definition resumable_upload (request : Transfer) : PyResult (option string) * Trace :=
  resumable_loop request false 0 no_trace.

(** What the collaborators deliver during one call of [upload_video]. *)
Record UploadEnv : Type := mkUploadEnv {
  file_exists : bool;                          (* os.path.exists(filepath) *)
  today : Z;                                   (* datetime.now().date() *)
  authenticates : bool;                        (* get_authenticated_service() succeeds *)
  request : Transfer;
  playlist_lookup : PyResult (option string);  (* get_or_create_playlist *)
  playlist_add : PyResult bool                 (* add_video_to_playlist *)
}.

Definition set_youtube (u : Uploader) : Uploader :=
  mkUploader true (daily_upload_count u) (last_reset_date u) (default_playlist_id u).

Definition count_upload (u : Uploader) : Uploader :=
  mkUploader (youtube u) (daily_upload_count u + 1) (last_reset_date u)
             (default_playlist_id u).

Definition set_playlist (u : Uploader) (p : option string) : Uploader :=
  mkUploader (youtube u) (daily_upload_count u) (last_reset_date u) p.

Definition video_url (video_id : string) : string :=
  "https://www.youtube.com/watch?v=" +++ video_id.

(** The playlist step at the end of [upload_video]; an exception other
    than [HttpError] leaves [upload_video] through its last handler. *)
Definition add_to_playlist (u : Uploader) (env : UploadEnv)
           (playlist_name : option string) : PyResult unit * Uploader :=
  if truthy_opt playlist_name then
    let looked_up :=
      if negb (truthy_opt (default_playlist_id u))
      then match playlist_lookup env with
           | Ret p => Ret (set_playlist u p)
           | Raise e => Raise e
           end
      else Ret u in
    match looked_up with
    | Raise e => (Raise e, u)
    | Ret u =>
        if truthy_opt (default_playlist_id u)
        then match playlist_add env with
             | Ret _ => (Ret tt, u)
             | Raise e => (Raise e, u)
             end
        else (Ret tt, u)
    end
  else (Ret tt, u).

(** The [try] block of [upload_video], entered once [self.youtube] is
    set: the returned URL, the uploader afterwards and the trace of the
    transfer.  Both handlers return [None]. *)
Definition try_upload (u : Uploader) (env : UploadEnv) (match_id : Z)
           (metadata : Metadata) (playlist_name : option string)
  : option string * Uploader * Trace :=
  let title := build_title match_id metadata in
  if build_description_raises metadata || build_tags_raises metadata
  then (None, u, no_trace)
  else
    match resumable_upload (request env) with
    | (Raise _, t) => (None, u, t)
    | (Ret None, t) => (None, u, t)
    | (Ret (Some video_id), t) =>
        let u := count_upload u in
        match add_to_playlist u env playlist_name with
        | (Ret _, u) => (Some (video_url video_id), u, t)
        | (Raise _, u) => (None, u, t)
        end
    end.

(** [upload_video] *)
Definition upload_video (u : Uploader) (env : UploadEnv) (match_id : Z)
           (metadata : Metadata) (playlist_name : option string)
  : option string * Uploader * Trace :=
  if negb (file_exists env) then (None, u, no_trace)
  else
    let (available, u) := check_quota_available u (today env) in
    if negb available then (None, u, no_trace)
    else if negb (youtube u)
    then (if authenticates env
          then try_upload (set_youtube u) env match_id metadata playlist_name
          else (None, u, no_trace))
    else try_upload u env match_id metadata playlist_name.

End ResumableUpload.

(** *** The description and the tags *)

Definition month_name (m : Z) : string :=
  nth (Z.to_nat (m - 1))
      ["January"; "February"; "March"; "April"; "May"; "June"; "July"; "August";
       "September"; "October"; "November"; "December"] "".

(** [d.strftime('%B %d, %Y %I:%M %p')] in the C locale *)
Definition strftime_long (d : DateTime) : string :=
  let hour12 := if hour d mod 12 =? 0 then 12 else hour d mod 12 in
  month_name (month d) +++ " " +++ PyStr.pad 2 (day d) +++ ", " +++ PyStr.pad 4 (year d)
  +++ " " +++ PyStr.pad 2 hour12 +++ ":" +++ PyStr.pad 2 (minute d)
  +++ " " +++ (if hour d <? 12 then "AM" else "PM").

(** The line of one player in the description. *)
Definition player_line (p : Player) : PyResult string :=
  match character p with
  | None => Raise AttributeError
  | Some c =>
      Ret ("- " +++ format_opt (name p) +++ " (" +++ PyStr.title c +++ ") - "
           +++ PyStr.of_Z (kos p) +++ " KOs, " +++ PyStr.of_Z (falls p) +++ " Falls, "
           +++ PyStr.of_Z (sds p) +++ " SD" +++ (if won p then " - WINNER" else ""))
  end.

Fixpoint player_lines (ps : list Player) : PyResult (list string) :=
  match ps with
  | [] => Ret []
  | p :: rest =>
      match player_line p with
      | Raise e => Raise e
      | Ret line =>
          match player_lines rest with
          | Raise e => Raise e
          | Ret lines => Ret (line :: lines)
          end
      end
  end.

(** The list [lines] of [build_description] *)
Definition description_lines (match_id : Z) (metadata : Metadata)
  : PyResult (list string) :=
  let head := ["Super Smash Bros Ultimate Match"; "";
               "Match ID: " +++ PyStr.of_Z match_id;
               "Date: " +++ strftime_long (timestamp metadata); ""] in
  let foot := ["Recorded with automated capture system"] in
  match players metadata with
  | [] => Ret (head ++ foot)
  | ps =>
      match player_lines ps with
      | Raise e => Raise e
      | Ret lines => Ret (head ++ ["Players:"] ++ lines ++ [""] ++ foot)
      end
  end.

(** [build_description] *)
Definition build_description (match_id : Z) (metadata : Metadata) : PyResult string :=
  match description_lines match_id metadata with
  | Raise e => Raise e
  | Ret lines => Ret (String.concat (String PyStr.newline "") lines)
  end.

Definition base_tags : list string :=
  ["super smash bros"; "smash ultimate"; "ssbu"; "gameplay"; "competitive"].

Definition placeholder_names : list string :=
  ["unknown"; "player 1"; "player 2"; "player 3"; "player 4"].

(** The first loop of [build_tags]: the tags of the names. *)
Fixpoint name_tags (ps : list Player) : PyResult (list string) :=
  match ps with
  | [] => Ret []
  | p :: rest =>
      match name p with
      | None => Raise AttributeError
      | Some n =>
          let name := PyStr.strip n in
          match name_tags rest with
          | Raise e => Raise e
          | Ret tags =>
              Ret (if PyStr.truthy name
                      && negb (existsb (String.eqb (PyStr.lower name)) placeholder_names)
                   then PyStr.lower name :: tags
                   else tags)
          end
      end
  end.

(** The second loop: the tags of the characters. *)
Fixpoint character_tags (ps : list Player) : PyResult (list string) :=
  match ps with
  | [] => Ret []
  | p :: rest =>
      match character p with
      | None => Raise AttributeError
      | Some c =>
          let char := PyStr.lower (PyStr.strip c) in
          match character_tags rest with
          | Raise e => Raise e
          | Ret tags =>
              Ret (if PyStr.truthy char && negb (char =? "unknown")%string
                   then char :: tags
                   else tags)
          end
      end
  end.

(** [list(dict.fromkeys(tags))]: the first occurrence of every tag, in
    order. *)
Fixpoint dedupe (tags : list string) : list string :=
  match tags with
  | [] => []
  | tag :: rest => tag :: filter (fun t => negb (t =? tag)%string) (dedupe rest)
  end.

(** [build_tags] *)
Definition build_tags (metadata : Metadata) : PyResult (list string) :=
  match name_tags (players metadata) with
  | Raise e => Raise e
  | Ret names =>
      match character_tags (players metadata) with
      | Raise e => Raise e
      | Ret characters => Ret (firstn 30 (dedupe (base_tags ++ names ++ characters)))
      end
  end.

End Youtube.

(** ** bulk_upload_to_youtube.py *)

Module Bulk.

(** *** Filenames *)

(** The dictionary [parse_filename] returns. *)
Record Parsed : Type := mkParsed {
  match_id : option Z;
  timestamp : DateTime
}.

(** A full match of [\d{8}_\d{6}] *)
Definition is_timestamp (s : string) : bool :=
  (String.length s =? 15)%nat
  && PyStr.all_digits (substring 0 8 s)
  && (substring 8 1 s =? "_")%string
  && PyStr.all_digits (substring 9 6 s).

Definition field (from len : nat) (s : string) : Z :=
  PyStr.int_of_digits (substring from len s).

(** [datetime.strptime(s, "%Y%m%d_%H%M%S")] for [s] matching
    [\d{8}_\d{6}]: every directive takes its full width, and a field out
    of range is a [ValueError]. *)
Definition strptime (s : string) : PyResult DateTime :=
  let d := mkDateTime (field 0 4 s) (field 4 2 s) (field 6 2 s)
                      (field 9 2 s) (field 11 2 s) (field 13 2 s) 0 in
  if Calendar.valid d then Ret d else Raise ValueError.

(** [re.match(r'^(\d+)-(\d{8}_\d{6})$', base)]: the two groups. *)
Definition match_id_and_timestamp (base : string) : option (string * string) :=
  let (digits, rest) := PyStr.span_digits (PyStr.chomp base) in
  if PyStr.truthy digits then
    match PyStr.strip_prefix "-" rest with
    | Some ts => if is_timestamp ts then Some (digits, ts) else None
    | None => None
    end
  else None.

(** [re.match(r'^(\d{8}_\d{6})$', base)]: the group. *)
Definition match_timestamp_only (base : string) : option string :=
  let ts := PyStr.chomp base in
  if is_timestamp ts then Some ts else None.

(** [parse_filename] *)
Definition parse_filename (filename : string) : PyResult (option Parsed) :=
  let base := PyStr.remove_all ".mp4" filename in
  match match_id_and_timestamp base with
  | Some (id_str, timestamp_str) =>
      let match_id := PyStr.int_of_digits id_str in
      match strptime timestamp_str with
      | Ret timestamp => Ret (Some (mkParsed (Some match_id) timestamp))
      | Raise e => Raise e
      end
  | None =>
      match match_timestamp_only base with
      | Some timestamp_str =>
          match strptime timestamp_str with
          | Ret timestamp => Ret (Some (mkParsed None timestamp))
          | Raise e => Raise e
          end
      | None => Ret None
      end
  end.

(** [os.path.basename] on a POSIX path: what follows the last slash. *)
Fixpoint basename_from (acc : string) (path : string) : string :=
  match path with
  | EmptyString => acc
  | String c r =>
      if Ascii.eqb c "/" then basename_from r r
      else basename_from acc r
  end.

Definition basename (path : string) : string := basename_from path path.

(** The test [scan_directory] applies to the names of a directory. *)
Definition is_match_video (filename : string) : bool :=
  PyStr.ends_with ".mp4" filename && negb (PyStr.contains "result_screen" filename).

(** *** The record store and the uploader, as [BulkUploader] sees them *)

(** An embedded row of [match_participants]. *)
Record Participant : Type := mkParticipant {
  player : option string;            (* id of the player; [None] when null *)
  smash_character : option string;
  is_cpu : bool;
  total_kos : Z;
  total_falls : Z;
  total_sds : Z;
  has_won : bool
}.

(** A row of [matches].  [created_at] is the instant in UTC; the column
    is filled at creation. *)
Record MatchRecord : Type := mkMatchRecord {
  id : Z;
  created_at : DateTime;
  youtube_url : option string;
  match_participants : list Participant
}.

Record PlayerRow : Type := mkPlayerRow {
  player_id : string;
  display_name : option string
}.

(** [self.stats] *)
Record Stats : Type := mkStats {
  total_files : Z;
  already_uploaded : Z;
  successful : Z;
  failed : Z;
  skipped : Z
}.

(** One call of [upload_video]. *)
Record UploadCall : Type := mkUploadCall {
  call_filepath : string;
  call_match_id : Z;
  call_metadata : Youtube.Metadata;
  call_trace : Youtube.Trace
}.

(** Everything a run reads and changes: the two tables (rows in the
    order the store returns them), the number of store requests made, the
    process-wide uploader, the calls of [upload_video] made so far, and
    the statistics. *)
Record World : Type := mkWorld {
  matches : list MatchRecord;
  players : list PlayerRow;
  requests : nat;
  uploader : Youtube.Uploader;
  uploads : list UploadCall;
  stats : Stats
}.

Definition M (A : Type) : Type := World -> A * World.

Definition ret {A : Type} (a : A) : M A := fun w => (a, w).

Definition bind {A B : Type} (m : M A) (k : A -> M B) : M B :=
  fun w => let (a, w') := m w in k a w'.

Notation "x <- m ;; k" := (bind m (fun x => k))
  (at level 61, m at next level, right associativity).
Notation "m ;;; k" := (bind m (fun _ => k))
  (at level 61, right associativity).

Definition count_request (w : World) : World :=
  mkWorld (matches w) (players w) (S (requests w)) (uploader w) (uploads w) (stats w).

Definition set_matches (ms : list MatchRecord) : M unit :=
  fun w => (tt, mkWorld ms (players w) (requests w) (uploader w) (uploads w) (stats w)).

Definition set_stats (f : Stats -> Stats) : M unit :=
  fun w => (tt, mkWorld (matches w) (players w) (requests w) (uploader w)
                        (uploads w) (f (stats w))).

Definition count_already_uploaded (s : Stats) : Stats :=
  mkStats (total_files s) (already_uploaded s + 1) (successful s) (failed s) (skipped s).
Definition count_successful (s : Stats) : Stats :=
  mkStats (total_files s) (already_uploaded s) (successful s + 1) (failed s) (skipped s).
Definition count_failed (s : Stats) : Stats :=
  mkStats (total_files s) (already_uploaded s) (successful s) (failed s + 1) (skipped s).
Definition count_skipped (s : Stats) : Stats :=
  mkStats (total_files s) (already_uploaded s) (successful s) (failed s) (skipped s + 1).
Definition set_total_files (n : Z) (s : Stats) : Stats :=
  mkStats n (already_uploaded s) (successful s) (failed s) (skipped s).

(** [min(items, key=key)] on a non-empty list: the first item whose key
    is minimal. *)
Definition min_by {A : Type} (key : A -> Z) (first : A) (rest : list A) : A :=
  fold_left (fun best item => if key item <? key best then item else best) rest first.

Section Run.

(** The collaborators.  [store_fails k] tells whether the k-th request
    to the record store raises; [upload_env k] and [random k] are what
    the k-th call of [upload_video] meets; [local_epoch] is
    [int(timestamp.timestamp())] in the time zone of the host. *)
Variable store_fails : nat -> bool.
Variable upload_env : nat -> Youtube.UploadEnv.
Variable random : nat -> nat -> Q.
Variable local_epoch : DateTime -> Z.

(** [self.dry_run] *)
Variable dry_run : bool.

(** One [.execute()]: [true] when it raises. *)
Definition execute : M bool :=
  fun w => (store_fails (requests w), count_request w).

(** The key of the [min] in [find_match_by_timestamp]: the distance in
    time to the probe.  The code compares [total_seconds()], a float;
    the order of these floats is the order of the distances counted in
    microseconds. *)
Definition time_delta (probe : DateTime) (m : MatchRecord) : Z :=
  Z.abs (Calendar.utc_micros (created_at m) - Calendar.utc_micros probe).

(** The rows the range query returns: [gte] and [lte] on [created_at]. *)
Definition in_window (probe : DateTime) (tolerance_seconds : Z) (m : MatchRecord) : bool :=
  let start_time := Calendar.utc_micros probe - tolerance_seconds * 1000000 in
  let end_time := Calendar.utc_micros probe + tolerance_seconds * 1000000 in
  (start_time <=? Calendar.utc_micros (created_at m))
  && (Calendar.utc_micros (created_at m) <=? end_time).

(** Lines 109-123: what is made of [response.data]. *)
Definition pick_match (probe : DateTime) (data : list MatchRecord) : option MatchRecord :=
  match data with
  | [] => None
  | [m] => Some m
  | m :: rest => Some (min_by (time_delta probe) m rest)
  end.

(** [find_match_by_timestamp] *)
Definition find_match_by_timestamp (timestamp : DateTime) (tolerance_seconds : Z)
  : M (option MatchRecord) :=
  raised <- execute ;;
  if raised : bool then ret None
  else fun w => (pick_match timestamp
                   (filter (in_window timestamp tolerance_seconds) (matches w)), w).

(** The lookup of one display name in [get_match_metadata]. *)
Definition player_name_of (p : Participant) : M (option string) :=
  match player p with
  | Some player_id' =>
      if PyStr.truthy player_id' then
        raised <- execute ;;
        if raised : bool then ret (Some "Unknown")
        else fun w =>
               match filter (fun r => (player_id r =? player_id')%string) (players w) with
               | r :: _ => (display_name r, w)
               | [] => (Some "Unknown", w)
               end
      else ret (Some "Unknown")
  | None => ret (Some "Unknown")
  end.

Fixpoint metadata_players (ps : list Participant) : M (list Youtube.Player) :=
  match ps with
  | [] => ret []
  | p :: rest =>
      player_name <- player_name_of p ;;
      tail <- metadata_players rest ;;
      ret (Youtube.mkPlayer player_name (smash_character p) (total_kos p)
                            (total_falls p) (total_sds p) (has_won p) :: tail)
  end.

(** [get_match_metadata] *)
Definition get_match_metadata (match_record : MatchRecord) : M Youtube.Metadata :=
  players <- metadata_players (match_participants match_record) ;;
  ret (Youtube.mkMetadata players (created_at match_record)).

(** [build_legacy_metadata] *)
Definition build_legacy_metadata (timestamp : DateTime) : Youtube.Metadata :=
  Youtube.mkMetadata
    [Youtube.mkPlayer (Some "Unknown") (Some "Unknown") 0 0 0 false] timestamp.

Definition has_id (match_id : Z) (m : MatchRecord) : bool := id m =? match_id.

(** [is_already_uploaded] *)
Definition is_already_uploaded (match_id : option Z) : M bool :=
  match match_id with
  | None => ret false
  | Some match_id =>
      raised <- execute ;;
      if raised : bool then ret false
      else fun w =>
             match filter (has_id match_id) (matches w) with
             | m :: _ => (Youtube.truthy_opt (youtube_url m), w)
             | [] => (false, w)
             end
  end.

Definition with_url (match_id : Z) (url : string) (m : MatchRecord) : MatchRecord :=
  if has_id match_id m
  then mkMatchRecord (id m) (created_at m) (Some url) (match_participants m)
  else m.

(** [save_youtube_url] *)
Definition save_youtube_url (match_id : Z) (url : string) : M bool :=
  raised <- execute ;;
  if raised : bool then ret false
  else fun w => (true, snd (set_matches (map (with_url match_id url) (matches w)) w)).

(** The module-level [upload_video]: the shared uploader makes the
    call, which is recorded. *)
Definition upload_video (filepath : string) (match_id : Z)
           (metadata : Youtube.Metadata) (playlist_name : option string)
  : M (option string) :=
  fun w =>
    let k := List.length (uploads w) in
    let '(url, u, t) := Youtube.upload_video (random k) (uploader w) (upload_env k)
                          match_id metadata playlist_name in
    (url, mkWorld (matches w) (players w) (requests w) u
                  (uploads w ++ [mkUploadCall filepath match_id metadata t])
                  (stats w)).

(** The fetch of the record by identifier, lines 241-251. *)
Definition fetch_match (match_id : Z) : M (option MatchRecord) :=
  raised <- execute ;;
  if raised : bool then ret None
  else fun w => (hd_error (filter (has_id match_id) (matches w)), w).

(** Truthiness of an integer or [None]: [if match_id] *)
Definition truthy_id (match_id : option Z) : bool :=
  match match_id with
  | Some n => negb (n =? 0)
  | None => false
  end.

(** The test of line 254, with the short circuit of [and]. *)
Definition skip_test (skip_uploaded : bool) (match_id : option Z) : M bool :=
  if skip_uploaded && truthy_id match_id then is_already_uploaded match_id
  else ret false.

(** Lines 232-251: the identifier and the record the file is linked to. *)
Definition resolve_match (parsed : Parsed) : M (option Z * option MatchRecord) :=
  match match_id parsed with
  | None =>
      match_record <- find_match_by_timestamp (timestamp parsed) 5 ;;
      ret (match match_record with
           | Some m => (Some (id m), match_record)
           | None => (None, match_record)
           end)
  | Some n =>
      match_record <- fetch_match n ;;
      ret (Some n, match_record)
  end.

(** Lines 259-266: the metadata, and the identifier the upload is filed
    under (the epoch second of the timestamp for a file without record
    and identifier). *)
Definition prepare_metadata (timestamp : DateTime) (match_id : option Z)
           (match_record : option MatchRecord) : M (Youtube.Metadata * option Z) :=
  match match_record with
  | Some m =>
      metadata <- get_match_metadata m ;;
      ret (metadata, match_id)
  | None =>
      ret (build_legacy_metadata timestamp,
           match match_id with
           | None => Some (local_epoch timestamp)
           | Some _ => match_id
           end)
  end.

(** Lines 273-289: the upload, and the write of the reference when the
    file is linked to a record. *)
Definition upload_and_save (filepath : string) (match_record : option MatchRecord)
           (match_id : Z) (metadata : Youtube.Metadata) (playlist_name : option string)
  : M bool :=
  youtube_url <- upload_video filepath match_id metadata playlist_name ;;
  if Youtube.truthy_opt youtube_url then
    match match_record, youtube_url with
    | Some _, Some url => save_youtube_url match_id url
    | _, _ => ret false
    end ;;;
    set_stats count_successful ;;;
    ret true
  else
    set_stats count_failed ;;;
    ret false.

(** [process_video], after the filename was parsed. *)
Definition process_parsed (filepath : string) (parsed : Parsed) (skip_uploaded : bool)
           (playlist_name : option string) : M bool :=
  found <- resolve_match parsed ;;
  let match_id := fst found in
  let match_record := snd found in
  skip <- skip_test skip_uploaded match_id ;;
  if skip : bool then
    set_stats count_already_uploaded ;;;
    ret false
  else
    prepared <- prepare_metadata (timestamp parsed) match_id match_record ;;
    let metadata := fst prepared in
    match snd prepared with
    | None => ret false   (* not reached: an identifier is fixed by now *)
    | Some match_id =>
        if dry_run then ret true
        else upload_and_save filepath match_record match_id metadata playlist_name
    end.

(** [process_video] *)
Definition process_video (filepath : string) (skip_uploaded : bool)
           (playlist_name : option string) : World -> PyResult bool * World :=
  fun w =>
    let filename := basename filepath in
    match parse_filename filename with
    | Raise e => (Raise e, w)
    | Ret None =>
        let (_, w) := set_stats count_skipped w in (Ret false, w)
    | Ret (Some parsed) =>
        let (r, w) := process_parsed filepath parsed skip_uploaded playlist_name w in
        (Ret r, w)
    end.

(** The body of the loop of [run]: an exception counts the file as
    failed. *)
Definition run_one (skip_uploaded : bool) (playlist_name : option string)
           (w : World) (filepath : string) : World :=
  match process_video filepath skip_uploaded playlist_name w with
  | (Ret _, w) => w
  | (Raise _, w) => snd (set_stats count_failed w)
  end.

(** [run], from the list [all_files] the directory scan delivers. *)
Definition run (all_files : list string) (skip_uploaded : bool)
           (playlist_name : option string) (w : World) : World :=
  let w := snd (set_stats (set_total_files (Z.of_nat (List.length all_files))) w) in
  fold_left (run_one skip_uploaded playlist_name) all_files w.

End Run.

End Bulk.

(** ** r2_storage.py *)

Module R2.

(** The fields of [R2StorageClient]: the four environment variables
    ([None] when unset) and [enabled]; [s3_client] is set exactly when
    [enabled] is. *)
Record Client : Type := mkClient {
  account_id : option string;
  access_key_id : option string;
  secret_access_key : option string;
  bucket_name : option string;
  enabled : bool
}.

(** [__init__], from [os.getenv] of the four variables *)
Definition init (account_id access_key_id secret_access_key bucket_name : option string)
  : Client :=
  mkClient account_id access_key_id secret_access_key bucket_name
           (forallb Youtube.truthy_opt
              [account_id; access_key_id; secret_access_key; bucket_name]).

(** One call of [s3_client.upload_file]; [put_metadata] is the entry
    ['Metadata'] of [ExtraArgs], present when the dictionary is not
    empty. *)
Record Put : Type := mkPut {
  put_file : string;
  put_bucket : option string;
  put_key : string;
  put_content_type : string;
  put_metadata : option (list (string * string))
}.

(** What the host delivers during one call of [upload_file]. *)
Record Host : Type := mkHost {
  file_exists : bool;               (* os.path.exists(file_path) *)
  s3_upload : PyResult unit         (* s3_client.upload_file(...) *)
}.

Definition public_url (c : Client) (object_key : string) : string :=
  "https://" +++ Youtube.format_opt (bucket_name c) +++ "."
  +++ Youtube.format_opt (account_id c) +++ ".r2.cloudflarestorage.com/" +++ object_key.

(** [upload_file]: the returned URL and the calls made to the bucket.
    Both handlers return [None]. *)
Definition upload_file (c : Client) (host : Host) (file_path object_key content_type : string)
           (metadata : list (string * string)) : option string * list Put :=
  if negb (enabled c) then (None, [])
  else if negb (file_exists host) then (None, [])
  else
    let extra_metadata := match metadata with [] => None | _ => Some metadata end in
    let call := mkPut file_path (bucket_name c) object_key content_type extra_metadata in
    match s3_upload host with
    | Ret _ => (Some (public_url c object_key), [call])
    | Raise _ => (None, [call])
    end.

(** [f"{folder}/{year}/{month}/{filename}"] with [year = timestamp[:4]]
    and [month = timestamp[4:6]] *)
Definition dated_key (folder timestamp filename : string) : string :=
  folder +++ "/" +++ substring 0 4 timestamp +++ "/" +++ substring 4 2 timestamp
  +++ "/" +++ filename.

Definition match_filename (match_id : Z) (timestamp : string) : string :=
  PyStr.of_Z match_id +++ "-" +++ timestamp +++ ".mp4".

Definition result_screen_filename (match_id : Z) (timestamp : string) : string :=
  PyStr.of_Z match_id +++ "-" +++ timestamp +++ "-result.mp4".

Definition frame_filename (match_id : Z) (timestamp : string) (frame_number : Z) : string :=
  PyStr.of_Z match_id +++ "-" +++ timestamp +++ "-frame_" +++ PyStr.of_Z frame_number
  +++ ".png".

(** [upload_match_video] *)
Definition upload_match_video (c : Client) (host : Host) (file_path : string)
           (match_id : Z) (timestamp : string) (participants : option (list string))
  : option string * list Put :=
  let object_key := dated_key "matches" timestamp (match_filename match_id timestamp) in
  let metadata := [("match-id", PyStr.of_Z match_id); ("timestamp", timestamp)] in
  let metadata :=
    match participants with
    | Some (p :: ps) => metadata ++ [("participants", String.concat "," (p :: ps))]
    | _ => metadata
    end in
  upload_file c host file_path object_key "video/mp4" metadata.

(** [upload_result_screen_video] *)
Definition upload_result_screen_video (c : Client) (host : Host) (file_path : string)
           (match_id : Z) (timestamp : string) : option string * list Put :=
  let object_key :=
    dated_key "result_screens" timestamp (result_screen_filename match_id timestamp) in
  upload_file c host file_path object_key "video/mp4"
    [("match-id", PyStr.of_Z match_id); ("timestamp", timestamp);
     ("type", "result-screen")].

(** [upload_frame_image] *)
Definition upload_frame_image (c : Client) (host : Host) (file_path : string)
           (match_id : Z) (timestamp : string) (frame_number : Z)
  : option string * list Put :=
  let object_key :=
    dated_key "frames" timestamp (frame_filename match_id timestamp frame_number) in
  upload_file c host file_path object_key "image/png"
    [("match-id", PyStr.of_Z match_id); ("timestamp", timestamp);
     ("frame-number", PyStr.of_Z frame_number)].

End R2.

(** ** Directory listings of the two scripts *)

Module Listing.

(** [sorted(items, key=key)] and [list.sort(key=key)]: the stable sort in
    the order of [str], which compares character by character. *)
Section Sort.

Context {A : Type} (key : A -> string).

Fixpoint insert (x : A) (sorted_tail : list A) : list A :=
  match sorted_tail with
  | [] => [x]
  | y :: rest =>
      if (key x <=? key y)%string then x :: sorted_tail else y :: insert x rest
  end.

Definition sorted (items : list A) : list A := fold_right insert [] items.

End Sort.

(** [os.path.join(a, b)] on a POSIX host *)
Definition join (a b : string) : string :=
  if prefix "/" b then b
  else if negb (PyStr.truthy a) || PyStr.ends_with "/" a then a +++ b
  else a +++ "/" +++ b.

Definition video_extensions : list string := [".mp4"; ".avi"; ".mov"; ".mkv"; ".webm"].

(** [filename.lower().endswith(video_extensions)] *)
Definition is_video_name (filename : string) : bool :=
  existsb (fun extension => PyStr.ends_with extension (PyStr.lower filename))
          video_extensions.

(** [get_video_files] of [batch_process_videos.py]; [listdir] is what
    [os.listdir(directory)] returns or raises. *)
Definition get_video_files (directory : string) (listdir : PyResult (list string))
  : PyResult (list string) :=
  match listdir with
  | Raise e => Raise e
  | Ret names =>
      Ret (sorted Bulk.basename (map (join directory) (filter is_video_name names)))
  end.

(** An entry of a directory: its name, and whether [os.path.isfile]
    holds of its path. *)
Record Entry : Type := mkEntry {
  entry_name : string;
  is_file : bool
}.

(** [scan_directory] of [bulk_upload_to_youtube.py]; the directory is
    [None] when [os.path.exists] fails. *)
Definition scan_directory (directory : string) (entries : option (list Entry))
  : list string :=
  match entries with
  | None => []
  | Some entries =>
      sorted (fun path => path)
        (map (fun e => join directory (entry_name e))
             (filter (fun e => Bulk.is_match_video (entry_name e) && is_file e) entries))
  end.

(** The name [create_result_video] gives the result-screen video of a
    source whose name without extension is [base_name], and the name
    [process_video] gives the image of frame 42. *)
Definition result_filename (base_name : string) : string :=
  base_name +++ "_result_screen.mp4".

Definition frame_42_filename (base_name : string) : string :=
  base_name +++ "_frame_42.png".

End Listing.

(** * Vocabulary of the statements, and concrete inputs *)

(** The number of samples evicted during the first [n] insertions:
    one chunk of 50 each time the window would exceed the capacity. *)
Definition evicted (n : Z) : Z := 50 * (Z.max 0 (n - 3551) / 50).

(** Following the words of the claim: the boundary is the last index whose
    score exceeds the threshold, [i] being the index of the head. *)
Fixpoint rightmost_exceeding_from (i : nat) (scores : list Q) : option nat :=
  match scores with
  | [] => None
  | c :: later =>
      match rightmost_exceeding_from (S i) later with
      | Some j => Some j
      | None => if Batch.Qgt_bool c Batch.game_end_confidence_threshold then Some i else None
      end
  end.

Definition rightmost_exceeding (scores : list Q) : option nat :=
  rightmost_exceeding_from O scores.

(** A recording of thirty frames, the frame being its own confidence: the
    second frame is exactly at the threshold, all later ones are below it.
    Every second frame is sampled, which leaves fifteen samples. *)
Definition threshold_recording : Batch.Video Q :=
  Batch.mkVideo true 30 ([0; 7 # 10] ++ repeat (1 # 2) 28)%Q.

(** Two recordings for the closed statements: the frame is its own
    confidence; of two decoded frames the second one is sampled. *)
Definition dark_recording : Batch.Video Q := Batch.mkVideo true 30 [0; 0]%Q.
Definition late_flash_recording : Batch.Video Q := Batch.mkVideo true 30 [0; 9 # 10]%Q.

(** A record store that accepts every write; the rating module leaves the
    ratings as they are. *)
Definition quiet_store : Batch.Store :=
  Batch.mkStore true (fun _ => Ret 1) (fun n => Ret (Batch.mkPlayerRow n 1000 n))
                (fun _ => Ret tt) (fun _ _ => Ret tt)
                (fun a b _ _ _ => Ret (a, b)) (Ret tt).

Definition some_time : DateTime := mkDateTime 2024 1 15 14 30 52 0.

(** The four conditions of the claim. *)
Definition no_contest (stats : list Batch.PlayerStats) : bool :=
  forallb (fun stat => negb (Batch.has_won stat)) stats.

Definition has_cpu (stats : list Batch.PlayerStats) : bool :=
  existsb Batch.is_cpu stats.

Definition has_unknown_player (stats : list Batch.PlayerStats) : bool :=
  existsb (fun stat => Batch.unknown_player_name (Batch.player_name stat)) stats.

Definition first_is_online (stats : list Batch.PlayerStats) : bool :=
  match stats with
  | stat :: _ => Batch.is_online_match stat
  | [] => false
  end.

Definition must_skip (stats : list Batch.PlayerStats) : bool :=
  no_contest stats || has_cpu stats || has_unknown_player stats || first_is_online stats.

(** Statistics of a match against a CPU, and of a match between two
    named players. *)
Definition mario_cpu_match : list Batch.PlayerStats :=
  [Batch.mkPlayerStats false "Mario" "habeas" false 3 1 0 true;
   Batch.mkPlayerStats false "Luigi" "CPU" true 1 3 0 false].

Definition offline_match : list Batch.PlayerStats :=
  [Batch.mkPlayerStats false "Mario" "habeas" false 3 1 0 true;
   Batch.mkPlayerStats false "Luigi" "jmoon" false 1 3 0 false].

(** A player entry has what the two-player title needs of it: a name and
    a character, neither [None] nor empty. *)
Definition title_ready (p : Youtube.Player) : bool :=
  Youtube.truthy_opt (Youtube.name p) && Youtube.truthy_opt (Youtube.character p).

Definition habeas : Youtube.Player := Youtube.mkPlayer (Some "habeas") (Some "MARIO") 3 1 0 true.
Definition jmoon : Youtube.Player := Youtube.mkPlayer (Some "jmoon") (Some "LUIGI") 1 3 0 false.
Definition kento : Youtube.Player := Youtube.mkPlayer (Some "kento") (Some "PEACH") 0 3 1 false.

(** The exceptions after which the loop tries again: the four listed
    server errors, and every exception that is not an HTTP error. *)
Definition retried (e : Exn) : bool :=
  match e with
  | HttpError status => Youtube.retriable_status status
  | _ => true
  end.

(** The counter as the quota check sees it: the stored count on the date
    of the last reset, zero on any other date. *)
Definition count_today (u : Youtube.Uploader) (today : Z) : Z :=
  if today =? Youtube.last_reset_date u then Youtube.daily_upload_count u else 0.

(** A service that answers the first [next_chunk] with a video. *)
Definition service_on (today : Z) : Youtube.UploadEnv :=
  Youtube.mkUploadEnv true today true (Youtube.Responds (Some "dQw4w9WgXcQ"))
                      (Ret None) (Ret true).

Definition versus_metadata : Youtube.Metadata :=
  Youtube.mkMetadata [habeas; jmoon] some_time.

(** Two records, two seconds before and two seconds after [some_time]. *)
Definition match_before : Bulk.MatchRecord :=
  Bulk.mkMatchRecord 1 (mkDateTime 2024 1 15 14 30 50 0) None [].
Definition match_after : Bulk.MatchRecord :=
  Bulk.mkMatchRecord 2 (mkDateTime 2024 1 15 14 30 54 0) None [].

(** The record [process_video] links a parsed file to, when the store
    answers: the first row with the identifier of the filename, or the
    closest row in the tolerance window of its timestamp. *)
Definition resolved_record (w : Bulk.World) (parsed : Bulk.Parsed) : option Bulk.MatchRecord :=
  match Bulk.match_id parsed with
  | Some n => hd_error (filter (Bulk.has_id n) (Bulk.matches w))
  | None =>
      Bulk.pick_match (Bulk.timestamp parsed)
        (filter (Bulk.in_window (Bulk.timestamp parsed) 5) (Bulk.matches w))
  end.

Definition resolved_id (w : Bulk.World) (parsed : Bulk.Parsed) : option Z :=
  match Bulk.match_id parsed with
  | Some n => Some n
  | None => option_map Bulk.id (resolved_record w parsed)
  end.

(** The reference the status query of [is_already_uploaded] reads. *)
Definition stored_url (w : Bulk.World) (n : Z) : option string :=
  match filter (Bulk.has_id n) (Bulk.matches w) with
  | m :: _ => Bulk.youtube_url m
  | [] => None
  end.

(** The state a skipped file leaves: two requests and one more file
    counted as already uploaded. *)
Definition skipped_world (w : Bulk.World) : Bulk.World :=
  Bulk.mkWorld (Bulk.matches w) (Bulk.players w) (S (S (Bulk.requests w)))
               (Bulk.uploader w) (Bulk.uploads w)
               (Bulk.count_already_uploaded (Bulk.stats w)).

(** Steps that leave the [matches] table and the list of upload calls as
    they are. *)
Definition same_tables (w w' : Bulk.World) : Prop :=
  Bulk.matches w' = Bulk.matches w /\ Bulk.uploads w' = Bulk.uploads w.

(** A record that carries a reference, and a store that holds it. *)
Definition uploaded_match : Bulk.MatchRecord :=
  Bulk.mkMatchRecord 42 some_time (Some "https://www.youtube.com/watch?v=first") [].

Definition fresh_stats : Bulk.Stats := Bulk.mkStats 0 0 0 0 0.

Definition world_with_upload : Bulk.World :=
  Bulk.mkWorld [uploaded_match] [] 0 (Youtube.init 19737) [] fresh_stats.

(** A hosting service that accepts every upload at the first attempt. *)
Definition ready_service (k : nat) : Youtube.UploadEnv :=
  Youtube.mkUploadEnv true 19737 true (Youtube.Responds (Some "again")) (Ret None) (Ret true).

Definition fair_coin (k j : nat) : Q := 1 # 2.

(** The same record before any upload, and a store that holds it. *)
Definition new_match : Bulk.MatchRecord := Bulk.mkMatchRecord 42 some_time None [].

Definition world_without_upload : Bulk.World :=
  Bulk.mkWorld [new_match] [] 0 (Youtube.init 19737) [] fresh_stats.

(** The world the first run over the file of [new_match] leaves. *)
Definition world_after_first_run : Bulk.World :=
  snd (Bulk.process_video (fun _ => false) ready_service fair_coin Calendar.utc_seconds
         false "matches/20240115_143052.mp4" true None world_without_upload).

(** A file the skip applies to in a store with the rows [ms]: it is
    linked to a record with a reference and a non-zero identifier. *)
Definition already_done (ms : list Bulk.MatchRecord) (filepath : string) : Prop :=
  exists parsed m,
    Bulk.parse_filename (Bulk.basename filepath) = Ret (Some parsed)
    /\ resolved_record (Bulk.mkWorld ms [] 0 (Youtube.init 0) [] fresh_stats) parsed = Some m
    /\ Youtube.truthy_opt (Bulk.youtube_url m) = true
    /\ Bulk.id m <> 0.

(** The writes that may follow the row of match [match_id]: no second
    match row, and participant rows of that match and its creation time
    only. *)
Definition write_of_match (match_id : Z) (created_at : DateTime) (w : Batch.DbWrite) : Prop :=
  match w with
  | Batch.InsertMatch _ _ => False
  | Batch.InsertParticipant row =>
      Batch.pr_match_id row = match_id /\ Batch.pr_created_at row = created_at
  | _ => True
  end.

Definition is_elo_update (w : Batch.DbWrite) : bool :=
  match w with Batch.UpdateElo _ _ => true | _ => false end.

Definition is_inactivity_update (w : Batch.DbWrite) : bool :=
  match w with Batch.UpdateInactivity => true | _ => false end.

Definition is_participant_insert (w : Batch.DbWrite) : bool :=
  match w with Batch.InsertParticipant _ => true | _ => false end.

(** The creation time of a file cannot be read. *)
Definition unreadable {Frame : Type} (file : Batch.VideoFile Frame) : bool :=
  match Batch.creation_time Frame file with Raise _ => true | Ret _ => false end.

(** [n] progress reports of the hosting service before [rest]. *)
Fixpoint progress_then (n : nat) (rest : Youtube.Transfer) : Youtube.Transfer :=
  match n with
  | O => rest
  | S n => Youtube.Progress (progress_then n rest)
  end.

(** What [_resumable_upload] returns for a response of the service. *)
Definition returned (video_id : option string) : PyResult (option string) :=
  match video_id with Some id => Ret (Some id) | None => Ret None end.

(** One call of the module-level [upload_video]. *)
Record UploadJob : Type := mkUploadJob {
  job_env : Youtube.UploadEnv;
  job_match_id : Z;
  job_metadata : Youtube.Metadata;
  job_playlist : option string
}.

(** Successive calls of the module-level [upload_video]: they all go to
    the one instance that [get_uploader] creates at the first call and
    returns ever after.  The [k]-th call draws from [random k]. *)
Fixpoint upload_session (random : nat -> nat -> Q) (k : nat) (u : Youtube.Uploader)
         (jobs : list UploadJob) : list (option string) * Youtube.Uploader :=
  match jobs with
  | [] => ([], u)
  | job :: rest =>
      let '(url, u, _) :=
        Youtube.upload_video (random k) u (job_env job) (job_match_id job)
                             (job_metadata job) (job_playlist job) in
      let (urls, u) := upload_session random (S k) u rest in
      (url :: urls, u)
  end.

Definition is_url (r : option string) : bool :=
  match r with Some _ => true | None => false end.

(** Six calls on one day to a service that answers at once. *)
Definition six_jobs : list UploadJob :=
  repeat (mkUploadJob (service_on 19737) 7 versus_metadata None) 6.

(** The files counted by the four counters of the summary. *)
Definition counted (s : Bulk.Stats) : Z :=
  Bulk.already_uploaded s + Bulk.successful s + Bulk.failed s + Bulk.skipped s.

(** A row after a step: the same identifier, creation time and
    participants, and the same reference or a non-empty one. *)
Definition row_kept (m m' : Bulk.MatchRecord) : Prop :=
  Bulk.id m' = Bulk.id m
  /\ Bulk.created_at m' = Bulk.created_at m
  /\ Bulk.match_participants m' = Bulk.match_participants m
  /\ (Bulk.youtube_url m' = Bulk.youtube_url m
      \/ Youtube.truthy_opt (Bulk.youtube_url m') = true).

(** The world after [r] requests in all, nothing else changed. *)
Definition with_requests (w : Bulk.World) (r : nat) : Bulk.World :=
  Bulk.mkWorld (Bulk.matches w) (Bulk.players w) r (Bulk.uploader w) (Bulk.uploads w)
               (Bulk.stats w).

Definition only_requests (w w' : Bulk.World) : Prop :=
  exists r, (Bulk.requests w <= r)%nat /\ w' = with_requests w r.

(** What one file of a run can do to the world [w]. *)
Inductive file_outcome (dry_run : bool) (filepath : string) (w : Bulk.World)
  : Bulk.World -> Prop :=
| outcome_failed_early (r : nat) :
    (Bulk.requests w <= r)%nat ->
    file_outcome dry_run filepath w
      (Bulk.mkWorld (Bulk.matches w) (Bulk.players w) r (Bulk.uploader w)
                    (Bulk.uploads w) (Bulk.count_failed (Bulk.stats w)))
| outcome_unparsed (r : nat) :
    (Bulk.requests w <= r)%nat ->
    file_outcome dry_run filepath w
      (Bulk.mkWorld (Bulk.matches w) (Bulk.players w) r (Bulk.uploader w)
                    (Bulk.uploads w) (Bulk.count_skipped (Bulk.stats w)))
| outcome_already_uploaded (r : nat) :
    (Bulk.requests w <= r)%nat ->
    file_outcome dry_run filepath w
      (Bulk.mkWorld (Bulk.matches w) (Bulk.players w) r (Bulk.uploader w)
                    (Bulk.uploads w) (Bulk.count_already_uploaded (Bulk.stats w)))
| outcome_dry_run (r : nat) :
    dry_run = true ->
    (Bulk.requests w <= r)%nat ->
    file_outcome dry_run filepath w (with_requests w r)
| outcome_upload_failed (r : nat) (u : Youtube.Uploader) (call : Bulk.UploadCall) :
    dry_run = false ->
    (Bulk.requests w <= r)%nat ->
    Bulk.call_filepath call = filepath ->
    file_outcome dry_run filepath w
      (Bulk.mkWorld (Bulk.matches w) (Bulk.players w) r u (Bulk.uploads w ++ [call])
                    (Bulk.count_failed (Bulk.stats w)))
| outcome_uploaded (r : nat) (u : Youtube.Uploader) (call : Bulk.UploadCall)
                   (rows : list Bulk.MatchRecord) :
    dry_run = false ->
    (Bulk.requests w <= r)%nat ->
    Bulk.call_filepath call = filepath ->
    Forall2 row_kept (Bulk.matches w) rows ->
    file_outcome dry_run filepath w
      (Bulk.mkWorld rows (Bulk.players w) r u (Bulk.uploads w ++ [call])
                    (Bulk.count_successful (Bulk.stats w))).

(** What a run over [files] can do: the outcomes of its files in turn. *)
Inductive run_outcome (dry_run : bool) : list string -> Bulk.World -> Bulk.World -> Prop :=
| run_done (w : Bulk.World) : run_outcome dry_run [] w w
| run_next (filepath : string) (files : list string) (w w1 w2 : Bulk.World) :
    file_outcome dry_run filepath w w1 ->
    run_outcome dry_run files w1 w2 ->
    run_outcome dry_run (filepath :: files) w w2.

(** A store that answers, and a file with an identifier no row has. *)
Definition always_answers (k : nat) : bool := false.

(** [l] is [files] with some entries left out, in the same order. *)
Inductive subsequence {A : Type} : list A -> list A -> Prop :=
| subsequence_nil : subsequence [] []
| subsequence_skip (x : A) (l files : list A) :
    subsequence l files -> subsequence l (x :: files)
| subsequence_take (x : A) (l files : list A) :
    subsequence l files -> subsequence (x :: l) (x :: files).

(** The character [c] does not occur in [s]. *)
Fixpoint avoids (c : ascii) (s : string) : bool :=
  match s with
  | EmptyString => true
  | String a r => negb (Ascii.eqb a c) && avoids c r
  end.

(** An account with its four variables set, and a host that stores. *)
Definition r2_client : R2.Client :=
  R2.init (Some "acct") (Some "key") (Some "secret") (Some "smash-videos").

Definition storing_host : R2.Host := R2.mkHost true (Ret tt).

(** A directory with a match video, its result-screen video and a
    subdirectory. *)
Definition match_directory : list Listing.Entry :=
  [Listing.mkEntry "result_screens" false;
   Listing.mkEntry "42-20240115_143052_result_screen.mp4" true;
   Listing.mkEntry "42-20240115_143052.mp4" true].

(** What [build_tags] requires of a tag. *)
Definition clean_tag (tag : string) : Prop :=
  PyStr.truthy tag = true /\ PyStr.lower tag = tag /\ tag <> "unknown".

Definition name_is_none (p : Youtube.Player) : bool :=
  match Youtube.name p with None => true | Some _ => false end.

Definition character_is_none (p : Youtube.Player) : bool :=
  match Youtube.character p with None => true | Some _ => false end.

(** Metadata with a repeated name, padding and a placeholder. *)
Definition noisy_metadata : Youtube.Metadata :=
  Youtube.mkMetadata
    [Youtube.mkPlayer (Some " Habeas ") (Some "Mario") 3 1 0 true;
     Youtube.mkPlayer (Some "habeas") (Some "mario ") 1 3 0 false;
     Youtube.mkPlayer (Some "Player 3") (Some "Unknown") 0 0 0 false]
    some_time.

(** * Properties *)

(** ** The sample window *)

Section SampleWindow.

Variable Frame : Type.

Lemma evicted_bounds n :
  0 <= n -> 0 <= evicted n <= n /\ n - evicted n <= Batch.max_frames.
Proof.
  intros Hn. unfold evicted, Batch.max_frames.
  pose proof (Z.div_mod (Z.max 0 (n - 3551)) 50 ltac:(lia)) as E.
  pose proof (Z.mod_pos_bound (Z.max 0 (n - 3551)) 50 ltac:(lia)) as B.
  lia.
Qed.

Lemma evicted_step n :
  0 <= n ->
  evicted (n + 1) = if Batch.max_frames <? n + 1 - evicted n
                    then evicted n + 50 else evicted n.
Proof.
  intros Hn. unfold evicted, Batch.max_frames.
  pose proof (Z.div_mod (Z.max 0 (n - 3551)) 50 ltac:(lia)) as E.
  pose proof (Z.mod_pos_bound (Z.max 0 (n - 3551)) 50 ltac:(lia)) as B.
  pose proof (Z.div_mod (Z.max 0 (n + 1 - 3551)) 50 ltac:(lia)) as E'.
  pose proof (Z.mod_pos_bound (Z.max 0 (n + 1 - 3551)) 50 ltac:(lia)) as B'.
  destruct (Z.ltb_spec 3600 (n + 1 - 50 * (Z.max 0 (n - 3551) / 50))); lia.
Qed.

Lemma skipn_snoc {A : Type} (k : nat) (l : list A) (x : A) :
  (k <= List.length l)%nat -> skipn k (l ++ [x]) = skipn k l ++ [x].
Proof.
  intros H. rewrite skipn_app.
  replace (k - List.length l)%nat with O by lia. reflexivity.
Qed.

(** One insertion into a window that holds at most [max_frames] samples:
    when the window is full the chunk is [min(50, 3601 // 4) = 50]. *)
Lemma store_sample_step (frames : list Frame) (scores : list Q) f c :
  Z.of_nat (List.length frames) <= Batch.max_frames ->
  Batch.store_sample frames scores f c =
    if Z.of_nat (List.length frames) =? Batch.max_frames
    then (skipn 50 (frames ++ [f]), skipn 50 (scores ++ [c]))
    else (frames ++ [f], scores ++ [c]).
Proof.
  intros H. unfold Batch.store_sample, Batch.max_frames in *.
  rewrite length_app. cbn [List.length].
  replace (Z.of_nat (List.length frames + 1)) with (Z.of_nat (List.length frames) + 1) by lia.
  destruct (Z.eqb_spec (Z.of_nat (List.length frames)) 3600) as [E | E].
  - rewrite E. reflexivity.
  - destruct (Z.ltb_spec 3600 (Z.of_nat (List.length frames) + 1)); [lia | reflexivity].
Qed.

(** The closed form of the window after any sequence of insertions. *)
Lemma window_after_closed (samples : list (Frame * Q)) :
  Batch.window_after samples =
    (skipn (Z.to_nat (evicted (Z.of_nat (List.length samples)))) (map fst samples),
     skipn (Z.to_nat (evicted (Z.of_nat (List.length samples)))) (map snd samples)).
Proof.
  induction samples as [| s samples IH] using rev_ind.
  - reflexivity.
  - unfold Batch.window_after in *. rewrite fold_left_app. cbn [fold_left].
    rewrite IH. cbn [fst snd].
    set (n := Z.of_nat (List.length samples)) in *.
    assert (Hn : 0 <= n) by (unfold n; lia).
    destruct (evicted_bounds n Hn) as [Hk Hsize].
    set (k := Z.to_nat (evicted n)) in *.
    assert (Hlen : List.length (skipn k (map fst samples)) = (List.length samples - k)%nat)
      by (rewrite length_skipn, length_map; reflexivity).
    assert (Hk' : (k <= List.length samples)%nat) by (unfold k, n in *; lia).
    rewrite store_sample_step by (rewrite Hlen; unfold k, n in *; lia).
    rewrite Hlen, length_app. cbn [List.length].
    replace (Z.of_nat (List.length samples + 1)) with (n + 1) by (unfold n; lia).
    rewrite (evicted_step n Hn).
    rewrite !map_app. cbn [map].
    rewrite <- !skipn_snoc by (rewrite length_map; exact Hk').
    unfold Batch.max_frames in *.
    destruct (Z.eqb_spec (Z.of_nat (List.length samples - k)) 3600) as [E | E].
    + destruct (Z.ltb_spec 3600 (n + 1 - evicted n)); [| unfold k, n in *; lia].
      rewrite !skipn_skipn.
      replace (Z.to_nat (evicted n + 50)) with (50 + k)%nat by (unfold k; lia).
      reflexivity.
    + destruct (Z.ltb_spec 3600 (n + 1 - evicted n)); [unfold k, n in *; lia |].
      reflexivity.
Qed.

(** The scan of a recording keeps exactly the window of its sampled
    frames: the loop inserts every second frame with its confidence. *)
Variable bright_ratio : Frame -> option Q.

Lemma scan_step_count (st : Batch.Scan Frame) (frame : Frame) :
  Batch.frame_count Frame (Batch.scan_step Frame bright_ratio st frame)
  = Batch.frame_count Frame st + 1.
Proof.
  unfold Batch.scan_step.
  destruct (Batch.detect_game_end Frame bright_ratio frame) as [confidence flag].
  destruct (if _ =? 0 then Batch.store_sample _ _ frame confidence else _).
  reflexivity.
Qed.

Lemma scan_step_window (st : Batch.Scan Frame) (frame : Frame) :
  let st' := Batch.scan_step Frame bright_ratio st frame in
  (Batch.frames Frame st', Batch.scores Frame st') =
    if (Batch.frame_count Frame st + 1) mod Batch.frame_skip_interval =? 0
    then Batch.store_sample (Batch.frames Frame st) (Batch.scores Frame st) frame
           (fst (Batch.detect_game_end Frame bright_ratio frame))
    else (Batch.frames Frame st, Batch.scores Frame st).
Proof.
  unfold Batch.scan_step.
  destruct (Batch.detect_game_end Frame bright_ratio frame) as [confidence flag].
  cbn [fst].
  destruct ((Batch.frame_count Frame st + 1) mod Batch.frame_skip_interval =? 0).
  - destruct (Batch.store_sample _ _ frame confidence). reflexivity.
  - reflexivity.
Qed.

Lemma scan_from (video : list Frame) (st : Batch.Scan Frame) :
  let st' := fold_left (Batch.scan_step Frame bright_ratio) video st in
  (Batch.frames Frame st', Batch.scores Frame st') =
    fold_left (fun w s => Batch.store_sample (fst w) (snd w) (fst s) (snd s))
      (map (Batch.with_score Frame bright_ratio)
           (Batch.sampled_from (Batch.frame_count Frame st + 1) video))
      (Batch.frames Frame st, Batch.scores Frame st).
Proof.
  revert st. induction video as [| frame rest IH]; intros st.
  - reflexivity.
  - cbn [fold_left Batch.sampled_from]. cbv zeta in IH. rewrite IH. clear IH.
    rewrite scan_step_count.
    pose proof (scan_step_window st frame) as W. cbv zeta in W. rewrite W.
    destruct ((Batch.frame_count Frame st + 1) mod Batch.frame_skip_interval =? 0).
    + reflexivity.
    + reflexivity.
Qed.

Lemma scan_window (video : list Frame) :
  let st := Batch.scan Frame bright_ratio video in
  (Batch.frames Frame st, Batch.scores Frame st) =
    Batch.window_after
      (map (Batch.with_score Frame bright_ratio) (Batch.sampled_from 1 video)).
Proof. apply (scan_from video (Batch.scan_init Frame)). Qed.

(** C3. After every sequence of insertions the window holds at most
    [max_frames = 3600] samples, frames and scores side by side; it is
    the sequence of all inserted samples without its first [k] ones, [k]
    a multiple of the chunk size 50, so the retained samples are the
    most recent ones in their order of insertion, and all but fewer than
    50 of the last 3600; an insertion into a full window evicts the
    chunk of [min(50, 3601 // 4) = 50] oldest samples. *)
Theorem window_bounded_ordered_recent (samples : list (Frame * Q)) (s : Frame * Q) :
  let n := Z.of_nat (List.length samples) in
  let k := Z.to_nat (evicted n) in
  let w := Batch.window_after samples in
  Z.of_nat (List.length (fst w)) <= Batch.max_frames
  /\ List.length (snd w) = List.length (fst w)
  /\ w = (skipn k (map fst samples), skipn k (map snd samples))
  /\ Z.of_nat k = 50 * (Z.max 0 (n - 3551) / 50)
  /\ Z.min n (Batch.max_frames - 49) <= Z.of_nat (List.length (fst w))
  /\ Batch.window_after (samples ++ [s]) =
       (if Z.of_nat (List.length (fst w)) =? Batch.max_frames
        then (skipn 50 (fst w ++ [fst s]), skipn 50 (snd w ++ [snd s]))
        else (fst w ++ [fst s], snd w ++ [snd s]))
  /\ Z.min 50 ((Batch.max_frames + 1) / 4) = 50.
Proof.
  intros n k w.
  assert (Hn : 0 <= n) by (unfold n; lia).
  destruct (evicted_bounds n Hn) as [Hk Hsize].
  assert (Hw : w = (skipn k (map fst samples), skipn k (map snd samples)))
    by apply window_after_closed.
  assert (Hlen : List.length (fst w) = (List.length samples - k)%nat)
    by (rewrite Hw; cbn [fst]; rewrite length_skipn, length_map; reflexivity).
  assert (Hbound : Z.of_nat (List.length (fst w)) <= Batch.max_frames)
    by (rewrite Hlen; unfold k, n in *; lia).
  repeat split.
  - exact Hbound.
  - rewrite Hlen, Hw. cbn [snd]. rewrite length_skipn, length_map. reflexivity.
  - exact Hw.
  - unfold k. rewrite Z2Nat.id by lia. reflexivity.
  - rewrite Hlen. unfold Batch.max_frames, k, evicted, n in *.
    pose proof (Z.div_mod (Z.max 0 (Z.of_nat (List.length samples) - 3551)) 50 ltac:(lia)).
    pose proof (Z.mod_pos_bound (Z.max 0 (Z.of_nat (List.length samples) - 3551)) 50
                  ltac:(lia)).
    lia.
  - unfold Batch.window_after. rewrite fold_left_app. cbn [fold_left].
    fold (Batch.window_after samples). fold w.
    apply store_sample_step. exact Hbound.
Qed.

End SampleWindow.

(** ** The segment selector *)

Section SegmentSelector.

Variable Frame : Type.

Local Notation "'threshold'" := Batch.game_end_confidence_threshold.

(** The test of the backward loop is the comparison with the threshold:
    a score that reaches 0.7 is above [best_confidence = 0.0]. *)
Lemma qualifies_iff (c : Q) :
  Batch.Qge_bool c threshold && Batch.Qgt_bool c 0 = true <-> (threshold <= c)%Q.
Proof.
  unfold Batch.Qge_bool, Batch.Qgt_bool. rewrite andb_true_iff, Qle_bool_iff.
  split; [tauto |]. intros H. split; [exact H |].
  apply negb_true_iff. apply not_true_is_false. rewrite Qle_bool_iff. intros H0.
  assert (C : (threshold <= 0)%Q) by (eapply Qle_trans; eassumption).
  unfold Batch.game_end_confidence_threshold, Qle in C. cbn in C. lia.
Qed.

Lemma scan_backward_spec (rs : list Q) :
  let (index, confidence) := Batch.scan_backward rs (Z.of_nat (List.length rs) - 1) in
  (index = -1 /\ Forall (fun c => (c < threshold)%Q) rs)
  \/ (exists skipped earlier,
        rs = skipped ++ confidence :: earlier
        /\ Forall (fun c => (c < threshold)%Q) skipped
        /\ (threshold <= confidence)%Q
        /\ index = Z.of_nat (List.length earlier)).
Proof.
  induction rs as [| c rs IH].
  - left. split; [reflexivity | constructor].
  - cbn [Batch.scan_backward List.length].
    destruct (Batch.Qge_bool c threshold && Batch.Qgt_bool c 0) eqn:T.
    + right. exists [], rs. repeat split.
      * constructor.
      * apply qualifies_iff. exact T.
      * lia.
    + assert (L : (c < threshold)%Q).
      { apply Qnot_le_lt. intros H. apply qualifies_iff in H. congruence. }
      replace (Z.of_nat (S (List.length rs)) - 1 - 1)
        with (Z.of_nat (List.length rs) - 1) by lia.
      destruct (Batch.scan_backward rs (Z.of_nat (List.length rs) - 1))
        as [index confidence].
      destruct IH as [[E F] | (skipped & earlier & E & F & G & I)].
      * left. split; [exact E | constructor; assumption].
      * right. exists (c :: skipped), earlier. subst rs. repeat split; try assumption.
        constructor; assumption.
Qed.

(** What the backward loop leaves in [best_frame_index]. *)
Lemma best_frame_spec (scores : list Q) :
  let (index, confidence) := Batch.best_frame scores in
  (index = -1 /\ Forall (fun c => (c < threshold)%Q) scores)
  \/ (exists i,
        index = Z.of_nat i
        /\ nth_error scores i = Some confidence
        /\ (threshold <= confidence)%Q
        /\ Forall (fun c => (c < threshold)%Q) (skipn (S i) scores)).
Proof.
  unfold Batch.best_frame.
  pose proof (scan_backward_spec (rev scores)) as H.
  rewrite length_rev in H.
  destruct (Batch.scan_backward (rev scores) (Z.of_nat (List.length scores) - 1))
    as [index confidence].
  destruct H as [[E F] | (skipped & earlier & E & F & G & I)].
  - left. split; [exact E |].
    apply Forall_rev in F. rewrite rev_involutive in F. exact F.
  - right. exists (List.length earlier).
    assert (Sc : scores = rev earlier ++ confidence :: rev skipped).
    { rewrite <- (rev_involutive scores), E, rev_app_distr. cbn [rev].
      rewrite <- app_assoc. reflexivity. }
    repeat split.
    + exact I.
    + rewrite Sc, nth_error_app2 by (rewrite length_rev; lia).
      rewrite length_rev, Nat.sub_diag. reflexivity.
    + exact G.
    + rewrite Sc, skipn_app, length_rev.
      rewrite skipn_all2 by (rewrite length_rev; lia).
      replace (S (List.length earlier) - List.length earlier)%nat with 1%nat by lia.
      cbn [skipn app]. apply Forall_rev. exact F.
Qed.

(** C2 (as the code has it).  The selector takes the last index whose
    score is at least the threshold 0.7, whatever larger scores come
    before it, and returns the frames from that index to the end; when
    every score is below the threshold it returns the not-found outcome. *)
Theorem selector_takes_rightmost_qualifying (frames : list Frame) (scores : list Q) :
  match Batch.select_result_frames frames scores with
  | None => Forall (fun c => (c < threshold)%Q) scores
  | Some result_frames =>
      exists i confidence,
        nth_error scores i = Some confidence
        /\ (threshold <= confidence)%Q
        /\ Forall (fun c => (c < threshold)%Q) (skipn (S i) scores)
        /\ result_frames = skipn i frames
  end.
Proof.
  unfold Batch.select_result_frames.
  pose proof (best_frame_spec scores) as H.
  destruct (Batch.best_frame scores) as [index confidence].
  destruct H as [[E F] | (i & E & N & G & F)].
  - subst index. cbn. exact F.
  - subst index. destruct (Z.eqb_spec (Z.of_nat i) (-1)) as [C | _]; [lia |].
    exists i, confidence. repeat split; try assumption.
    unfold Batch.slice_from. rewrite Nat2Z.id. reflexivity.
Qed.

(** [extract_result_screen] is the selector followed by the length test. *)
Lemma extract_uses_selector (bright_ratio : Frame -> option Q) (video : Batch.Video Frame) :
  let st := Batch.scan Frame bright_ratio (Batch.decoded video) in
  Batch.is_opened video = true ->
  Batch.frames Frame st <> [] ->
  Batch.scores Frame st <> [] ->
  fst (Batch.extract_result_screen Frame bright_ratio video) =
    match Batch.select_result_frames (Batch.frames Frame st) (Batch.scores Frame st) with
    | None => None
    | Some result_frames =>
        if Z.of_nat (List.length result_frames) <? Batch.min_result_frames then None
        else Some (result_frames, Batch.frame_42_image Frame st,
                   if Batch.cap_fps video <=? 0 then 30 else Batch.cap_fps video)
    end.
Proof.
  intros st Ho Hf Hs. unfold Batch.extract_result_screen, Batch.select_result_frames.
  rewrite Ho. cbn [negb]. fold st.
  destruct (Batch.frames Frame st) as [| f fs]; [congruence |].
  destruct (Batch.scores Frame st) as [| c cs]; [congruence |].
  destruct (Batch.best_frame (c :: cs)) as [index confidence].
  destruct (index =? -1); [reflexivity |].
  destruct (Z.of_nat (List.length (Batch.slice_from index (f :: fs)))
            <? Batch.min_result_frames); reflexivity.
Qed.

End SegmentSelector.

(** The claim read with "exceeds": no score of the recording exceeds 0.7,
    yet the code selects the sample that equals 0.7 and returns the
    fifteen frames from it to the end. *)
Lemma selector_accepts_threshold_itself :
  fst (Batch.extract_result_screen Q Some threshold_recording)
  = Some (((7 # 10) :: repeat (1 # 2) 14)%Q, None, 30)
  /\ Batch.scores Q (Batch.scan Q Some (Batch.decoded threshold_recording))
     = ((7 # 10) :: repeat (1 # 2) 14)%Q
  /\ rightmost_exceeding ((7 # 10) :: repeat (1 # 2) 14)%Q = None
  /\ Batch.select_result_frames (repeat 0%nat 15) ((7 # 10) :: repeat (1 # 2) 14)%Q
     = Some (repeat 0%nat 15).
Proof. repeat split; reflexivity. Qed.

(** The last qualifying score is taken, not the largest one. *)
Example selector_prefers_last_over_largest :
  Batch.select_result_frames [1%nat; 2%nat; 3%nat] [9 # 10; 1 # 10; 8 # 10]%Q
  = Some [3%nat].
Proof. reflexivity. Qed.

(** ** The two detection failures *)

Section DetectionFailures.

Variable Frame : Type.
Variable bright_ratio : Frame -> option Q.

(** C9 (as the code has it).  When the scan kept samples and either no
    score qualifies or the frames from the boundary on are fewer than 15,
    [extract_result_screen] returns the same [(None, None, None)]; the two
    cases differ in the warning written to the log only.  In both cases
    [process_video] returns [False] and the batch counts the file as
    skipped, not as failed. *)
Theorem detection_failures_are_skipped
        (db : Batch.Store) (file : Batch.VideoFile Frame) (c : Batch.Counts)
        (created_at : DateTime) :
  let st := Batch.scan Frame bright_ratio (Batch.decoded (Batch.capture Frame file)) in
  let index := fst (Batch.best_frame (Batch.scores Frame st)) in
  let suffix := Batch.slice_from index (Batch.frames Frame st) in
  let warning := if index =? -1 then Batch.WarnNoFrameAboveThreshold
                 else Batch.WarnTooShort (List.length suffix) in
  Batch.creation_time Frame file = Ret created_at ->
  Batch.is_opened (Batch.capture Frame file) = true ->
  Batch.frames Frame st <> [] ->
  Batch.scores Frame st <> [] ->
  index = -1 \/ Z.of_nat (List.length suffix) < Batch.min_result_frames ->
  Batch.extract_result_screen Frame bright_ratio (Batch.capture Frame file)
    = (None, Batch.scan_log Frame st ++ [warning])
  /\ Batch.process_video Frame bright_ratio false db file
     = (Ret false, [], (Batch.scan_log Frame st ++ [warning]) ++ [Batch.ErrExtractFailed])
  /\ Batch.process_one Frame bright_ratio false db c file
     = Batch.mkCounts (Batch.processed_count c) (Batch.skipped_count c + 1)
                      (Batch.failed_count c).
Proof.
  intros st index suffix warning Ht Ho Hf Hs Hfail.
  assert (E : Batch.extract_result_screen Frame bright_ratio (Batch.capture Frame file)
              = (None, Batch.scan_log Frame st ++ [warning])).
  { unfold Batch.extract_result_screen. rewrite Ho. cbn [negb]. fold st.
    subst warning suffix index.
    destruct (Batch.frames Frame st) as [| f fs]; [congruence |].
    destruct (Batch.scores Frame st) as [| s ss]; [congruence |].
    destruct (Batch.best_frame (s :: ss)) as [i conf]. cbn [fst] in *.
    destruct (Z.eqb_spec i (-1)) as [Ei | Ei]; [reflexivity |].
    destruct Hfail as [Hi | Hshort]; [contradiction |].
    destruct (Z.ltb_spec (Z.of_nat (List.length (Batch.slice_from i (f :: fs))))
                         Batch.min_result_frames); [reflexivity | lia]. }
  assert (P : Batch.process_video Frame bright_ratio false db file
              = (Ret false, [],
                 (Batch.scan_log Frame st ++ [warning]) ++ [Batch.ErrExtractFailed])).
  { unfold Batch.process_video. rewrite Ht, E. reflexivity. }
  repeat split; try assumption.
  unfold Batch.process_one. rewrite P. reflexivity.
Qed.

End DetectionFailures.

(** The claim has the two failures distinguishable at the interface: a
    recording without a qualifying frame and one whose segment is too
    short yield the same returned value. *)
Lemma detection_failures_return_the_same :
  fst (Batch.extract_result_screen Q Some dark_recording) = None
  /\ fst (Batch.extract_result_screen Q Some late_flash_recording) = None
  /\ snd (Batch.extract_result_screen Q Some dark_recording)
     = [Batch.WarnNoFrameAboveThreshold]
  /\ snd (Batch.extract_result_screen Q Some late_flash_recording)
     = [Batch.WarnTooShort 1].
Proof. repeat split; reflexivity. Qed.

Lemma detection_failures_are_skipped_witness :
  Batch.process_one Q Some false quiet_store (Batch.mkCounts 0 0 0)
    (Batch.mkVideoFile Q (Ret some_time) late_flash_recording true None)
  = Batch.mkCounts 0 1 0.
Proof.
  refine (proj2 (proj2 (detection_failures_are_skipped Q Some quiet_store
            (Batch.mkVideoFile Q (Ret some_time) late_flash_recording true None)
            (Batch.mkCounts 0 0 0) some_time _ _ _ _ _))).
  - reflexivity.
  - reflexivity.
  - discriminate.
  - discriminate.
  - right. vm_compute. reflexivity.
Defined.

(** ** The guards of [save_match_stats] *)

Lemma digit_is_not_newline (c : ascii) :
  PyStr.is_digit c = true -> Ascii.eqb c PyStr.newline = false.
Proof.
  intros H. destruct (Ascii.eqb_spec c PyStr.newline) as [E | E]; [| reflexivity].
  subst c. discriminate H.
Qed.

Lemma chomp_digits (n : string) : PyStr.all_digits n = true -> PyStr.chomp n = n.
Proof.
  induction n as [| c r IH]; [reflexivity |].
  cbn [PyStr.all_digits]. rewrite andb_true_iff. intros [Hc Hr].
  cbn [PyStr.chomp]. destruct r as [| c' r'].
  - rewrite (digit_is_not_newline c Hc). reflexivity.
  - rewrite (IH Hr). reflexivity.
Qed.

Lemma chomp_before_number (pre n : string) :
  PyStr.is_number n = true -> PyStr.chomp (pre +++ n) = pre +++ n.
Proof.
  unfold PyStr.is_number. rewrite andb_true_iff. intros [Hne Hd].
  induction pre as [| a p IH].
  - apply chomp_digits. exact Hd.
  - cbn [String.append PyStr.chomp]. rewrite IH.
    destruct (p +++ n) eqn:E; [| reflexivity].
    destruct p; [| discriminate E]. cbn in E. subst n. discriminate Hne.
Qed.

Lemma strip_own_prefix (pre n : string) : PyStr.strip_prefix pre (pre +++ n) = Some n.
Proof.
  induction pre as [| a p IH]; [destruct n; reflexivity |].
  cbn [String.append PyStr.strip_prefix]. rewrite Ascii.eqb_refl. exact IH.
Qed.

(** A literal followed by a number matches the pattern made of them. *)
Lemma literal_number_matches (pre n : string) :
  PyStr.is_number n = true -> PyStr.match_literal_number pre (pre +++ n) = true.
Proof.
  intros H. unfold PyStr.match_literal_number.
  rewrite (chomp_before_number pre n H), strip_own_prefix. exact H.
Qed.

(** The names the claim lists are unknown-player names. *)
Lemma placeholder_names_are_unknown (n : string) :
  PyStr.is_number n = true ->
  Batch.unknown_player_name ("Player " +++ n) = true
  /\ Batch.unknown_player_name ("P" +++ n) = true
  /\ Batch.unknown_player_name ("P " +++ n) = true.
Proof.
  intros H. unfold Batch.unknown_player_name. repeat split.
  - rewrite (literal_number_matches "Player " n H). reflexivity.
  - rewrite (literal_number_matches "P" n H). apply orb_true_iff. left.
    apply orb_true_r.
  - rewrite (literal_number_matches "P " n H). apply orb_true_r.
Qed.

Lemma guarded_save_writes_nothing (db : Batch.Store) (stats : list Batch.PlayerStats)
      (created_at : DateTime) :
  must_skip stats = true ->
  fst (Batch.save_match_stats db stats created_at) = (false, []).
Proof.
  unfold must_skip, no_contest, has_cpu, has_unknown_player, first_is_online.
  intros G. unfold Batch.save_match_stats.
  destruct (Batch.supabase_client db); [| reflexivity]. cbn [negb].
  destruct (forallb (fun stat => negb (Batch.has_won stat)) stats) eqn:N; [reflexivity |].
  destruct (existsb Batch.is_cpu stats) eqn:C; [reflexivity |].
  destruct (existsb (fun stat => Batch.unknown_player_name (Batch.player_name stat)) stats)
    eqn:U; [reflexivity |].
  cbn [orb] in G.
  destruct stats as [| stat rest]; [discriminate G |].
  cbn [Batch.first_is_online]. rewrite G. reflexivity.
Qed.

(** C10.  When every participant lost, or one is a CPU, or one carries a
    placeholder name ("Player N", "PN", "P N"), or the first one played
    online, [save_match_stats] returns [False] and has written nothing: no
    match row, no participant row, no rating.  A match row is written only
    when none of the four holds. *)
Theorem save_match_stats_guards (db : Batch.Store) (stats : list Batch.PlayerStats)
        (created_at : DateTime) :
  (must_skip stats = true ->
   fst (Batch.save_match_stats db stats created_at) = (false, []))
  /\ (forall t id,
        In (Batch.InsertMatch t id) (snd (fst (Batch.save_match_stats db stats created_at))) ->
        no_contest stats = false /\ has_cpu stats = false
        /\ has_unknown_player stats = false /\ first_is_online stats = false)
  /\ (forall n, PyStr.is_number n = true ->
        Batch.unknown_player_name ("Player " +++ n) = true
        /\ Batch.unknown_player_name ("P" +++ n) = true
        /\ Batch.unknown_player_name ("P " +++ n) = true).
Proof.
  split; [apply guarded_save_writes_nothing |].
  split; [| apply placeholder_names_are_unknown].
  intros t id Hin.
  destruct (must_skip stats) eqn:G.
  - rewrite (guarded_save_writes_nothing db stats created_at G) in Hin. destruct Hin.
  - unfold must_skip in G. repeat rewrite orb_false_iff in G. tauto.
Qed.

Lemma save_match_stats_guards_witness :
  fst (Batch.save_match_stats quiet_store mario_cpu_match some_time) = (false, [])
  /\ (no_contest offline_match = false /\ has_cpu offline_match = false
      /\ has_unknown_player offline_match = false /\ first_is_online offline_match = false)
  /\ (Batch.unknown_player_name "Player 12" = true
      /\ Batch.unknown_player_name "P12" = true
      /\ Batch.unknown_player_name "P 12" = true).
Proof.
  split; [| split].
  - apply (proj1 (save_match_stats_guards quiet_store mario_cpu_match some_time)).
    reflexivity.
  - apply (proj1 (proj2 (save_match_stats_guards quiet_store offline_match some_time))
             some_time 1).
    vm_compute. left. reflexivity.
  - apply (proj2 (proj2 (save_match_stats_guards quiet_store offline_match some_time)) "12").
    reflexivity.
Defined.

Example offline_match_is_saved :
  fst (fst (Batch.save_match_stats quiet_store offline_match some_time)) = true.
Proof. reflexivity. Qed.

(** ** The title of the video *)

Lemma title_keeps_truthiness (s : string) : PyStr.truthy (PyStr.title s) = PyStr.truthy s.
Proof.
  unfold PyStr.title. destruct s as [| c r]; [reflexivity |].
  cbn [PyStr.title_from]. destruct (PyStr.is_lower c || PyStr.is_upper c); reflexivity.
Qed.

(** C8 (as the code has it).  When the record has at least two
    participants and the first two have a non-empty name and character, the
    title is "P1 (Char1) vs P2 (Char2) - Match #id", the characters in
    title case; in every other case it is "Match #id - YYYY-MM-DD HH:MM". *)
Theorem title_from_first_two_players (match_id : Z) (metadata : Youtube.Metadata) :
  Youtube.build_title match_id metadata =
    match Youtube.players metadata with
    | p1 :: p2 :: _ =>
        if title_ready p1 && title_ready p2
        then Youtube.format_opt (Youtube.name p1)
             +++ " (" +++ PyStr.title (Youtube.format_opt (Youtube.character p1))
             +++ ") vs " +++ Youtube.format_opt (Youtube.name p2)
             +++ " (" +++ PyStr.title (Youtube.format_opt (Youtube.character p2))
             +++ ") - Match #" +++ PyStr.of_Z match_id
        else "Match #" +++ PyStr.of_Z match_id +++ " - "
             +++ Calendar.strftime_minutes (Youtube.timestamp metadata)
    | _ => "Match #" +++ PyStr.of_Z match_id +++ " - "
           +++ Calendar.strftime_minutes (Youtube.timestamp metadata)
    end.
Proof.
  unfold Youtube.build_title, Youtube.versus_title, Youtube.fallback_title, title_ready,
    Youtube.titled_character.
  destruct (Youtube.players metadata) as [| p1 [| p2 rest]]; try reflexivity.
  destruct (Youtube.character p1) as [c1 |], (Youtube.character p2) as [c2 |];
    cbn [Youtube.truthy_opt Youtube.format_opt]; rewrite ?andb_false_r; try reflexivity.
  rewrite !title_keeps_truthiness.
  destruct (Youtube.truthy_opt (Youtube.name p1)), (Youtube.truthy_opt (Youtube.name p2)),
    (PyStr.truthy c1), (PyStr.truthy c2); reflexivity.
Qed.

(** The claim sends every record without exactly two participants to the
    fallback title: a record with three participants gets the title of its
    first two. *)
Lemma three_players_get_versus_title :
  Youtube.build_title 7 (Youtube.mkMetadata [habeas; jmoon; kento] some_time)
  = "habeas (Mario) vs jmoon (Luigi) - Match #7"
  /\ Youtube.fallback_title 7 (Youtube.mkMetadata [habeas; jmoon; kento] some_time)
     = "Match #7 - 2024-01-15 14:30".
Proof. split; reflexivity. Qed.

Example two_players_title :
  Youtube.build_title 42 (Youtube.mkMetadata [habeas; jmoon] some_time)
  = "habeas (Mario) vs jmoon (Luigi) - Match #42".
Proof. reflexivity. Qed.

Example one_player_title :
  Youtube.build_title 42 (Youtube.mkMetadata [habeas] some_time)
  = "Match #42 - 2024-01-15 14:30".
Proof. reflexivity. Qed.

(** ** The retry policy of the resumable upload *)

Section RetryPolicy.

Variable random : nat -> Q.

Lemma retried_failure_step (e : Exn) (next : Youtube.Transfer) (error : bool)
      (retry : Z) (t : Youtube.Trace) :
  retried e = true -> retry <= Youtube.max_retries ->
  Youtube.resumable_loop random (Youtube.Fails e next) error retry t =
    if retry <? Youtube.max_retries
    then Youtube.resumable_loop random next true (retry + 1)
           (Youtube.slept (Youtube.attempt t)
              (random (List.length (Youtube.sleeps t)) * inject_Z (2 ^ (retry + 1)))%Q)
    else (Ret None, Youtube.attempt t).
Proof.
  intros He Hr. unfold Youtube.max_retries in *.
  cbn [Youtube.resumable_loop]. unfold Youtube.max_retries.
  destruct (Z.leb_spec retry 3); [| lia]. cbn [negb].
  assert (A : Youtube.after_attempt random (Youtube.resumable_loop random next) true retry
                (Youtube.attempt t)
              = if retry <? 3
                then Youtube.resumable_loop random next true (retry + 1)
                       (Youtube.slept (Youtube.attempt t)
                          (random (List.length (Youtube.sleeps t))
                           * inject_Z (2 ^ (retry + 1)))%Q)
                else (Ret None, Youtube.attempt t)).
  { unfold Youtube.after_attempt, Youtube.max_retries.
    destruct (Z.ltb_spec 3 (retry + 1)), (Z.ltb_spec retry 3); try lia; reflexivity. }
  destruct e; try exact A.
  cbn [retried] in He. rewrite He. exact A.
Qed.

Lemma fatal_failure_step (status : Z) (next : Youtube.Transfer) (error : bool)
      (retry : Z) (t : Youtube.Trace) :
  Youtube.retriable_status status = false -> retry <= Youtube.max_retries ->
  Youtube.resumable_loop random (Youtube.Fails (HttpError status) next) error retry t
  = (Raise (HttpError status), Youtube.attempt t).
Proof.
  intros Hs Hr. cbn [Youtube.resumable_loop].
  destruct (Z.leb_spec retry Youtube.max_retries); [| lia]. cbn [negb].
  rewrite Hs. reflexivity.
Qed.

(** The number of sleeps never exceeds what is left of the retry bound. *)
Lemma sleeps_bounded (request : Youtube.Transfer) (error : bool) (retry : Z)
      (t : Youtube.Trace) :
  0 <= retry ->
  Z.of_nat (List.length (Youtube.sleeps (snd (Youtube.resumable_loop random request error retry t))))
  <= Z.of_nat (List.length (Youtube.sleeps t)) + Z.max 0 (Youtube.max_retries - retry).
Proof.
  revert error retry t.
  assert (After : forall next,
    (forall error retry t, 0 <= retry ->
       Z.of_nat (List.length (Youtube.sleeps
         (snd (Youtube.resumable_loop random next error retry t))))
       <= Z.of_nat (List.length (Youtube.sleeps t)) + Z.max 0 (Youtube.max_retries - retry)) ->
    forall error retry t, 0 <= retry -> retry <= Youtube.max_retries ->
       Z.of_nat (List.length (Youtube.sleeps
         (snd (Youtube.after_attempt random (Youtube.resumable_loop random next)
                 error retry (Youtube.attempt t)))))
       <= Z.of_nat (List.length (Youtube.sleeps t)) + Z.max 0 (Youtube.max_retries - retry)).
  { intros next IH error retry t H0 H3. unfold Youtube.after_attempt.
    destruct error.
    - destruct (Z.ltb_spec Youtube.max_retries (retry + 1)).
      + cbn. lia.
      + eapply Z.le_trans; [apply IH; lia |].
        unfold Youtube.slept, Youtube.attempt. cbn [Youtube.sleeps Youtube.attempts].
        rewrite length_app. cbn [List.length]. lia.
    - eapply Z.le_trans; [apply IH; lia |]. cbn. lia. }
  induction request as [video_id | next IH | e next IH]; intros error retry t H0;
    cbn [Youtube.resumable_loop];
    destruct (Z.leb_spec retry Youtube.max_retries); cbn [negb snd]; try lia.
  - destruct video_id; cbn; lia.
  - apply After; assumption.
  - destruct e; try (apply After; assumption).
    destruct (Youtube.retriable_status status); [apply After; assumption | cbn; lia].
Qed.

(** C4 (as the code has it).  A failure of [next_chunk] with HTTP status
    500, 502, 503 or 504, or with an exception that is not an HTTP error,
    is retried after a sleep of [random() * 2 ** retry] seconds, [retry]
    counting from 1, and the third retry is the last one; any other HTTP
    error leaves the loop at once.  Two retried failures followed by a
    response make three attempts and a success; four retried failures in
    a row end in failure after four attempts and exactly three sleeps; no
    upload sleeps more than three times. *)
Theorem resumable_upload_retry_policy :
  (forall e next error retry t,
      retried e = true -> retry <= Youtube.max_retries ->
      Youtube.resumable_loop random (Youtube.Fails e next) error retry t =
        if retry <? Youtube.max_retries
        then Youtube.resumable_loop random next true (retry + 1)
               (Youtube.slept (Youtube.attempt t)
                  (random (List.length (Youtube.sleeps t)) * inject_Z (2 ^ (retry + 1)))%Q)
        else (Ret None, Youtube.attempt t))
  /\ (forall status next error retry t,
         Youtube.retriable_status status = false -> retry <= Youtube.max_retries ->
         Youtube.resumable_loop random (Youtube.Fails (HttpError status) next) error retry t
         = (Raise (HttpError status), Youtube.attempt t))
  /\ (forall e1 e2 video_id,
         retried e1 = true -> retried e2 = true ->
         Youtube.resumable_upload random
           (Youtube.Fails e1 (Youtube.Fails e2 (Youtube.Responds (Some video_id))))
         = (Ret (Some video_id),
            Youtube.mkTrace 3 [random 0%nat * inject_Z 2; random 1%nat * inject_Z 4]%Q))
  /\ (forall e1 e2 e3 e4 rest,
         retried e1 = true -> retried e2 = true -> retried e3 = true -> retried e4 = true ->
         Youtube.resumable_upload random
           (Youtube.Fails e1 (Youtube.Fails e2 (Youtube.Fails e3 (Youtube.Fails e4 rest))))
         = (Ret None,
            Youtube.mkTrace 4 [random 0%nat * inject_Z 2; random 1%nat * inject_Z 4;
                               random 2%nat * inject_Z 8]%Q))
  /\ (forall request,
         (List.length (Youtube.sleeps (snd (Youtube.resumable_upload random request))) <= 3)%nat).
Proof.
  split; [intros; apply retried_failure_step; assumption |].
  split; [intros; apply fatal_failure_step; assumption |].
  split; [| split].
  - intros e1 e2 video_id H1 H2. unfold Youtube.resumable_upload.
    rewrite (retried_failure_step e1) by (exact H1 || (unfold Youtube.max_retries; lia)).
    cbn [Z.ltb Z.compare Youtube.max_retries Pos.compare Pos.compare_cont].
    rewrite (retried_failure_step e2) by (exact H2 || (unfold Youtube.max_retries; lia)).
    reflexivity.
  - intros e1 e2 e3 e4 rest H1 H2 H3 H4. unfold Youtube.resumable_upload.
    rewrite (retried_failure_step e1) by (exact H1 || (unfold Youtube.max_retries; lia)).
    cbn [Z.ltb Z.compare Youtube.max_retries Pos.compare Pos.compare_cont].
    rewrite (retried_failure_step e2) by (exact H2 || (unfold Youtube.max_retries; lia)).
    cbn [Z.ltb Z.compare Youtube.max_retries Pos.compare Pos.compare_cont Z.add Pos.add].
    rewrite (retried_failure_step e3) by (exact H3 || (unfold Youtube.max_retries; lia)).
    cbn [Z.ltb Z.compare Youtube.max_retries Pos.compare Pos.compare_cont Z.add Pos.add
         Pos.succ].
    rewrite (retried_failure_step e4) by (exact H4 || (unfold Youtube.max_retries; lia)).
    reflexivity.
  - intros request. unfold Youtube.resumable_upload.
    pose proof (sleeps_bounded request false 0 Youtube.no_trace ltac:(lia)) as B.
    set (r := Youtube.resumable_loop random request false 0 Youtube.no_trace) in *.
    unfold Youtube.max_retries in B. cbn [Youtube.no_trace Youtube.sleeps List.length] in B.
    lia.
Qed.

End RetryPolicy.

(** The claim has every 5xx status retried: after a 501 the loop gives up
    at the first attempt, although the next attempt would have succeeded. *)
Lemma http_501_is_not_retried :
  Youtube.resumable_upload (fun _ => 1 # 2)
    (Youtube.Fails (HttpError 501) (Youtube.Responds (Some "dQw4w9WgXcQ")))
  = (Raise (HttpError 501), Youtube.mkTrace 1 []).
Proof. reflexivity. Qed.

Lemma resumable_upload_retry_policy_witness :
  Youtube.resumable_loop (fun _ => 1 # 2)
    (Youtube.Fails (HttpError 503) (Youtube.Responds (Some "dQw4w9WgXcQ")))
    false 0 Youtube.no_trace
  = Youtube.resumable_loop (fun _ => 1 # 2) (Youtube.Responds (Some "dQw4w9WgXcQ"))
      true 1 (Youtube.mkTrace 1 [(1 # 2) * inject_Z 2]%Q)
  /\ Youtube.resumable_loop (fun _ => 1 # 2)
       (Youtube.Fails (HttpError 403) (Youtube.Responds (Some "dQw4w9WgXcQ")))
       false 0 Youtube.no_trace
     = (Raise (HttpError 403), Youtube.mkTrace 1 [])
  /\ Youtube.resumable_upload (fun _ => 1 # 2)
       (Youtube.Fails (HttpError 503) (Youtube.Fails OtherError
          (Youtube.Responds (Some "dQw4w9WgXcQ"))))
     = (Ret (Some "dQw4w9WgXcQ"),
        Youtube.mkTrace 3 [(1 # 2) * inject_Z 2; (1 # 2) * inject_Z 4]%Q)
  /\ Youtube.resumable_upload (fun _ => 1 # 2)
       (Youtube.Fails (HttpError 500) (Youtube.Fails (HttpError 502)
          (Youtube.Fails (HttpError 504) (Youtube.Fails OtherError
             (Youtube.Responds (Some "dQw4w9WgXcQ"))))))
     = (Ret None,
        Youtube.mkTrace 4 [(1 # 2) * inject_Z 2; (1 # 2) * inject_Z 4;
                           (1 # 2) * inject_Z 8]%Q).
Proof.
  pose proof (resumable_upload_retry_policy (fun _ => 1 # 2)) as (P1 & P2 & P3 & P4 & _).
  split; [| split; [| split]].
  - apply (P1 (HttpError 503) (Youtube.Responds (Some "dQw4w9WgXcQ")) false 0
              Youtube.no_trace).
    + reflexivity.
    + discriminate.
  - apply (P2 403 (Youtube.Responds (Some "dQw4w9WgXcQ")) false 0 Youtube.no_trace).
    + reflexivity.
    + discriminate.
  - apply (P3 (HttpError 503) OtherError "dQw4w9WgXcQ"); reflexivity.
  - apply (P4 (HttpError 500) (HttpError 502) (HttpError 504) OtherError
              (Youtube.Responds (Some "dQw4w9WgXcQ"))); reflexivity.
Defined.

(** ** The daily upload counter *)

Section DailyQuota.

Variable random : nat -> Q.

Lemma check_quota_spec (u : Youtube.Uploader) (today : Z) :
  Youtube.check_quota_available u today
  = (negb (Youtube.daily_limit <=? count_today u today),
     Youtube.mkUploader (Youtube.youtube u) (count_today u today) today
                        (Youtube.default_playlist_id u)).
Proof.
  unfold Youtube.check_quota_available, count_today.
  destruct (Z.eqb_spec today (Youtube.last_reset_date u)) as [E | E]; cbn [negb].
  - destruct u as [y c d p]. cbn in *. subst d.
    destruct (Youtube.daily_limit <=? c); reflexivity.
  - cbn. reflexivity.
Qed.

Lemma playlist_keeps_counter (u : Youtube.Uploader) (env : Youtube.UploadEnv)
      (playlist_name : option string) :
  Youtube.daily_upload_count (snd (Youtube.add_to_playlist u env playlist_name))
  = Youtube.daily_upload_count u
  /\ Youtube.last_reset_date (snd (Youtube.add_to_playlist u env playlist_name))
     = Youtube.last_reset_date u.
Proof.
  unfold Youtube.add_to_playlist.
  destruct (Youtube.truthy_opt playlist_name); [| split; reflexivity].
  destruct (negb (Youtube.truthy_opt (Youtube.default_playlist_id u))).
  - destruct (Youtube.playlist_lookup env) as [p | e]; [| split; reflexivity].
    destruct (Youtube.truthy_opt (Youtube.default_playlist_id (Youtube.set_playlist u p)));
      [destruct (Youtube.playlist_add env) |]; split; reflexivity.
  - destruct (Youtube.truthy_opt (Youtube.default_playlist_id u));
      [destruct (Youtube.playlist_add env) |]; split; reflexivity.
Qed.

(** What the [try] block does to the counter. *)
Lemma try_upload_counter (v : Youtube.Uploader) (env : Youtube.UploadEnv)
      (match_id : Z) (metadata : Youtube.Metadata) (playlist_name : option string) :
  let r := Youtube.try_upload random v env match_id metadata playlist_name in
  Youtube.last_reset_date (snd (fst r)) = Youtube.last_reset_date v
  /\ (Youtube.daily_upload_count (snd (fst r)) = Youtube.daily_upload_count v \/
      Youtube.daily_upload_count (snd (fst r)) = Youtube.daily_upload_count v + 1)
  /\ (forall url, fst (fst r) = Some url ->
        Youtube.daily_upload_count (snd (fst r)) = Youtube.daily_upload_count v + 1).
Proof.
  unfold Youtube.try_upload. cbv zeta.
  destruct (Youtube.build_description_raises metadata || Youtube.build_tags_raises metadata).
  - cbn. repeat split; auto. discriminate.
  - destruct (Youtube.resumable_upload random (Youtube.request env)) as [[[id |] | e] t].
    + pose proof (playlist_keeps_counter (Youtube.count_upload v) env playlist_name)
        as [Pc Pd].
      destruct (Youtube.add_to_playlist (Youtube.count_upload v) env playlist_name)
        as [[[] | e] v']; cbn [fst snd] in *;
        cbn [Youtube.count_upload Youtube.daily_upload_count Youtube.last_reset_date]
          in Pc, Pd; repeat split; try lia; try congruence; discriminate.
    + cbn. repeat split; auto. discriminate.
    + cbn. repeat split; auto. discriminate.
Qed.

(** What one call of [upload_video] does to the counter. *)
Lemma upload_video_counter (u : Youtube.Uploader) (env : Youtube.UploadEnv)
      (match_id : Z) (metadata : Youtube.Metadata) (playlist_name : option string) :
  let result := Youtube.upload_video random u env match_id metadata playlist_name in
  let u' := snd (fst result) in
  let rolled := count_today u (Youtube.today env) in
  (Youtube.file_exists env = false -> result = (None, u, Youtube.no_trace))
  /\ (Youtube.file_exists env = true ->
      Youtube.last_reset_date u' = Youtube.today env
      /\ (Youtube.daily_limit <= rolled ->
          fst (fst result) = None /\ snd result = Youtube.no_trace
          /\ Youtube.daily_upload_count u' = rolled)
      /\ (rolled < Youtube.daily_limit ->
          (Youtube.daily_upload_count u' = rolled \/
           Youtube.daily_upload_count u' = rolled + 1)
          /\ (forall url, fst (fst result) = Some url ->
                          Youtube.daily_upload_count u' = rolled + 1))).
Proof.
  intros result u' rolled. subst u' result. unfold Youtube.upload_video.
  destruct (Youtube.file_exists env); cbn [negb]; split; try discriminate;
    [| reflexivity]. intros _.
  rewrite check_quota_spec. fold rolled.
  destruct (Z.leb_spec Youtube.daily_limit rolled) as [G | G]; cbn [negb].
  - cbn. repeat split; try reflexivity; lia.
  - set (u1 := Youtube.mkUploader (Youtube.youtube u) rolled (Youtube.today env)
                 (Youtube.default_playlist_id u)).
    destruct (Youtube.youtube u1) eqn:Y; cbn [negb].
    + destruct (try_upload_counter u1 env match_id metadata playlist_name)
        as (D1 & D2 & D3).
      split; [exact D1 |]. split; [lia |]. intros _. split; assumption.
    + destruct (Youtube.authenticates env).
      * destruct (try_upload_counter (Youtube.set_youtube u1) env match_id metadata
                    playlist_name) as (D1 & D2 & D3).
        split; [exact D1 |]. split; [lia |]. intros _. split; assumption.
      * cbn. repeat split; auto; try lia. discriminate.
Qed.

(** C7.  On a day on which five uploads were counted, [upload_video]
    returns [None] without a single call of [next_chunk] and leaves the
    counter as it is; a call that returns a URL found the counter below
    five and leaves it greater by one; on a date other than that of the
    last reset the quota check first sets the counter to zero and the date
    to today; the counter of a running process therefore never exceeds
    five. *)
Theorem daily_quota_gate (u : Youtube.Uploader) (env : Youtube.UploadEnv)
        (match_id : Z) (metadata : Youtube.Metadata) (playlist_name : option string) :
  let result := Youtube.upload_video random u env match_id metadata playlist_name in
  let u' := snd (fst result) in
  (Youtube.daily_limit <= Youtube.daily_upload_count u ->
   Youtube.today env = Youtube.last_reset_date u ->
   result = (None, u, Youtube.no_trace))
  /\ (forall url, fst (fst result) = Some url ->
        count_today u (Youtube.today env) < Youtube.daily_limit
        /\ Youtube.daily_upload_count u' = count_today u (Youtube.today env) + 1)
  /\ (Youtube.today env <> Youtube.last_reset_date u ->
      Youtube.check_quota_available u (Youtube.today env)
      = (true, Youtube.mkUploader (Youtube.youtube u) 0 (Youtube.today env)
                                  (Youtube.default_playlist_id u)))
  /\ (0 <= Youtube.daily_upload_count u <= Youtube.daily_limit ->
      0 <= Youtube.daily_upload_count u' <= Youtube.daily_limit).
Proof.
  intros result u'.
  pose proof (upload_video_counter u env match_id metadata playlist_name) as H.
  cbv zeta in H. fold result in H. fold u' in H. destruct H as [Hmissing Hexists].
  split; [| split; [| split]].
  - intros Hfull Hsame. subst result. unfold Youtube.upload_video.
    destruct (Youtube.file_exists env); [| reflexivity]. cbn [negb].
    rewrite check_quota_spec. unfold count_today.
    rewrite Hsame, Z.eqb_refl.
    destruct (Z.leb_spec Youtube.daily_limit (Youtube.daily_upload_count u)); [| lia].
    destruct u; reflexivity.
  - intros url Hurl. destruct (Youtube.file_exists env) eqn:F.
    + destruct (Hexists eq_refl) as (_ & Hfull & Hbelow).
      destruct (Z.lt_ge_cases (count_today u (Youtube.today env)) Youtube.daily_limit)
        as [L | L].
      * split; [exact L |]. apply (proj2 (Hbelow L) url). exact Hurl.
      * destruct (Hfull L) as [N _]. congruence.
    + rewrite (Hmissing eq_refl) in Hurl. discriminate Hurl.
  - intros Hnew. rewrite check_quota_spec. unfold count_today.
    destruct (Z.eqb_spec (Youtube.today env) (Youtube.last_reset_date u)); [contradiction |].
    reflexivity.
  - intros Hrange. destruct (Youtube.file_exists env) eqn:F.
    + destruct (Hexists eq_refl) as (_ & Hfull & Hbelow).
      assert (0 <= count_today u (Youtube.today env) <= Youtube.daily_limit)
        by (unfold count_today, Youtube.daily_limit in *;
            destruct (Youtube.today env =? Youtube.last_reset_date u); lia).
      destruct (Z.lt_ge_cases (count_today u (Youtube.today env)) Youtube.daily_limit)
        as [L | L].
      * destruct (Hbelow L) as [[E | E] _]; lia.
      * destruct (Hfull L) as (_ & _ & E). lia.
    + unfold u'. rewrite (Hmissing eq_refl). exact Hrange.
Qed.

End DailyQuota.

Lemma daily_quota_gate_witness :
  Youtube.upload_video (fun _ => 1 # 2) (Youtube.mkUploader true 5 19737 None)
    (service_on 19737) 42 versus_metadata None
  = (None, Youtube.mkUploader true 5 19737 None, Youtube.no_trace)
  /\ (count_today (Youtube.mkUploader true 2 19737 None) 19737 < Youtube.daily_limit
      /\ Youtube.daily_upload_count
           (snd (fst (Youtube.upload_video (fun _ => 1 # 2)
                        (Youtube.mkUploader true 2 19737 None) (service_on 19737)
                        42 versus_metadata None)))
         = count_today (Youtube.mkUploader true 2 19737 None) 19737 + 1)
  /\ Youtube.check_quota_available (Youtube.mkUploader true 5 19737 None) 19738
     = (true, Youtube.mkUploader true 0 19738 None)
  /\ 0 <= Youtube.daily_upload_count
            (snd (fst (Youtube.upload_video (fun _ => 1 # 2)
                         (Youtube.mkUploader true 4 19737 None) (service_on 19737)
                         42 versus_metadata None)))
          <= Youtube.daily_limit.
Proof.
  split; [| split; [| split]].
  - apply (proj1 (daily_quota_gate (fun _ => 1 # 2) (Youtube.mkUploader true 5 19737 None)
                    (service_on 19737) 42 versus_metadata None)).
    + vm_compute. discriminate.
    + reflexivity.
  - apply (proj1 (proj2 (daily_quota_gate (fun _ => 1 # 2)
                           (Youtube.mkUploader true 2 19737 None)
                           (service_on 19737) 42 versus_metadata None))
             "https://www.youtube.com/watch?v=dQw4w9WgXcQ").
    reflexivity.
  - apply (proj1 (proj2 (proj2 (daily_quota_gate (fun _ => 1 # 2)
                                  (Youtube.mkUploader true 5 19737 None)
                                  (service_on 19738) 42 versus_metadata None)))).
    vm_compute. discriminate.
  - apply (proj2 (proj2 (proj2 (daily_quota_gate (fun _ => 1 # 2)
                                  (Youtube.mkUploader true 4 19737 None)
                                  (service_on 19737) 42 versus_metadata None)))).
    vm_compute. split; discriminate.
Defined.

(** ** Filenames *)

(** The three filenames of the specification. *)
Example parse_filename_examples :
  Bulk.parse_filename "42-20240115_143052.mp4"
  = Ret (Some (Bulk.mkParsed (Some 42) (mkDateTime 2024 1 15 14 30 52 0)))
  /\ Bulk.parse_filename "20240115_143052.mp4"
     = Ret (Some (Bulk.mkParsed None (mkDateTime 2024 1 15 14 30 52 0)))
  /\ Bulk.parse_filename "notaname.mp4" = Ret None.
Proof. repeat split; reflexivity. Qed.

(** [parse_filename] returns [None] exactly when what is left of the name,
    once every occurrence of ".mp4" is deleted, matches neither pattern. *)
Lemma parse_filename_none (filename : string) :
  Bulk.parse_filename filename = Ret None <->
  Bulk.match_id_and_timestamp (PyStr.remove_all ".mp4" filename) = None
  /\ Bulk.match_timestamp_only (PyStr.remove_all ".mp4" filename) = None.
Proof.
  unfold Bulk.parse_filename.
  destruct (Bulk.match_id_and_timestamp (PyStr.remove_all ".mp4" filename))
    as [[id_str ts] |].
  - destruct (Bulk.strptime ts); split; intros H; try discriminate H;
      destruct H as [H _]; discriminate H.
  - destruct (Bulk.match_timestamp_only (PyStr.remove_all ".mp4" filename)) as [ts |].
    + destruct (Bulk.strptime ts); split; intros H; try discriminate H;
        destruct H as [_ H]; discriminate H.
    + split; intros _; [split |]; reflexivity.
Qed.

(** C6 (the code at the failing input).  A name that the directory scan
    accepts and that is of neither form, its identifier being "4.mp42", is
    parsed as match 42: [str.replace] deletes the ".mp4" inside the name as
    well as the extension. *)
Theorem parse_filename_deletes_inner_extension :
  Bulk.is_match_video "4.mp42-20240115_143052.mp4" = true
  /\ Bulk.parse_filename "4.mp42-20240115_143052.mp4"
     = Ret (Some (Bulk.mkParsed (Some 42) (mkDateTime 2024 1 15 14 30 52 0))).
Proof. split; reflexivity. Qed.

(** ** Reconciliation by timestamp *)

Section ClosestMatch.

Context {A : Type} (key : A -> Z).

Lemma min_by_fold (rest before after : list A) (best : A) :
  Forall (fun x => key best < key x) before ->
  Forall (fun x => key best <= key x) after ->
  exists pre post,
    before ++ best :: after ++ rest
    = pre ++ fold_left (fun b item => if key item <? key b then item else b) rest best
          :: post
    /\ Forall (fun x =>
         key (fold_left (fun b item => if key item <? key b then item else b) rest best)
         < key x) pre
    /\ Forall (fun x =>
         key (fold_left (fun b item => if key item <? key b then item else b) rest best)
         <= key x) post.
Proof.
  revert before after best. induction rest as [| item rest IH]; intros before after best Hb Ha.
  - exists before, after. rewrite app_nil_r. auto.
  - cbn [fold_left]. destruct (Z.ltb_spec (key item) (key best)) as [L | L].
    + destruct (IH (before ++ best :: after) [] item) as (pre & post & E & P1 & P2).
      * apply Forall_app. split.
        -- eapply Forall_impl; [| exact Hb]. cbn. intros; lia.
        -- constructor; [exact L |]. eapply Forall_impl; [| exact Ha]. cbn. intros; lia.
      * constructor.
      * exists pre, post. split; [| split; assumption].
        rewrite <- E. rewrite <- app_assoc. reflexivity.
    + destruct (IH before (after ++ [item]) best Hb) as (pre & post & E & P1 & P2).
      * apply Forall_app. split; [exact Ha |]. constructor; [lia | constructor].
      * exists pre, post. split; [| split; assumption].
        rewrite <- E. rewrite <- app_assoc. reflexivity.
Qed.

(** [min] with a key returns the first of the items whose key is least. *)
Lemma min_by_first_least (first : A) (rest : list A) :
  exists pre post,
    first :: rest = pre ++ Bulk.min_by key first rest :: post
    /\ Forall (fun x => key (Bulk.min_by key first rest) < key x) pre
    /\ Forall (fun x => key (Bulk.min_by key first rest) <= key x) post.
Proof.
  destruct (min_by_fold rest [] [] first) as (pre & post & E & P1 & P2);
    try constructor.
  exists pre, post. auto.
Qed.

End ClosestMatch.

(** C5 (as the code has it).  Of the records the window query returns,
    the reconciler takes one whose distance in time to the probe is least;
    among several at the least distance it takes the one that comes first
    in the order of the query result.  No record means no match. *)
Theorem closest_match_first_in_query_order (probe : DateTime) (data : list Bulk.MatchRecord) :
  match Bulk.pick_match probe data with
  | None => data = []
  | Some m =>
      exists pre post,
        data = pre ++ m :: post
        /\ Forall (fun x => Bulk.time_delta probe m < Bulk.time_delta probe x) pre
        /\ Forall (fun x => Bulk.time_delta probe m <= Bulk.time_delta probe x) post
  end.
Proof.
  unfold Bulk.pick_match. destruct data as [| m [| m' rest]].
  - reflexivity.
  - exists [], []. repeat split; constructor.
  - apply (min_by_first_least (Bulk.time_delta probe) m (m' :: rest)).
Qed.

(** The claim has ties broken by the lowest identifier whatever the order
    of the query result: of two records two seconds before and after the
    probe, the code returns whichever the store lists first. *)
Lemma tie_follows_query_order :
  Bulk.pick_match some_time [match_after; match_before] = Some match_after
  /\ Bulk.pick_match some_time [match_before; match_after] = Some match_before
  /\ Bulk.time_delta some_time match_before = Bulk.time_delta some_time match_after
  /\ Permutation [match_after; match_before] [match_before; match_after].
Proof. repeat split; try reflexivity. apply perm_swap. Qed.

(** ** Idempotent skip *)

Lemma pick_match_in (probe : DateTime) (data : list Bulk.MatchRecord) (m : Bulk.MatchRecord) :
  Bulk.pick_match probe data = Some m -> In m data.
Proof.
  unfold Bulk.pick_match. destruct data as [| a [| b rest]]; intros H.
  - discriminate H.
  - injection H as <-. left. reflexivity.
  - injection H as <-.
    destruct (min_by_first_least (Bulk.time_delta probe) a (b :: rest))
      as (pre & post & E & _). rewrite E. apply in_elt.
Qed.

Lemma resolved_record_in (w : Bulk.World) (parsed : Bulk.Parsed) (m : Bulk.MatchRecord) :
  resolved_record w parsed = Some m ->
  In m (Bulk.matches w) /\ resolved_id w parsed = Some (Bulk.id m).
Proof.
  unfold resolved_id, resolved_record. destruct (Bulk.match_id parsed) as [n |]; intros H.
  - destruct (filter (Bulk.has_id n) (Bulk.matches w)) as [| a l] eqn:F; [discriminate H |].
    injection H as <-.
    assert (I : In a (filter (Bulk.has_id n) (Bulk.matches w))) by (rewrite F; left; reflexivity).
    apply filter_In in I. destruct I as [I T]. split; [exact I |].
    unfold Bulk.has_id in T. apply Z.eqb_eq in T. congruence.
  - rewrite H. split; [| reflexivity].
    apply pick_match_in in H. apply filter_In in H. tauto.
Qed.

Lemma filter_none {A : Type} (f : A -> bool) (l : list A) :
  (forall x, In x l -> f x = false) -> filter f l = [].
Proof.
  induction l as [| a l IH]; intros H; [reflexivity |].
  cbn [filter]. rewrite (H a (or_introl eq_refl)). apply IH.
  intros x Hx. apply H. right. exact Hx.
Qed.

(** The identifier is a key: it selects its row. *)
Lemma key_selects_row (ms : list Bulk.MatchRecord) (m : Bulk.MatchRecord) :
  NoDup (map Bulk.id ms) -> In m ms -> filter (Bulk.has_id (Bulk.id m)) ms = [m].
Proof.
  induction ms as [| a ms IH]; intros N I; [destruct I |].
  cbn [map] in N. inversion N as [| x l Hnotin N']. subst x l.
  cbn [filter]. unfold Bulk.has_id at 1.
  destruct I as [-> | I].
  - rewrite Z.eqb_refl. f_equal. apply filter_none.
    intros b Hb. unfold Bulk.has_id. apply Z.eqb_neq. intros E.
    apply Hnotin. rewrite <- E. apply in_map. exact Hb.
  - destruct (Z.eqb_spec (Bulk.id a) (Bulk.id m)) as [E | E].
    + exfalso. apply Hnotin. rewrite E. apply in_map. exact I.
    + apply IH; assumption.
Qed.

Lemma stored_url_of_row (w : Bulk.World) (m : Bulk.MatchRecord) :
  NoDup (map Bulk.id (Bulk.matches w)) -> In m (Bulk.matches w) ->
  stored_url w (Bulk.id m) = Bulk.youtube_url m.
Proof.
  intros N I. unfold stored_url. rewrite (key_selects_row _ m N I). reflexivity.
Qed.

Section Idempotency.

Variable store_fails : nat -> bool.
Variable upload_env : nat -> Youtube.UploadEnv.
Variable random : nat -> nat -> Q.
Variable local_epoch : DateTime -> Z.
Variable dry_run : bool.

Lemma execute_answers (w : Bulk.World) :
  store_fails (Bulk.requests w) = false ->
  Bulk.execute store_fails w = (false, Bulk.count_request w).
Proof. intros H. unfold Bulk.execute. rewrite H. reflexivity. Qed.

Lemma resolve_match_answers (parsed : Bulk.Parsed) (w : Bulk.World) :
  store_fails (Bulk.requests w) = false ->
  Bulk.resolve_match store_fails parsed w
  = ((resolved_id w parsed, resolved_record w parsed), Bulk.count_request w).
Proof.
  intros H. unfold Bulk.resolve_match, resolved_id, resolved_record.
  destruct (Bulk.match_id parsed) as [n |].
  - unfold Bulk.fetch_match, Bulk.bind. rewrite (execute_answers w H). reflexivity.
  - unfold Bulk.find_match_by_timestamp, Bulk.bind. rewrite (execute_answers w H).
    cbn [Bulk.matches Bulk.count_request].
    destruct (Bulk.pick_match _ _); reflexivity.
Qed.

Lemma is_already_uploaded_answers (n : Z) (w : Bulk.World) :
  store_fails (Bulk.requests w) = false ->
  Bulk.is_already_uploaded store_fails (Some n) w
  = (Youtube.truthy_opt (stored_url w n), Bulk.count_request w).
Proof.
  intros H. unfold Bulk.is_already_uploaded, Bulk.bind, stored_url.
  rewrite (execute_answers w H). cbn [Bulk.matches Bulk.count_request].
  destruct (filter (Bulk.has_id n) (Bulk.matches w)); reflexivity.
Qed.

(** The skip: a linked record with a reference, a non-zero identifier,
    and a store that answers the two lookups. *)
Lemma process_parsed_skips (filepath : string) (parsed : Bulk.Parsed)
      (playlist_name : option string) (w : Bulk.World) (n : Z) :
  resolved_id w parsed = Some n ->
  n <> 0 ->
  Youtube.truthy_opt (stored_url w n) = true ->
  store_fails (Bulk.requests w) = false ->
  store_fails (S (Bulk.requests w)) = false ->
  Bulk.process_parsed store_fails upload_env random local_epoch dry_run
    filepath parsed true playlist_name w
  = (false, skipped_world w).
Proof.
  intros Hid Hn Hurl H0 H1. unfold Bulk.process_parsed, Bulk.bind.
  rewrite (resolve_match_answers parsed w H0). cbn [fst snd]. rewrite Hid.
  unfold Bulk.skip_test. cbn [andb Bulk.truthy_id].
  destruct (Z.eqb_spec n 0) as [E | _]; [contradiction |]. cbn [negb].
  rewrite (is_already_uploaded_answers n (Bulk.count_request w)) by exact H1.
  replace (stored_url (Bulk.count_request w) n) with (stored_url w n) by reflexivity.
  rewrite Hurl. reflexivity.
Qed.

Lemma same_tables_refl (w : Bulk.World) : same_tables w w.
Proof. split; reflexivity. Qed.

Lemma same_tables_trans (w1 w2 w3 : Bulk.World) :
  same_tables w1 w2 -> same_tables w2 w3 -> same_tables w1 w3.
Proof. unfold same_tables. intros [A B] [C D]. split; congruence. Qed.

Lemma player_name_of_frame (p : Bulk.Participant) (w : Bulk.World) :
  same_tables w (snd (Bulk.player_name_of store_fails p w)).
Proof.
  unfold Bulk.player_name_of.
  destruct (Bulk.player p) as [pid |]; [| apply same_tables_refl].
  destruct (PyStr.truthy pid); [| apply same_tables_refl].
  unfold Bulk.bind, Bulk.execute.
  destruct (store_fails (Bulk.requests w)); [split; reflexivity |].
  destruct (filter _ (Bulk.players (Bulk.count_request w))); split; reflexivity.
Qed.

Lemma metadata_players_frame (ps : list Bulk.Participant) (w : Bulk.World) :
  same_tables w (snd (Bulk.metadata_players store_fails ps w)).
Proof.
  revert w. induction ps as [| p ps IH]; intros w; [apply same_tables_refl |].
  cbn [Bulk.metadata_players]. unfold Bulk.bind.
  pose proof (player_name_of_frame p w) as F.
  destruct (Bulk.player_name_of store_fails p w) as [nm w1].
  pose proof (IH w1) as G.
  destruct (Bulk.metadata_players store_fails ps w1) as [tl w2].
  cbn [snd Bulk.ret] in *. eapply same_tables_trans; eassumption.
Qed.

Lemma prepare_metadata_frame (ts : DateTime) (match_id : option Z)
      (match_record : option Bulk.MatchRecord) (w : Bulk.World) :
  same_tables w (snd (Bulk.prepare_metadata store_fails local_epoch ts match_id match_record w))
  /\ (match_record <> None ->
      snd (fst (Bulk.prepare_metadata store_fails local_epoch ts match_id match_record w))
      = match_id).
Proof.
  unfold Bulk.prepare_metadata. destruct match_record as [m |].
  - unfold Bulk.get_match_metadata, Bulk.bind.
    pose proof (metadata_players_frame (Bulk.match_participants m) w) as F.
    destruct (Bulk.metadata_players store_fails (Bulk.match_participants m) w) as [ps w1].
    cbn [snd fst Bulk.ret] in *. split; [exact F | reflexivity].
  - split; [apply same_tables_refl | intros C; contradiction].
Qed.

Lemma skip_test_frame (skip_uploaded : bool) (match_id : option Z) (w : Bulk.World) :
  same_tables w (snd (Bulk.skip_test store_fails skip_uploaded match_id w)).
Proof.
  unfold Bulk.skip_test.
  destruct (skip_uploaded && Bulk.truthy_id match_id); [| apply same_tables_refl].
  unfold Bulk.is_already_uploaded. destruct match_id as [n |]; [| apply same_tables_refl].
  unfold Bulk.bind, Bulk.execute.
  destruct (store_fails (Bulk.requests w)); [split; reflexivity |].
  destruct (filter _ (Bulk.matches (Bulk.count_request w))); split; reflexivity.
Qed.

(** A successful upload for a linked file writes the reference, when the
    store accepts the write. *)
Lemma upload_and_save_writes (filepath : string) (m : Bulk.MatchRecord) (n : Z)
      (metadata : Youtube.Metadata) (playlist_name : option string) (w w1 : Bulk.World) :
  (forall k, store_fails k = false) ->
  Bulk.upload_and_save store_fails upload_env random filepath (Some m) n metadata
    playlist_name w = (true, w1) ->
  exists url,
    PyStr.truthy url = true
    /\ Bulk.matches w1 = map (Bulk.with_url n url) (Bulk.matches w)
    /\ List.length (Bulk.uploads w1) = S (List.length (Bulk.uploads w)).
Proof.
  intros Hstore. unfold Bulk.upload_and_save, Bulk.bind, Bulk.upload_video.
  destruct (Youtube.upload_video _ _ _ n metadata playlist_name) as [[url u] t].
  destruct url as [url |]; cbn [Youtube.truthy_opt].
  - destruct (PyStr.truthy url) eqn:T.
    + unfold Bulk.save_youtube_url, Bulk.bind, Bulk.execute. rewrite Hstore.
      cbn. intros E. injection E as <-. exists url. cbn.
      repeat split; [exact T |]. rewrite length_app. cbn. lia.
    + cbn. intros E. discriminate E.
  - cbn. intros E. discriminate E.
Qed.

(** What a first run that returns [True] leaves for a linked file. *)
Lemma process_parsed_writes (filepath : string) (parsed : Bulk.Parsed)
      (skip_uploaded : bool) (playlist_name : option string)
      (w w1 : Bulk.World) (m : Bulk.MatchRecord) :
  dry_run = false ->
  (forall k, store_fails k = false) ->
  resolved_record w parsed = Some m ->
  Bulk.process_parsed store_fails upload_env random local_epoch dry_run
    filepath parsed skip_uploaded playlist_name w = (true, w1) ->
  exists url,
    PyStr.truthy url = true
    /\ Bulk.matches w1 = map (Bulk.with_url (Bulk.id m) url) (Bulk.matches w)
    /\ List.length (Bulk.uploads w1) = S (List.length (Bulk.uploads w)).
Proof.
  intros Hdry Hstore Hrec. unfold Bulk.process_parsed, Bulk.bind.
  rewrite (resolve_match_answers parsed w (Hstore _)). cbn [fst snd].
  destruct (resolved_record_in w parsed m Hrec) as [_ Hid]. rewrite Hid, Hrec.
  pose proof (skip_test_frame skip_uploaded (Some (Bulk.id m)) (Bulk.count_request w)) as F.
  destruct (Bulk.skip_test store_fails skip_uploaded (Some (Bulk.id m)) (Bulk.count_request w))
    as [skip wa]. cbn [snd] in F.
  destruct skip; [cbn; intros E; discriminate E |].
  pose proof (prepare_metadata_frame (Bulk.timestamp parsed) (Some (Bulk.id m)) (Some m) wa)
    as [G Gid].
  destruct (Bulk.prepare_metadata store_fails local_epoch (Bulk.timestamp parsed)
              (Some (Bulk.id m)) (Some m) wa) as [[metadata mid] wb].
  cbn [fst snd] in *. rewrite Gid by discriminate. rewrite Hdry.
  intros E. apply upload_and_save_writes in E; [| exact Hstore].
  destruct E as (url & T & Em & Eu). exists url.
  destruct F as [F1 F2], G as [G1 G2]. cbn [Bulk.matches Bulk.uploads Bulk.count_request] in *.
  repeat split; [exact T | congruence | congruence].
Qed.

(** The write of a reference changes neither the identifier nor the
    timestamp of a row, so it changes no later resolution. *)
Lemma filter_map_same {A : Type} (f : A -> bool) (g : A -> A) (l : list A) :
  (forall x, f (g x) = f x) -> filter f (map g l) = map g (filter f l).
Proof.
  intros H. induction l as [| a l IH]; [reflexivity |].
  cbn [map filter]. rewrite H, IH. destruct (f a); reflexivity.
Qed.

Lemma min_by_map {A : Type} (key : A -> Z) (g : A -> A) (first : A) (rest : list A) :
  (forall x, key (g x) = key x) ->
  Bulk.min_by key (g first) (map g rest) = g (Bulk.min_by key first rest).
Proof.
  intros H. unfold Bulk.min_by. revert first.
  induction rest as [| a rest IH]; intros first; [reflexivity |].
  cbn [map fold_left]. rewrite !H.
  destruct (key a <? key first); apply IH.
Qed.

Lemma pick_match_map (probe : DateTime) (g : Bulk.MatchRecord -> Bulk.MatchRecord)
      (data : list Bulk.MatchRecord) :
  (forall x, Bulk.time_delta probe (g x) = Bulk.time_delta probe x) ->
  Bulk.pick_match probe (map g data) = option_map g (Bulk.pick_match probe data).
Proof.
  intros H. unfold Bulk.pick_match. destruct data as [| a [| b rest]]; try reflexivity.
  cbn [map option_map]. f_equal.
  apply (min_by_map (Bulk.time_delta probe) g a (b :: rest) H).
Qed.

Lemma with_url_id (n : Z) (url : string) (m : Bulk.MatchRecord) :
  Bulk.id (Bulk.with_url n url m) = Bulk.id m
  /\ Bulk.created_at (Bulk.with_url n url m) = Bulk.created_at m.
Proof. unfold Bulk.with_url. destruct (Bulk.has_id n m); split; reflexivity. Qed.

Lemma resolved_after_write (w w1 : Bulk.World) (parsed : Bulk.Parsed) (n : Z) (url : string) :
  Bulk.matches w1 = map (Bulk.with_url n url) (Bulk.matches w) ->
  resolved_id w1 parsed = resolved_id w parsed.
Proof.
  intros E. unfold resolved_id, resolved_record. rewrite E.
  destruct (Bulk.match_id parsed) as [k |]; [reflexivity |].
  rewrite filter_map_same.
  - rewrite pick_match_map.
    + destruct (Bulk.pick_match _ _) as [m |]; [| reflexivity].
      cbn [option_map]. f_equal. apply with_url_id.
    + intros x. unfold Bulk.time_delta. now rewrite (proj2 (with_url_id n url x)).
  - intros x. unfold Bulk.in_window. now rewrite (proj2 (with_url_id n url x)).
Qed.

Lemma stored_after_write (w w1 : Bulk.World) (m : Bulk.MatchRecord) (url : string) :
  Bulk.matches w1 = map (Bulk.with_url (Bulk.id m) url) (Bulk.matches w) ->
  In m (Bulk.matches w) ->
  stored_url w1 (Bulk.id m) = Some url.
Proof.
  intros E I. unfold stored_url. rewrite E, filter_map_same.
  - assert (F : In m (filter (Bulk.has_id (Bulk.id m)) (Bulk.matches w))).
    { apply filter_In. split; [exact I |]. unfold Bulk.has_id. apply Z.eqb_refl. }
    destruct (filter (Bulk.has_id (Bulk.id m)) (Bulk.matches w)) as [| a l] eqn:Fa;
      [destruct F |].
    assert (Ha : Bulk.has_id (Bulk.id m) a = true).
    { assert (In a (filter (Bulk.has_id (Bulk.id m)) (Bulk.matches w)))
        by (rewrite Fa; left; reflexivity).
      apply filter_In in H. tauto. }
    cbn [map]. unfold Bulk.with_url. rewrite Ha. reflexivity.
  - intros x. unfold Bulk.has_id. now rewrite (proj1 (with_url_id (Bulk.id m) url x)).
Qed.

Lemma resolved_record_rows (w w' : Bulk.World) (parsed : Bulk.Parsed) :
  Bulk.matches w' = Bulk.matches w -> resolved_record w' parsed = resolved_record w parsed.
Proof. intros E. unfold resolved_record. rewrite E. reflexivity. Qed.

Lemma process_video_skips (filepath : string) (playlist_name : option string)
      (w : Bulk.World) :
  (forall k, store_fails k = false) ->
  NoDup (map Bulk.id (Bulk.matches w)) ->
  already_done (Bulk.matches w) filepath ->
  Bulk.process_video store_fails upload_env random local_epoch dry_run
    filepath true playlist_name w
  = (Ret false, skipped_world w).
Proof.
  intros Hstore Hkey (parsed & m & Hparse & Hrec & Hurl & Hid).
  change (resolved_record w parsed = Some m) in Hrec.
  destruct (resolved_record_in w parsed m Hrec) as [Hin Hrid].
  unfold Bulk.process_video. rewrite Hparse.
  rewrite (process_parsed_skips filepath parsed playlist_name w (Bulk.id m));
    try apply Hstore; try assumption; [reflexivity |].
  rewrite (stored_url_of_row w m Hkey Hin). exact Hurl.
Qed.

(** A run over files that are all done uploads nothing and writes nothing. *)
Lemma run_skips_all (files : list string) (playlist_name : option string) (w : Bulk.World) :
  (forall k, store_fails k = false) ->
  NoDup (map Bulk.id (Bulk.matches w)) ->
  Forall (already_done (Bulk.matches w)) files ->
  let w' := fold_left (Bulk.run_one store_fails upload_env random local_epoch dry_run
                         true playlist_name) files w in
  Bulk.matches w' = Bulk.matches w
  /\ Bulk.uploads w' = Bulk.uploads w
  /\ Bulk.already_uploaded (Bulk.stats w')
     = Bulk.already_uploaded (Bulk.stats w) + Z.of_nat (List.length files).
Proof.
  intros Hstore. revert w. induction files as [| f files IH]; intros w Hkey Hall.
  - cbn. repeat split. lia.
  - inversion Hall as [| x l Hf Hrest]. subst x l.
    assert (E : Bulk.run_one store_fails upload_env random local_epoch dry_run
                  true playlist_name w f = skipped_world w).
    { unfold Bulk.run_one.
      rewrite (process_video_skips f playlist_name w Hstore Hkey Hf). reflexivity. }
    cbn [fold_left]. rewrite E.
    destruct (IH (skipped_world w) Hkey Hrest) as (A & B & C).
    cbn [skipped_world Bulk.matches Bulk.uploads Bulk.stats
         Bulk.count_already_uploaded Bulk.already_uploaded] in A, B, C.
    cbv zeta. split; [exact A | split; [exact B |]].
    rewrite C. cbn [List.length]. lia.
Qed.

(** C1 (as the code has it).  With [skip_uploaded] on, for a file linked
    to a record with a non-zero identifier that carries a non-empty
    reference, and a store that answers the two lookups, [process_video]
    returns [False] without a call of [upload_video] and leaves the rows
    as they are.  And when [process_video] returned [True] for a file
    linked to such a record, on a store that answers every request, it
    made one call of [upload_video] and wrote the reference, so that
    processing the file again with [skip_uploaded] on makes no call.  A
    run with [skip_uploaded] on over files that are all linked to such
    records makes no call of [upload_video] and changes no row. *)
Theorem rerun_skips_uploaded_match :
  (forall filepath parsed playlist_name w m,
      Bulk.parse_filename (Bulk.basename filepath) = Ret (Some parsed) ->
      NoDup (map Bulk.id (Bulk.matches w)) ->
      resolved_record w parsed = Some m ->
      Youtube.truthy_opt (Bulk.youtube_url m) = true ->
      Bulk.id m <> 0 ->
      store_fails (Bulk.requests w) = false ->
      store_fails (S (Bulk.requests w)) = false ->
      Bulk.process_video store_fails upload_env random local_epoch dry_run
        filepath true playlist_name w
      = (Ret false, skipped_world w))
  /\ (forall filepath parsed skip_uploaded playlist_name playlist_name' w w1 m,
      dry_run = false ->
      (forall k, store_fails k = false) ->
      Bulk.parse_filename (Bulk.basename filepath) = Ret (Some parsed) ->
      resolved_record w parsed = Some m ->
      Bulk.id m <> 0 ->
      Bulk.process_video store_fails upload_env random local_epoch dry_run
        filepath skip_uploaded playlist_name w = (Ret true, w1) ->
      List.length (Bulk.uploads w1) = S (List.length (Bulk.uploads w))
      /\ Bulk.process_video store_fails upload_env random local_epoch dry_run
           filepath true playlist_name' w1
         = (Ret false, skipped_world w1))
  /\ (forall all_files playlist_name w,
      (forall k, store_fails k = false) ->
      NoDup (map Bulk.id (Bulk.matches w)) ->
      Forall (already_done (Bulk.matches w)) all_files ->
      Bulk.matches (Bulk.run store_fails upload_env random local_epoch dry_run
                      all_files true playlist_name w) = Bulk.matches w
      /\ Bulk.uploads (Bulk.run store_fails upload_env random local_epoch dry_run
                         all_files true playlist_name w) = Bulk.uploads w).
Proof.
  split; [| split].
  3: { intros all_files playlist_name w Hstore Hkey Hall. unfold Bulk.run.
       destruct (run_skips_all all_files playlist_name
                   (snd (Bulk.set_stats
                           (Bulk.set_total_files (Z.of_nat (List.length all_files))) w))
                   Hstore Hkey Hall) as (A & B & _).
       split; [exact A | exact B]. }
  - intros filepath parsed playlist_name w m Hparse Hkey Hrec Hurl Hid H0 H1.
    destruct (resolved_record_in w parsed m Hrec) as [Hin Hrid].
    unfold Bulk.process_video. rewrite Hparse.
    rewrite (process_parsed_skips filepath parsed playlist_name w (Bulk.id m));
      try assumption; [reflexivity |].
    rewrite (stored_url_of_row w m Hkey Hin). exact Hurl.
  - intros filepath parsed skip_uploaded playlist_name playlist_name' w w1 m
           Hdry Hstore Hparse Hrec Hid Hrun.
    destruct (resolved_record_in w parsed m Hrec) as [Hin Hrid].
    unfold Bulk.process_video in *. rewrite Hparse in *.
    destruct (Bulk.process_parsed store_fails upload_env random local_epoch dry_run
                filepath parsed skip_uploaded playlist_name w) as [r w'] eqn:E.
    injection Hrun as -> ->.
    destruct (process_parsed_writes filepath parsed skip_uploaded playlist_name w w1 m
                Hdry Hstore Hrec E) as (url & T & Em & Eu).
    split; [exact Eu |].
    rewrite (process_parsed_skips filepath parsed playlist_name' w1 (Bulk.id m));
      try apply Hstore; try assumption; [reflexivity | |].
    + rewrite (resolved_after_write w w1 parsed (Bulk.id m) url Em). exact Hrid.
    + rewrite (stored_after_write w w1 m url Em Hin). exact T.
Qed.

End Idempotency.

(** The claim has no upload for a file whose record carries a reference.
    With [--force] ([skip_uploaded] off) the file is uploaded again and the
    reference replaced; and when the status query raises, the check
    answers "not uploaded" and the file is uploaded again. *)
Lemma uploaded_file_is_uploaded_again :
  (let w := snd (Bulk.process_video (fun _ => false) ready_service fair_coin
                   Calendar.utc_seconds false "matches/42-20240115_143052.mp4"
                   false None world_with_upload) in
   List.length (Bulk.uploads w) = 1%nat
   /\ map Bulk.youtube_url (Bulk.matches w) = [Some "https://www.youtube.com/watch?v=again"])
  /\ (let w := snd (Bulk.process_video (fun k => Nat.eqb k 1) ready_service fair_coin
                      Calendar.utc_seconds false "matches/42-20240115_143052.mp4"
                      true None world_with_upload) in
      List.length (Bulk.uploads w) = 1%nat).
Proof. split; [split |]; reflexivity. Qed.

Lemma rerun_skips_uploaded_match_witness :
  Bulk.process_video (fun _ => false) ready_service fair_coin Calendar.utc_seconds false
    "matches/42-20240115_143052.mp4" true None world_with_upload
  = (Ret false, skipped_world world_with_upload)
  /\ (List.length (Bulk.uploads world_after_first_run)
      = S (List.length (Bulk.uploads world_without_upload))
      /\ Bulk.process_video (fun _ => false) ready_service fair_coin Calendar.utc_seconds
           false "matches/20240115_143052.mp4" true None world_after_first_run
         = (Ret false, skipped_world world_after_first_run))
  /\ (Bulk.matches (Bulk.run (fun _ => false) ready_service fair_coin Calendar.utc_seconds
                      false ["matches/42-20240115_143052.mp4";
                             "matches/forlater/20240115_143050.mp4"]
                      true None world_with_upload)
      = Bulk.matches world_with_upload
      /\ Bulk.uploads (Bulk.run (fun _ => false) ready_service fair_coin
                         Calendar.utc_seconds false
                         ["matches/42-20240115_143052.mp4";
                          "matches/forlater/20240115_143050.mp4"]
                         true None world_with_upload)
         = Bulk.uploads world_with_upload).
Proof.
  split; [| split].
  3: { apply (proj2 (proj2 (rerun_skips_uploaded_match (fun _ => false) ready_service
                              fair_coin Calendar.utc_seconds false))).
       - reflexivity.
       - repeat constructor. intros [].
       - repeat constructor.
         + exists (Bulk.mkParsed (Some 42) some_time), uploaded_match.
           repeat split; try reflexivity. discriminate.
         + exists (Bulk.mkParsed None (mkDateTime 2024 1 15 14 30 50 0)), uploaded_match.
           repeat split; try reflexivity. discriminate. }
  - apply (proj1 (rerun_skips_uploaded_match (fun _ => false) ready_service fair_coin
                    Calendar.utc_seconds false)
             "matches/42-20240115_143052.mp4"
             (Bulk.mkParsed (Some 42) some_time) None world_with_upload uploaded_match).
    + reflexivity.
    + repeat constructor. intros [].
    + reflexivity.
    + reflexivity.
    + discriminate.
    + reflexivity.
    + reflexivity.
  - apply (proj1 (proj2 (rerun_skips_uploaded_match (fun _ => false) ready_service
                           fair_coin Calendar.utc_seconds false))
             "matches/20240115_143052.mp4"
             (Bulk.mkParsed None some_time) true None None world_without_upload
             world_after_first_run new_match).
    + reflexivity.
    + reflexivity.
    + reflexivity.
    + reflexivity.
    + discriminate.
    + reflexivity.
Defined.

(** * Further properties of the code *)

(** ** The scan and the extracted segment *)

Section ScanFacts.

Variable Frame : Type.
Variable bright_ratio : Frame -> option Q.

Lemma scan_step_frame_42 (st : Batch.Scan Frame) (frame : Frame) :
  Batch.frame_42_image Frame (Batch.scan_step Frame bright_ratio st frame)
  = if Batch.frame_count Frame st + 1 =? 42 then Some frame
    else Batch.frame_42_image Frame st.
Proof.
  unfold Batch.scan_step.
  destruct (Batch.detect_game_end Frame bright_ratio frame) as [confidence flag].
  destruct (if _ mod _ =? 0 then Batch.store_sample _ _ frame confidence else _).
  reflexivity.
Qed.

Lemma frame_42_from (video : list Frame) (st : Batch.Scan Frame) :
  0 <= Batch.frame_count Frame st ->
  Batch.frame_42_image Frame (fold_left (Batch.scan_step Frame bright_ratio) video st)
  = if (Batch.frame_count Frame st <? 42)
       && (42 <=? Batch.frame_count Frame st + Z.of_nat (List.length video))
    then nth_error video (Z.to_nat (41 - Batch.frame_count Frame st))
    else Batch.frame_42_image Frame st.
Proof.
  revert st. induction video as [| frame rest IH]; intros st Hc.
  - cbn [fold_left List.length].
    destruct (Z.ltb_spec (Batch.frame_count Frame st) 42),
             (Z.leb_spec 42 (Batch.frame_count Frame st + Z.of_nat 0));
      cbn [andb]; try reflexivity. lia.
  - cbn [fold_left]. rewrite IH by (rewrite scan_step_count; lia).
    rewrite scan_step_count, scan_step_frame_42. cbn [List.length].
    set (c := Batch.frame_count Frame st) in *.
    destruct (Z.eqb_spec (c + 1) 42) as [E | E].
    + assert (c = 41) by lia.
      destruct (Z.ltb_spec (c + 1) 42); [lia |]. cbn [andb].
      destruct (Z.ltb_spec c 42); [| lia].
      destruct (Z.leb_spec 42 (c + Z.of_nat (S (List.length rest)))); [| lia].
      cbn [andb]. replace (41 - c) with 0 by lia. reflexivity.
    + destruct (Z.ltb_spec (c + 1) 42), (Z.ltb_spec c 42); try lia; cbn [andb].
      * destruct (Z.leb_spec 42 (c + 1 + Z.of_nat (List.length rest))),
                 (Z.leb_spec 42 (c + Z.of_nat (S (List.length rest)))); try lia;
          [| reflexivity].
        replace (Z.to_nat (41 - c)) with (S (Z.to_nat (41 - (c + 1)))) by lia.
        reflexivity.
      * reflexivity.
Qed.

(** The frame kept for player identification is the 42nd decoded frame
    of the recording, whatever the window evicted in the meantime. *)
Lemma scan_frame_42 (video : list Frame) :
  Batch.frame_42_image Frame (Batch.scan Frame bright_ratio video) = nth_error video 41.
Proof.
  unfold Batch.scan. rewrite frame_42_from by (cbn; lia).
  cbn [Batch.scan_init Batch.frame_count Batch.frame_42_image].
  destruct (Z.leb_spec 42 (0 + Z.of_nat (List.length video))) as [L | L]; cbn [andb Z.ltb].
  - reflexivity.
  - symmetry. apply nth_error_None. lia.
Qed.

(** The window of a scan: the sampled frames without some of the oldest,
    each with its own confidence. *)
Lemma scan_window_aligned (video : list Frame) :
  let st := Batch.scan Frame bright_ratio video in
  let sampled := Batch.sampled_from 1 video in
  exists k,
    Batch.frames Frame st = skipn k sampled
    /\ Batch.scores Frame st
       = map (fun f => fst (Batch.detect_game_end Frame bright_ratio f)) (Batch.frames Frame st)
    /\ Z.of_nat (List.length (Batch.frames Frame st)) <= Batch.max_frames.
Proof.
  intros st sampled.
  pose proof (scan_window Frame bright_ratio video) as W. cbv zeta in W. fold st in W.
  rewrite window_after_closed in W. fold sampled in W.
  rewrite length_map in W. rewrite !map_map in W. cbn [Batch.with_score fst snd] in W.
  rewrite map_id in W.
  injection W as Wf Ws.
  set (n := Z.of_nat (List.length sampled)) in *.
  exists (Z.to_nat (evicted n)). split; [exact Wf |]. split.
  - rewrite Ws, Wf. apply skipn_map.
  - rewrite Wf, length_skipn.
    destruct (evicted_bounds n ltac:(unfold n; lia)) as [Hk Hs]. unfold n in *. lia.
Qed.

Lemma sampled_length (video : list Frame) (ordinal : Z) :
  2 * Z.of_nat (List.length (Batch.sampled_from ordinal video))
  <= Z.of_nat (List.length video) + (if ordinal mod 2 =? 0 then 1 else 0).
Proof.
  revert ordinal. induction video as [| f rest IH]; intros ordinal.
  - cbn. destruct (ordinal mod 2 =? 0); lia.
  - cbn [Batch.sampled_from List.length]. unfold Batch.frame_skip_interval.
    specialize (IH (ordinal + 1)).
    pose proof (Z.mod_pos_bound ordinal 2 ltac:(lia)) as B.
    pose proof (Z.mod_pos_bound (ordinal + 1) 2 ltac:(lia)) as B'.
    pose proof (Z.div_mod ordinal 2 ltac:(lia)) as D.
    pose proof (Z.div_mod (ordinal + 1) 2 ltac:(lia)) as D'.
    destruct (Z.eqb_spec (ordinal mod 2) 0), (Z.eqb_spec ((ordinal + 1) mod 2) 0);
      cbn [List.length]; lia.
Qed.

Lemma skipn_nth_head {A : Type} (l : list A) (i : nat) (x : A) :
  nth_error l i = Some x -> skipn i l = x :: skipn (S i) l.
Proof.
  revert i. induction l as [| a l IH]; intros [| i] H; try discriminate H.
  - injection H as ->. reflexivity.
  - cbn [nth_error] in H. cbn [skipn]. rewrite (IH i H). reflexivity.
Qed.

(** What a successful extraction returns. *)
Lemma extraction_postcondition (video : Batch.Video Frame)
        (result_frames : list Frame) (frame_42_image : option Frame) (fps : Z) :
  fst (Batch.extract_result_screen Frame bright_ratio video)
  = Some (result_frames, frame_42_image, fps) ->
  15 <= Z.of_nat (List.length result_frames) <= 3600
  /\ (exists j, result_frames = skipn j (Batch.sampled_from 1 (Batch.decoded video)))
  /\ (exists first later,
        result_frames = first :: later
        /\ (Batch.game_end_confidence_threshold
            <= fst (Batch.detect_game_end Frame bright_ratio first))%Q
        /\ Forall (fun f => (fst (Batch.detect_game_end Frame bright_ratio f)
                            < Batch.game_end_confidence_threshold)%Q) later)
  /\ 0 < fps
  /\ frame_42_image = nth_error (Batch.decoded video) 41.
Proof.
  unfold Batch.extract_result_screen.
  destruct (Batch.is_opened video); cbn [negb]; [| discriminate].
  pose proof (scan_window_aligned (Batch.decoded video)) as (k & Wf & Ws & Wl).
  pose proof (scan_frame_42 (Batch.decoded video)) as F42.
  set (st := Batch.scan Frame bright_ratio (Batch.decoded video)) in *.
  pose proof (best_frame_spec (Batch.scores Frame st)) as B.
  destruct (Batch.frames Frame st) as [| f fs] eqn:Ef; [discriminate |].
  destruct (Batch.scores Frame st) as [| c cs] eqn:Es; [discriminate |].
  destruct (Batch.best_frame (c :: cs)) as [index confidence].
  destruct B as [[Ei _] | (i & Ei & Hn & Hq & Hlater)]; subst index.
  - cbn. discriminate.
  - destruct (Z.eqb_spec (Z.of_nat i) (-1)); [lia |].
    unfold Batch.slice_from. rewrite Nat2Z.id.
    destruct (Z.ltb_spec (Z.of_nat (List.length (skipn i (f :: fs)))) Batch.min_result_frames)
      as [L | L]; cbn [fst]; [discriminate |].
    intros E. injection E as <- <- <-.
    unfold Batch.min_result_frames, Batch.max_frames in *.
    rewrite Ws in Hn, Hlater. rewrite nth_error_map in Hn.
    destruct (nth_error (f :: fs) i) as [first |] eqn:N; [| discriminate Hn].
    cbn [option_map] in Hn. injection Hn as Hc.
    rewrite (skipn_nth_head _ _ _ N) in *.
    repeat split.
    + exact L.
    + pose proof (length_skipn i (f :: fs)). rewrite (skipn_nth_head _ _ _ N) in H. lia.
    + exists (i + k)%nat. rewrite <- (skipn_nth_head _ _ _ N), Wf. apply skipn_skipn.
    + exists first, (skipn (S i) (f :: fs)). repeat split.
      * rewrite Hc. exact Hq.
      * rewrite skipn_map in Hlater. apply Forall_map in Hlater. exact Hlater.
    + destruct (Batch.cap_fps video <=? 0) eqn:P; [lia |]. apply Z.leb_gt in P. exact P.
    + exact F42.
Qed.

(** X1.  The frame returned for player identification is the 42nd
    decoded frame of the recording, whatever the window evicted in the
    meantime and wherever the segment starts; a recording of fewer than
    42 frames has none. *)
Theorem frame_42_is_the_42nd_frame (video : Batch.Video Frame)
        (result_frames : list Frame) (frame_42_image : option Frame) (fps : Z) :
  fst (Batch.extract_result_screen Frame bright_ratio video)
  = Some (result_frames, frame_42_image, fps) ->
  frame_42_image = nth_error (Batch.decoded video) 41
  /\ (frame_42_image = None <-> (List.length (Batch.decoded video) < 42)%nat).
Proof.
  intros E. apply extraction_postcondition in E as (_ & _ & _ & _ & ->).
  split; [reflexivity |]. rewrite nth_error_None. lia.
Qed.

(** X2.  A segment [extract_result_screen] returns is a run of sampled
    frames up to the last one: at least 15 and at most 3600 frames, the
    first of which has a confidence of at least 0.7 while no later one
    has; the frame rate returned with it is positive. *)
Theorem extracted_segment_is_well_formed (video : Batch.Video Frame)
        (result_frames : list Frame) (frame_42_image : option Frame) (fps : Z) :
  fst (Batch.extract_result_screen Frame bright_ratio video)
  = Some (result_frames, frame_42_image, fps) ->
  15 <= Z.of_nat (List.length result_frames) <= 3600
  /\ (exists j, result_frames = skipn j (Batch.sampled_from 1 (Batch.decoded video)))
  /\ (exists first later,
        result_frames = first :: later
        /\ (Batch.game_end_confidence_threshold
            <= fst (Batch.detect_game_end Frame bright_ratio first))%Q
        /\ Forall (fun f => (fst (Batch.detect_game_end Frame bright_ratio f)
                            < Batch.game_end_confidence_threshold)%Q) later)
  /\ 0 < fps.
Proof.
  intros E. apply extraction_postcondition in E as (A & B & C & D & _).
  split; [exact A |]. split; [exact B |]. split; [exact C | exact D].
Qed.

(** X3.  A recording of fewer than 30 decoded frames never yields a
    segment: it has fewer than 15 samples. *)
Theorem short_recording_yields_nothing (video : Batch.Video Frame) :
  Z.of_nat (List.length (Batch.decoded video)) < 30 ->
  fst (Batch.extract_result_screen Frame bright_ratio video) = None.
Proof.
  intros Hshort.
  destruct (fst (Batch.extract_result_screen Frame bright_ratio video))
    as [[[result_frames f42] fps] |] eqn:E; [| reflexivity].
  apply extraction_postcondition in E.
  destruct E as (Hlen & (j & Hj) & _).
  pose proof (sampled_length (Batch.decoded video) 1) as S.
  change (1 mod 2 =? 0) with false in S.
  assert (List.length result_frames
          <= List.length (Batch.sampled_from 1 (Batch.decoded video)))%nat
    by (rewrite Hj, length_skipn; lia).
  lia.
Qed.

End ScanFacts.

Lemma frame_42_is_the_42nd_frame_witness :
  fst (Batch.extract_result_screen Q Some threshold_recording)
  = Some (((7 # 10) :: repeat (1 # 2) 14)%Q, None, 30)
  /\ None = nth_error (Batch.decoded threshold_recording) 41.
Proof.
  split; [vm_compute; reflexivity |].
  refine (proj1 (frame_42_is_the_42nd_frame Q Some threshold_recording
                   ((7 # 10) :: repeat (1 # 2) 14)%Q None 30 _)).
  vm_compute; reflexivity.
Defined.

Lemma extracted_segment_is_well_formed_witness :
  fst (Batch.extract_result_screen Q Some threshold_recording)
  = Some (((7 # 10) :: repeat (1 # 2) 14)%Q, None, 30)
  /\ 15 <= Z.of_nat (List.length ((7 # 10) :: repeat (1 # 2) 14)%Q) <= 3600.
Proof.
  split; [vm_compute; reflexivity |].
  apply (extracted_segment_is_well_formed Q Some threshold_recording _ None 30).
  vm_compute; reflexivity.
Defined.

Lemma short_recording_yields_nothing_witness :
  fst (Batch.extract_result_screen Q Some late_flash_recording) = None.
Proof.
  apply (short_recording_yields_nothing Q Some late_flash_recording).
  vm_compute; reflexivity.
Defined.

(** ** The batch and its counters *)

Section BatchCounters.

Variable Frame : Type.
Variable bright_ratio : Frame -> option Q.

Lemma process_one_total (dry_run : bool) (db : Batch.Store) (c : Batch.Counts)
      (file : Batch.VideoFile Frame) :
  let c' := Batch.process_one Frame bright_ratio dry_run db c file in
  Batch.processed_count c' + Batch.skipped_count c' + Batch.failed_count c'
  = Batch.processed_count c + Batch.skipped_count c + Batch.failed_count c + 1
  /\ Batch.processed_count c <= Batch.processed_count c'
  /\ Batch.skipped_count c <= Batch.skipped_count c'
  /\ Batch.failed_count c <= Batch.failed_count c'.
Proof.
  unfold Batch.process_one.
  destruct (fst (fst (Batch.process_video Frame bright_ratio dry_run db file)))
    as [[|] | e]; cbn; lia.
Qed.

(** X4.  Every file of the batch is counted once: the three counters of
    the summary add up to the number of files, and none is negative. *)
Theorem process_all_counts_every_file (dry_run : bool) (db : Batch.Store)
        (files : list (Batch.VideoFile Frame)) :
  let c := Batch.process_all Frame bright_ratio dry_run db files in
  Batch.processed_count c + Batch.skipped_count c + Batch.failed_count c
  = Z.of_nat (List.length files)
  /\ 0 <= Batch.processed_count c
  /\ 0 <= Batch.skipped_count c
  /\ 0 <= Batch.failed_count c.
Proof.
  unfold Batch.process_all.
  assert (G : forall fs c,
    let c' := fold_left (Batch.process_one Frame bright_ratio dry_run db) fs c in
    Batch.processed_count c' + Batch.skipped_count c' + Batch.failed_count c'
    = Batch.processed_count c + Batch.skipped_count c + Batch.failed_count c
      + Z.of_nat (List.length fs)
    /\ Batch.processed_count c <= Batch.processed_count c'
    /\ Batch.skipped_count c <= Batch.skipped_count c'
    /\ Batch.failed_count c <= Batch.failed_count c').
  { induction fs as [| file rest IH]; intros c; cbn [fold_left List.length].
    - cbv zeta. lia.
    - specialize (IH (Batch.process_one Frame bright_ratio dry_run db c file)).
      pose proof (process_one_total dry_run db c file) as P.
      cbv zeta in *. lia. }
  specialize (G files (Batch.mkCounts 0 0 0)). cbn in G. cbv zeta. lia.
Qed.

(** X5.  A dry run writes nothing and skips nothing: a file counts as
    processed when its creation time can be read, as failed otherwise,
    whatever the recording holds. *)
Theorem dry_run_only_reads_creation_times (db : Batch.Store)
        (files : list (Batch.VideoFile Frame)) :
  let c := Batch.process_all Frame bright_ratio true db files in
  Forall (fun file =>
            snd (fst (Batch.process_video Frame bright_ratio true db file)) = []) files
  /\ Batch.skipped_count c = 0
  /\ Batch.failed_count c = Z.of_nat (List.length (filter unreadable files))
  /\ Batch.processed_count c
     = Z.of_nat (List.length (filter (fun file => negb (unreadable file)) files)).
Proof.
  cbv zeta. split.
  - apply Forall_forall. intros file _. unfold Batch.process_video.
    destruct (Batch.creation_time Frame file); reflexivity.
  - unfold Batch.process_all.
    assert (G : forall fs c,
      let c' := fold_left (Batch.process_one Frame bright_ratio true db) fs c in
      Batch.skipped_count c' = Batch.skipped_count c
      /\ Batch.failed_count c'
         = Batch.failed_count c + Z.of_nat (List.length (filter unreadable fs))
      /\ Batch.processed_count c'
         = Batch.processed_count c
           + Z.of_nat (List.length (filter (fun file => negb (unreadable file)) fs))).
    { induction fs as [| file rest IH]; intros c; cbn [fold_left filter List.length].
      - cbv zeta. lia.
      - specialize (IH (Batch.process_one Frame bright_ratio true db c file)).
        cbv zeta in *. revert IH.
        unfold Batch.process_one, Batch.process_video, unreadable.
        destruct (Batch.creation_time Frame file); cbn; intros IH; lia. }
    specialize (G files (Batch.mkCounts 0 0 0)). cbn in G. exact G.
Qed.

End BatchCounters.

(** ** The writes of [save_match_stats] *)

Lemma get_player_writes (db : Batch.Store) (name : string) :
  Forall (fun w => exists n, w = Batch.UpsertPlayer n) (snd (Batch.get_player db name)).
Proof.
  unfold Batch.get_player.
  destruct (negb (Batch.supabase_client db)); [constructor |].
  destruct (Batch.upsert_player db name); cbn; repeat constructor. eexists; reflexivity.
Qed.

Lemma save_participants_writes (db : Batch.Store) (match_id : Z) (created_at : DateTime)
      (stats : list Batch.PlayerStats) (players : list Batch.SavedPlayer) :
  Forall (fun w => write_of_match match_id created_at w
                   /\ is_elo_update w = false /\ is_inactivity_update w = false)
         (snd (Batch.save_participants db match_id created_at stats players)).
Proof.
  revert players. induction stats as [| stat rest IH]; intros players;
    cbn [Batch.save_participants]; [constructor |].
  pose proof (get_player_writes db (Batch.player_name stat)) as G.
  assert (G' : Forall (fun w => write_of_match match_id created_at w
                   /\ is_elo_update w = false /\ is_inactivity_update w = false)
                 (snd (Batch.get_player db (Batch.player_name stat)))).
  { eapply Forall_impl; [| exact G]. intros w [n ->]. cbn. auto. }
  destruct (Batch.get_player db (Batch.player_name stat)) as [[player |] w]; cbn [snd] in G'.
  - destruct (Batch.insert_participant db _) as [u | e]; cbn [snd]; [| exact G'].
    specialize (IH (players ++ [Batch.mkSavedPlayer (Batch.player_id player)
        (Batch.player_elo player) (Batch.display_name player)
        (Batch.smash_character stat) (Batch.has_won stat) (Batch.total_kos stat)
        (Batch.total_falls stat) (Batch.total_sds stat)])).
    destruct (Batch.save_participants db match_id created_at rest _) as [r w'].
    cbn [snd] in *. apply Forall_app; split; [exact G' |].
    apply Forall_app; split; [| exact IH].
    repeat constructor.
  - specialize (IH players).
    destruct (Batch.save_participants db match_id created_at rest players) as [r w'].
    cbn [snd] in *. apply Forall_app; split; assumption.
Qed.

Lemma update_player_elo_writes (db : Batch.Store) (player : string) (elo : Z) :
  Batch.update_player_elo db player elo = []
  \/ Batch.update_player_elo db player elo = [Batch.UpdateElo player elo].
Proof.
  unfold Batch.update_player_elo.
  destruct (negb (Batch.supabase_client db)); [left; reflexivity |].
  destruct (Batch.update_elo db player elo); [right | left]; reflexivity.
Qed.

Lemma update_ratings_writes (db : Batch.Store) (stats : list Batch.PlayerStats)
      (players : list Batch.SavedPlayer) :
  let w := snd (Batch.update_ratings db stats players) in
  Forall (fun w => is_elo_update w = true) w
  /\ (List.length w <= 2)%nat
  /\ (w <> [] -> List.length stats = 2%nat).
Proof.
  unfold Batch.update_ratings.
  destruct (Z.eqb_spec (Z.of_nat (List.length stats)) 2) as [E | E].
  - destruct players as [| p0 [| p1 more]]; cbn [snd];
      try (repeat split; [constructor | cbn; lia | congruence]).
    destruct (Batch.calculate_elo_update_for_streaming db _ _ _ _ _) as [[e1 e2] | e];
      cbn [snd]; [| repeat split; [constructor | cbn; lia | congruence]].
    destruct (update_player_elo_writes db (Batch.sp_id p0) e1) as [-> | ->],
             (update_player_elo_writes db (Batch.sp_id p1) e2) as [-> | ->];
      cbn; (repeat split; [repeat constructor | lia | intros _; lia]).
  - cbn. repeat split; [constructor | lia | congruence].
Qed.

(** X6.  Whatever [save_match_stats] writes belongs to one match: the
    write log is empty, or it starts with the row of the new match, holds
    no second match row, and every participant row carries the identifier
    of that match and the creation time of the file. *)
Theorem save_match_stats_writes_one_match (db : Batch.Store)
        (stats : list Batch.PlayerStats) (created_at : DateTime) :
  let writes := snd (fst (Batch.save_match_stats db stats created_at)) in
  writes = []
  \/ exists match_id rest,
       Batch.insert_match db created_at = Ret match_id
       /\ writes = Batch.InsertMatch created_at match_id :: rest
       /\ Forall (write_of_match match_id created_at) rest.
Proof.
  unfold Batch.save_match_stats.
  destruct (Batch.supabase_client db) eqn:Ec; cbn [negb]; [| left; reflexivity].
  destruct (forallb _ stats); [left; reflexivity |].
  destruct (existsb Batch.is_cpu stats); [left; reflexivity |].
  destruct (existsb _ stats); [left; reflexivity |].
  destruct (Batch.first_is_online stats) as [[|] | e]; try (left; reflexivity).
  unfold Batch.create_match. rewrite Ec. cbn [negb].
  destruct (Batch.insert_match db created_at) as [match_id | e]; [| left; reflexivity].
  right. exists match_id.
  pose proof (save_participants_writes db match_id created_at stats []) as P.
  assert (P' : Forall (write_of_match match_id created_at)
                 (snd (Batch.save_participants db match_id created_at stats [])))
    by (eapply Forall_impl; [| exact P]; intros w H; apply H).
  destruct (Batch.save_participants db match_id created_at stats []) as [[players | e] w1];
    cbn [snd] in P'.
  - pose proof (update_ratings_writes db stats players) as (R & _ & _).
    assert (R' : Forall (write_of_match match_id created_at)
                   (snd (Batch.update_ratings db stats players))).
    { eapply Forall_impl; [| exact R]. intros [] H; cbn in *; try discriminate; exact I. }
    destruct (Batch.update_ratings db stats players) as [[u | e] w2]; cbn [snd] in R'.
    + destruct (Batch.update_inactivity_status db); eexists; cbn [fst snd app];
        (split; [reflexivity |]); (split; [reflexivity |]);
        repeat (apply Forall_app; split); auto. repeat constructor.
    + eexists; cbn [fst snd app]; (split; [reflexivity |]); (split; [reflexivity |]);
        repeat (apply Forall_app; split); auto.
  - eexists; cbn [fst snd app]; (split; [reflexivity |]); (split; [reflexivity |]); auto.
Qed.



Lemma save_participants_count (db : Batch.Store) (match_id : Z) (created_at : DateTime)
      (stats : list Batch.PlayerStats) (players : list Batch.SavedPlayer) :
  let '(r, w) := Batch.save_participants db match_id created_at stats players in
  (List.length (filter is_participant_insert w) <= List.length stats)%nat
  /\ match r with
     | Ret saved =>
         List.length saved
         = (List.length players + List.length (filter is_participant_insert w))%nat
     | Raise _ => True
     end.
Proof.
  revert players. induction stats as [| stat rest IH]; intros players;
    cbn [Batch.save_participants]; [cbn; split; lia |].
  unfold Batch.get_player.
  destruct (negb (Batch.supabase_client db)).
  - specialize (IH players).
    destruct (Batch.save_participants db match_id created_at rest players) as [r w'].
    cbn [app List.length]. destruct IH as [A B]. split; [lia | exact B].
  - destruct (Batch.upsert_player db (Batch.player_name stat)) as [player | e].
    + destruct (Batch.insert_participant db _) as [u | e]; [| cbn; split; [lia | exact I]].
      specialize (IH (players ++ [Batch.mkSavedPlayer (Batch.player_id player)
        (Batch.player_elo player) (Batch.display_name player)
        (Batch.smash_character stat) (Batch.has_won stat) (Batch.total_kos stat)
        (Batch.total_falls stat) (Batch.total_sds stat)])).
      destruct (Batch.save_participants db match_id created_at rest _) as [r w'].
      cbn [app filter is_participant_insert List.length]. destruct IH as [A B].
      split; [lia |]. destruct r; [| exact I].
      rewrite B, length_app. cbn [List.length]. lia.
    + specialize (IH players).
      destruct (Batch.save_participants db match_id created_at rest players) as [r w'].
      cbn [app List.length]. destruct IH as [A B]. split; [lia | exact B].
Qed.

Lemma filter_none_of (A : Type) (p q : A -> bool) (l : list A) :
  Forall (fun x => q x = true) l -> (forall x, q x = true -> p x = false) ->
  filter p l = [].
Proof.
  intros F H. induction F as [| x l Hx F IH]; cbn; [reflexivity |].
  rewrite (H x Hx). exact IH.
Qed.

(** X8.  Ratings change only for a match of exactly two players both of
    whom were found and saved as participants: a rating write in the log
    means two statistics and two participant rows, and there are at most
    two rating writes. *)
Theorem ratings_written_for_two_saved_players (db : Batch.Store)
        (stats : list Batch.PlayerStats) (created_at : DateTime) :
  let writes := snd (fst (Batch.save_match_stats db stats created_at)) in
  (List.length (filter is_elo_update writes) <= 2)%nat
  /\ (existsb is_elo_update writes = true ->
      List.length stats = 2%nat
      /\ List.length (filter is_participant_insert writes) = 2%nat).
Proof.
  unfold Batch.save_match_stats.
  destruct (Batch.supabase_client db) eqn:Ec; cbn [negb];
    [| cbn; split; [lia | discriminate]].
  destruct (forallb _ stats); [cbn; split; [lia | discriminate] |].
  destruct (existsb Batch.is_cpu stats); [cbn; split; [lia | discriminate] |].
  destruct (existsb _ stats); [cbn; split; [lia | discriminate] |].
  destruct (Batch.first_is_online stats) as [[|] | e];
    try (cbn; split; [lia | discriminate]).
  unfold Batch.create_match. rewrite Ec. cbn [negb].
  destruct (Batch.insert_match db created_at) as [match_id | e];
    [| cbn; split; [lia | discriminate]].
  pose proof (save_participants_writes db match_id created_at stats []) as P.
  pose proof (save_participants_count db match_id created_at stats []) as C.
  destruct (Batch.save_participants db match_id created_at stats []) as [[players | e] w1];
    cbn [snd] in P; destruct C as [C1 C2].
  assert (P1 : filter is_elo_update w1 = []).
  { clear - P. induction P as [| w l (_ & H & _) _ IH]; cbn; [reflexivity |].
    rewrite H. exact IH. }
  2: { assert (P1 : filter is_elo_update w1 = []).
       { clear - P. induction P as [| w l (_ & H & _) _ IH]; cbn; [reflexivity |].
         rewrite H. exact IH. }
       cbn [fst snd app filter is_elo_update existsb orb]. rewrite P1. split; [cbn; lia |].
       intros H. apply existsb_exists in H as (w & Hin & Hw).
       assert (In w (filter is_elo_update w1)) by (apply filter_In; auto).
       rewrite P1 in H. destruct H. }
  pose proof (update_ratings_writes db stats players) as (R & Rl & Rs).
  assert (R2 : filter is_elo_update (snd (Batch.update_ratings db stats players))
               = snd (Batch.update_ratings db stats players)).
  { clear - R. induction R as [| w l H _ IH]; cbn; [reflexivity |].
    rewrite H, IH. reflexivity. }
  assert (R3 : filter is_participant_insert (snd (Batch.update_ratings db stats players))
               = []).
  { apply (filter_none_of _ _ _ _ R). intros []; cbn; congruence. }
  assert (Rp : snd (Batch.update_ratings db stats players) <> [] ->
               (2 <= List.length players)%nat).
  { unfold Batch.update_ratings.
    destruct (Z.of_nat (List.length stats) =? 2); [| cbn; congruence].
    destruct players as [| p0 [| p1 more]]; cbn; try congruence. lia. }
  assert (Shape : forall tail,
            existsb is_inactivity_update tail = existsb is_inactivity_update tail ->
            filter is_elo_update tail = [] -> filter is_participant_insert tail = [] ->
            (List.length (filter is_elo_update
               (Batch.InsertMatch created_at match_id :: w1
                ++ snd (Batch.update_ratings db stats players) ++ tail)) <= 2)%nat
            /\ (existsb is_elo_update
                  (Batch.InsertMatch created_at match_id :: w1
                   ++ snd (Batch.update_ratings db stats players) ++ tail) = true ->
                List.length stats = 2%nat
                /\ List.length (filter is_participant_insert
                     (Batch.InsertMatch created_at match_id :: w1
                      ++ snd (Batch.update_ratings db stats players) ++ tail)) = 2%nat)).
  { intros tail _ T1 T2.
    cbn [filter is_elo_update is_participant_insert existsb orb].
    rewrite !filter_app, P1, R2, R3, T1, T2, !app_nil_r. cbn [app]. split; [exact Rl |].
    intros H. apply existsb_exists in H as (w & Hin & Hw).
    assert (Hin' : In w (filter is_elo_update
                          (w1 ++ snd (Batch.update_ratings db stats players) ++ tail)))
      by (apply filter_In; auto).
    rewrite !filter_app, P1, R2, T1, app_nil_r in Hin'. cbn [app] in Hin'.
    assert (N : snd (Batch.update_ratings db stats players) <> [])
      by (intros Z; rewrite Z in Hin'; destruct Hin').
    specialize (Rs N). specialize (Rp N). split; [exact Rs |].
    cbn [List.length] in C2. lia. }
  destruct (Batch.update_ratings db stats players) as [[u | e] w2]; cbn [snd] in *.
  - destruct (Batch.update_inactivity_status db); cbn [fst snd].
    + specialize (Shape [Batch.UpdateInactivity] eq_refl eq_refl eq_refl).
      cbn [app] in *. exact Shape.
    + specialize (Shape [] eq_refl eq_refl eq_refl). rewrite !app_nil_r in Shape.
      cbn [app] in *. exact Shape.
  - cbn [fst snd]. specialize (Shape [] eq_refl eq_refl eq_refl).
    rewrite !app_nil_r in Shape. cbn [app] in *. exact Shape.
Qed.

Lemma ratings_written_for_two_saved_players_witness :
  existsb is_elo_update
    (snd (fst (Batch.save_match_stats quiet_store offline_match some_time))) = true
  /\ List.length offline_match = 2%nat
  /\ List.length (filter is_participant_insert
        (snd (fst (Batch.save_match_stats quiet_store offline_match some_time)))) = 2%nat.
Proof.
  split; [reflexivity |].
  apply (proj2 (ratings_written_for_two_saved_players quiet_store offline_match some_time)).
  reflexivity.
Defined.

(** X9.  [save_match_stats] is not transactional: once the guards are
    passed and the match row is inserted, that row is in the write log
    whatever happens afterwards, also when the call returns [False]. *)
Theorem match_row_survives_later_failure (db : Batch.Store)
        (stats : list Batch.PlayerStats) (created_at : DateTime) (match_id : Z) :
  Batch.supabase_client db = true ->
  must_skip stats = false ->
  Batch.insert_match db created_at = Ret match_id ->
  hd_error (snd (fst (Batch.save_match_stats db stats created_at)))
  = Some (Batch.InsertMatch created_at match_id).
Proof.
  intros Ec Hskip Hid.
  unfold must_skip, no_contest, has_cpu, has_unknown_player in Hskip.
  apply orb_false_elim in Hskip as [Hskip Honline].
  apply orb_false_elim in Hskip as [Hskip Hunknown].
  apply orb_false_elim in Hskip as [Hcontest Hcpu].
  unfold Batch.save_match_stats. rewrite Ec, Hcontest, Hcpu, Hunknown. cbn [negb].
  destruct stats as [| stat rest]; [discriminate Hcontest |].
  cbn [first_is_online] in Honline. cbn [Batch.first_is_online]. rewrite Honline.
  unfold Batch.create_match. rewrite Ec, Hid. cbn [negb].
  destruct (Batch.save_participants db match_id created_at (stat :: rest) [])
    as [[players | e] w1]; [| reflexivity].
  destruct (Batch.update_ratings db (stat :: rest) players) as [[u | e] w2];
    [| reflexivity].
  destruct (Batch.update_inactivity_status db); reflexivity.
Qed.

Lemma match_row_survives_later_failure_witness :
  hd_error (snd (fst (Batch.save_match_stats quiet_store offline_match some_time)))
  = Some (Batch.InsertMatch some_time 1).
Proof.
  apply (match_row_survives_later_failure quiet_store offline_match some_time 1);
    reflexivity.
Defined.

(** ** More on the resumable upload *)

Section RetryTrace.

Variable random : nat -> Q.

Lemma attempts_bounds (request : Youtube.Transfer) (error : bool) (retry : Z)
      (t : Youtube.Trace) :
  0 <= retry ->
  let t' := snd (Youtube.resumable_loop random request error retry t) in
  (Youtube.attempts t <= Youtube.attempts t')%nat
  /\ (retry <= Youtube.max_retries -> (Youtube.attempts t < Youtube.attempts t')%nat)
  /\ (error = true ->
      Z.of_nat (Youtube.attempts t')
      <= Z.of_nat (Youtube.attempts t) + Z.max 0 (Youtube.max_retries + 1 - retry)).
Proof.
  revert error retry t. unfold Youtube.max_retries.
  assert (After : forall next,
    (forall error retry t, 0 <= retry ->
       let t' := snd (Youtube.resumable_loop random next error retry t) in
       (Youtube.attempts t <= Youtube.attempts t')%nat
       /\ (retry <= 3 -> (Youtube.attempts t < Youtube.attempts t')%nat)
       /\ (error = true ->
           Z.of_nat (Youtube.attempts t')
           <= Z.of_nat (Youtube.attempts t) + Z.max 0 (3 + 1 - retry))) ->
    forall error retry t, 0 <= retry -> retry <= 3 ->
       let t' := snd (Youtube.after_attempt random (Youtube.resumable_loop random next)
                        error retry (Youtube.attempt t)) in
       (Youtube.attempts t < Youtube.attempts t')%nat
       /\ (error = true ->
           Z.of_nat (Youtube.attempts t')
           <= Z.of_nat (Youtube.attempts t) + Z.max 0 (3 + 1 - retry))).
  { intros next IH error retry t H0 H3. unfold Youtube.after_attempt, Youtube.max_retries.
    destruct error.
    - destruct (Z.ltb_spec 3 (retry + 1)).
      + cbn [snd Youtube.attempt Youtube.attempts]. split; [lia | intros _; lia].
      + cbv zeta.
        destruct (IH true (retry + 1)
                    (Youtube.slept (Youtube.attempt t)
                       (random (List.length (Youtube.sleeps (Youtube.attempt t)))
                        * inject_Z (2 ^ (retry + 1)))%Q) ltac:(lia)) as (A & _ & B).
        specialize (B eq_refl). cbn [Youtube.slept Youtube.attempt Youtube.attempts] in *.
        split; [lia | intros _; lia].
    - cbv zeta. destruct (IH false retry (Youtube.attempt t) H0) as (A & _ & _).
      cbn [Youtube.attempt Youtube.attempts] in *. split; [lia | discriminate]. }
  induction request as [video_id | next IH | e next IH]; intros error retry t H0;
    cbn [Youtube.resumable_loop]; unfold Youtube.max_retries;
    destruct (Z.leb_spec retry 3); cbn [negb snd]; cbv zeta;
    try (split; [lia | split; [lia | intros _; lia]]).
  - destruct video_id; cbn [snd Youtube.attempt Youtube.attempts];
      (split; [lia | split; [lia | intros _; lia]]).
  - destruct (After next IH error retry t H0 ltac:(lia)) as [A B].
    split; [lia | split; [intros _; exact A | exact B]].
  - assert (F : forall error',
              let t' := snd (Youtube.after_attempt random (Youtube.resumable_loop random next)
                               true retry (Youtube.attempt t)) in
              (Youtube.attempts t <= Youtube.attempts t')%nat
              /\ (retry <= 3 -> (Youtube.attempts t < Youtube.attempts t')%nat)
              /\ (error' = true ->
                  Z.of_nat (Youtube.attempts t')
                  <= Z.of_nat (Youtube.attempts t) + Z.max 0 (3 + 1 - retry))).
    { intros error'. destruct (After next IH true retry t H0 ltac:(lia)) as [A B].
      split; [lia | split; [intros _; exact A | intros _; exact (B eq_refl)]]. }
    destruct e; try exact (F error).
    destruct (Youtube.retriable_status status); [exact (F error) |].
    cbn [snd Youtube.attempt Youtube.attempts]. split; [lia | split; [lia | intros _; lia]].
Qed.

Lemma progress_step (next : Youtube.Transfer) (retry : Z) (t : Youtube.Trace) :
  retry <= Youtube.max_retries ->
  Youtube.resumable_loop random (Youtube.Progress next) false retry t
  = Youtube.resumable_loop random next false retry (Youtube.attempt t).
Proof.
  intros H. cbn [Youtube.resumable_loop].
  destruct (Z.leb_spec retry Youtube.max_retries); [| lia]. reflexivity.
Qed.

(** X10.  Progress reports cost no retry as long as nothing failed: after
    any number of them the answer of the service is returned, with one
    call of [next_chunk] for each report and one for the answer, and no
    sleep. *)
Theorem progress_is_not_a_retry (n : nat) (video_id : option string) :
  Youtube.resumable_upload random (progress_then n (Youtube.Responds video_id))
  = (returned video_id, Youtube.mkTrace (S n) []).
Proof.
  assert (G : forall t,
    Youtube.resumable_loop random (progress_then n (Youtube.Responds video_id)) false 0 t
    = (returned video_id, Youtube.mkTrace (S (n + Youtube.attempts t)) (Youtube.sleeps t))).
  { induction n as [| n IH]; intros t; cbn [progress_then].
    - destruct video_id; reflexivity.
    - rewrite progress_step by (unfold Youtube.max_retries; lia).
      rewrite IH. unfold Youtube.attempt. cbn [Youtube.attempts Youtube.sleeps].
      do 3 f_equal. lia. }
  unfold Youtube.resumable_upload. rewrite G. cbn [Youtube.no_trace Youtube.attempts Youtube.sleeps].
  do 3 f_equal. lia.
Qed.

(** X11.  Once a failure was retried the error stays set, and every later
    call of [next_chunk] that brings no response counts as a retry: after
    the first retried failure at most three more calls are made, whatever
    the service answers, and a transfer that needs a fourth is given up. *)
Theorem retried_failure_is_sticky (e : Exn) (next : Youtube.Transfer)
        (video_id : option string) (k : nat) :
  retried e = true ->
  (Youtube.attempts (snd (Youtube.resumable_upload random (Youtube.Fails e next))) <= 4)%nat
  /\ ((3 <= k)%nat ->
      fst (Youtube.resumable_upload random
             (Youtube.Fails e (progress_then k (Youtube.Responds video_id))))
      = Ret None).
Proof.
  intros He. unfold Youtube.resumable_upload. split.
  - rewrite retried_failure_step by (unfold Youtube.max_retries; auto; lia).
    change (0 <? Youtube.max_retries) with true. cbv iota.
    match goal with |- (Youtube.attempts (snd (Youtube.resumable_loop _ _ _ _ ?t)) <= _)%nat =>
      destruct (attempts_bounds next true (0 + 1) t ltac:(lia)) as (_ & _ & B) end.
    specialize (B eq_refl).
    cbn [Youtube.slept Youtube.attempt Youtube.attempts Youtube.no_trace] in B.
    unfold Youtube.max_retries in B. lia.
  - intros Hk. destruct k as [| [| [| k]]]; try lia.
    cbn [progress_then].
    rewrite retried_failure_step by (unfold Youtube.max_retries; auto; lia).
    change (0 <? Youtube.max_retries) with true. cbv iota.
    cbn [Youtube.resumable_loop]. unfold Youtube.after_attempt. reflexivity.
Qed.

End RetryTrace.

Lemma retried_failure_is_sticky_witness :
  (Youtube.attempts
     (snd (Youtube.resumable_upload (fun _ => 1 # 2)
             (Youtube.Fails (HttpError 503) (Youtube.Responds (Some "dQw4w9WgXcQ"))))) <= 4)%nat
  /\ fst (Youtube.resumable_upload (fun _ => 1 # 2)
            (Youtube.Fails (HttpError 503)
               (progress_then 3 (Youtube.Responds (Some "dQw4w9WgXcQ")))))
     = Ret None.
Proof.
  split.
  - apply (proj1 (retried_failure_is_sticky (fun _ => 1 # 2) (HttpError 503)
                    (Youtube.Responds (Some "dQw4w9WgXcQ")) None 3 eq_refl)).
  - apply (proj2 (retried_failure_is_sticky (fun _ => 1 # 2) (HttpError 503)
                    (Youtube.Responds None) (Some "dQw4w9WgXcQ") 3 eq_refl)).
    lia.
Defined.

(** ** When [upload_video] transfers, and how often a day *)

Section UploadGate.

Variable random : nat -> Q.




End UploadGate.


(** X13.  Over any sequence of calls of [upload_video] on one day, at most
    five return a URL; if uploads were already counted that day, at most
    what is left of the five. *)
Theorem session_stays_within_daily_limit (random : nat -> nat -> Q) (k : nat)
        (u : Youtube.Uploader) (jobs : list UploadJob) (day : Z) :
  Forall (fun job => Youtube.today (job_env job) = day) jobs ->
  0 <= count_today u day ->
  Z.of_nat (List.length (filter is_url (fst (upload_session random k u jobs))))
  <= Z.max 0 (Youtube.daily_limit - count_today u day).
Proof.
  intros F. revert k u. induction F as [| job rest Hday F IH]; intros k u H0;
    cbn [upload_session].
  - cbn. lia.
  - pose proof (upload_video_counter (random k) u (job_env job) (job_match_id job)
                  (job_metadata job) (job_playlist job)) as C.
    cbv zeta in C. rewrite Hday in C.
    destruct (Youtube.upload_video (random k) u (job_env job) (job_match_id job)
                (job_metadata job) (job_playlist job)) as [[url u'] t].
    cbn [fst snd] in C. destruct C as [C0 C1].
    specialize (IH (S k) u').
    destruct (upload_session random (S k) u' rest) as [urls u''].
    cbn [fst] in *.
    destruct (Youtube.file_exists (job_env job)).
    + destruct (C1 eq_refl) as (D & Cfull & Cfree).
      assert (E : count_today u' day = Youtube.daily_upload_count u')
        by (unfold count_today; rewrite D, Z.eqb_refl; reflexivity).
      rewrite E in IH. unfold Youtube.daily_limit in *.
      destruct (Z.le_gt_cases 5 (count_today u day)) as [Full | Free].
      * destruct (Cfull Full) as (N & _ & Cn). rewrite N. cbn [filter is_url].
        specialize (IH ltac:(lia)). lia.
      * destruct (Cfree ltac:(lia)) as [Cn Curl].
        destruct url as [url |]; cbn [filter is_url List.length].
        -- specialize (Curl url eq_refl). specialize (IH ltac:(lia)). lia.
        -- specialize (IH ltac:(lia)). lia.
    + specialize (C0 eq_refl). injection C0 as -> -> _. cbn [filter is_url].
      exact (IH H0).
Qed.

Lemma session_stays_within_daily_limit_witness :
  List.length (filter is_url
    (fst (upload_session fair_coin 0 (Youtube.init 19737) six_jobs))) = 5%nat
  /\ Z.of_nat (List.length (filter is_url
       (fst (upload_session fair_coin 0 (Youtube.init 19737) six_jobs))))
     <= Z.max 0 (Youtube.daily_limit - count_today (Youtube.init 19737) 19737).
Proof.
  split; [vm_compute; reflexivity |].
  apply (session_stays_within_daily_limit fair_coin 0 (Youtube.init 19737) six_jobs 19737).
  - repeat constructor.
  - vm_compute. discriminate.
Defined.

(** ** One file and a whole run of the bulk upload *)

Lemma row_kept_refl (rows : list Bulk.MatchRecord) : Forall2 row_kept rows rows.
Proof.
  induction rows as [| m rows IH]; constructor; [| exact IH].
  repeat split. left. reflexivity.
Qed.

Lemma row_kept_trans (a b c : list Bulk.MatchRecord) :
  Forall2 row_kept a b -> Forall2 row_kept b c -> Forall2 row_kept a c.
Proof.
  intros H. revert c. induction H as [| x y a b (I1 & C1 & P1 & U1) _ IH]; intros c Hc;
    inversion Hc as [| y' z b' c' (I2 & C2 & P2 & U2) Hrest]; subst; constructor.
  - repeat split; try congruence.
    destruct U2 as [U2 | U2]; [| right; exact U2].
    destruct U1 as [U1 | U1]; [left; congruence | right; congruence].
  - apply IH. exact Hrest.
Qed.

Lemma with_url_kept (n : Z) (url : string) (rows : list Bulk.MatchRecord) :
  PyStr.truthy url = true ->
  Forall2 row_kept rows (map (Bulk.with_url n url) rows).
Proof.
  intros T. induction rows as [| m rows IH]; cbn [map]; constructor; [| exact IH].
  unfold Bulk.with_url. destruct (Bulk.has_id n m); repeat split.
  - right. exact T.
  - left. reflexivity.
Qed.

Lemma only_requests_refl (w : Bulk.World) : only_requests w w.
Proof. exists (Bulk.requests w). split; [lia | destruct w; reflexivity]. Qed.

Lemma only_requests_trans (w w1 w2 : Bulk.World) :
  only_requests w w1 -> only_requests w1 w2 -> only_requests w w2.
Proof.
  intros (r1 & L1 & ->) (r2 & L2 & ->). exists r2. cbn in L2. split; [lia | reflexivity].
Qed.

Section BulkRun.

Variable store_fails : nat -> bool.
Variable upload_env : nat -> Youtube.UploadEnv.
Variable random : nat -> nat -> Q.
Variable local_epoch : DateTime -> Z.
Variable dry_run : bool.

Lemma execute_only (w : Bulk.World) : only_requests w (snd (Bulk.execute store_fails w)).
Proof. exists (S (Bulk.requests w)). split; [lia | reflexivity]. Qed.

(** A step that is one request followed by a read of the tables. *)
Lemma query_only {A : Type} (on_fault : A) (read : Bulk.World -> A) (w : Bulk.World) :
  only_requests w
    (snd (Bulk.bind (Bulk.execute store_fails)
            (fun raised : bool => if raised then Bulk.ret on_fault
                                  else fun w => (read w, w)) w)).
Proof.
  unfold Bulk.bind, Bulk.execute.
  destruct (store_fails (Bulk.requests w)); cbn [snd Bulk.ret];
    (exists (S (Bulk.requests w)); split; [lia | reflexivity]).
Qed.

Lemma resolve_match_only (parsed : Bulk.Parsed) (w : Bulk.World) :
  only_requests w (snd (Bulk.resolve_match store_fails parsed w))
  /\ (fst (fst (Bulk.resolve_match store_fails parsed w)) = None ->
      snd (fst (Bulk.resolve_match store_fails parsed w)) = None).
Proof.
  unfold Bulk.resolve_match. destruct (Bulk.match_id parsed) as [n |].
  - unfold Bulk.fetch_match, Bulk.bind, Bulk.execute.
    destruct (store_fails (Bulk.requests w)); cbn [snd fst Bulk.ret];
      (split; [exists (S (Bulk.requests w)); split; [lia | reflexivity] | discriminate]).
  - unfold Bulk.find_match_by_timestamp, Bulk.bind, Bulk.execute.
    destruct (store_fails (Bulk.requests w)); cbn [snd fst Bulk.ret].
    + split; [exists (S (Bulk.requests w)); split; [lia | reflexivity] | reflexivity].
    + destruct (Bulk.pick_match _ _); cbn [snd fst];
        (split; [exists (S (Bulk.requests w)); split; [lia | reflexivity] |]);
        [discriminate | reflexivity].
Qed.

Lemma skip_test_only (skip_uploaded : bool) (match_id : option Z) (w : Bulk.World) :
  only_requests w (snd (Bulk.skip_test store_fails skip_uploaded match_id w)).
Proof.
  unfold Bulk.skip_test.
  destruct (skip_uploaded && Bulk.truthy_id match_id); [| apply only_requests_refl].
  unfold Bulk.is_already_uploaded. destruct match_id as [n |]; [| apply only_requests_refl].
  unfold Bulk.bind, Bulk.execute.
  destruct (store_fails (Bulk.requests w)); cbn [snd Bulk.ret];
    [exists (S (Bulk.requests w)); split; [lia | reflexivity] |].
  destruct (filter _ _); cbn [snd]; (exists (S (Bulk.requests w)); split; [lia | reflexivity]).
Qed.

Lemma player_name_of_only (p : Bulk.Participant) (w : Bulk.World) :
  only_requests w (snd (Bulk.player_name_of store_fails p w)).
Proof.
  unfold Bulk.player_name_of.
  destruct (Bulk.player p) as [pid |]; [| apply only_requests_refl].
  destruct (PyStr.truthy pid); [| apply only_requests_refl].
  unfold Bulk.bind, Bulk.execute.
  destruct (store_fails (Bulk.requests w)); cbn [snd Bulk.ret];
    [exists (S (Bulk.requests w)); split; [lia | reflexivity] |].
  destruct (filter _ _); cbn [snd]; (exists (S (Bulk.requests w)); split; [lia | reflexivity]).
Qed.

Lemma metadata_players_only (ps : list Bulk.Participant) (w : Bulk.World) :
  only_requests w (snd (Bulk.metadata_players store_fails ps w)).
Proof.
  revert w. induction ps as [| p ps IH]; intros w; [apply only_requests_refl |].
  cbn [Bulk.metadata_players]. unfold Bulk.bind.
  pose proof (player_name_of_only p w) as F.
  destruct (Bulk.player_name_of store_fails p w) as [nm w1].
  pose proof (IH w1) as G.
  destruct (Bulk.metadata_players store_fails ps w1) as [tl w2].
  cbn [snd Bulk.ret] in *. eapply only_requests_trans; eassumption.
Qed.

Lemma prepare_metadata_only (ts : DateTime) (match_id : option Z)
      (match_record : option Bulk.MatchRecord) (w : Bulk.World) :
  only_requests w
    (snd (Bulk.prepare_metadata store_fails local_epoch ts match_id match_record w))
  /\ (snd (fst (Bulk.prepare_metadata store_fails local_epoch ts match_id match_record w))
      = None -> match_id = None /\ match_record <> None).
Proof.
  unfold Bulk.prepare_metadata. destruct match_record as [m |].
  - unfold Bulk.get_match_metadata, Bulk.bind.
    pose proof (metadata_players_only (Bulk.match_participants m) w) as F.
    destruct (Bulk.metadata_players store_fails (Bulk.match_participants m) w) as [ps w1].
    cbn [snd fst Bulk.ret] in *. split; [exact F |]. intros ->. split; congruence.
  - cbn [snd fst Bulk.ret]. split; [apply only_requests_refl |].
    destruct match_id; discriminate.
Qed.

Lemma upload_and_save_outcome (filepath : string) (match_record : option Bulk.MatchRecord)
      (match_id : Z) (metadata : Youtube.Metadata) (playlist_name : option string)
      (w : Bulk.World) :
  dry_run = false ->
  file_outcome dry_run filepath w
    (snd (Bulk.upload_and_save store_fails upload_env random filepath match_record
            match_id metadata playlist_name w)).
Proof.
  intros Hdry. unfold Bulk.upload_and_save, Bulk.bind, Bulk.upload_video.
  destruct (Youtube.upload_video _ _ _ match_id metadata playlist_name) as [[url u] t].
  destruct url as [url |]; cbn [Youtube.truthy_opt].
  - destruct (PyStr.truthy url) eqn:T.
    + destruct match_record as [m |].
      * unfold Bulk.save_youtube_url, Bulk.bind, Bulk.execute, Bulk.set_matches,
          Bulk.set_stats, Bulk.ret, Bulk.count_request.
        cbn [Bulk.requests Bulk.matches Bulk.players Bulk.uploader Bulk.uploads Bulk.stats].
        destruct (store_fails (Bulk.requests w));
          cbn [snd Bulk.requests Bulk.matches Bulk.players Bulk.uploader Bulk.uploads
                   Bulk.stats].
        -- apply outcome_uploaded; [exact Hdry | lia | reflexivity | apply row_kept_refl].
        -- apply outcome_uploaded;
             [exact Hdry | lia | reflexivity | apply with_url_kept; exact T].
      * unfold Bulk.set_stats, Bulk.ret.
        cbn [snd Bulk.requests Bulk.matches Bulk.players Bulk.uploader Bulk.uploads
                 Bulk.stats].
        apply outcome_uploaded; [exact Hdry | lia | reflexivity | apply row_kept_refl].
    + unfold Bulk.set_stats, Bulk.ret.
      cbn [snd Bulk.requests Bulk.matches Bulk.players Bulk.uploader Bulk.uploads
               Bulk.stats].
      apply outcome_upload_failed; [exact Hdry | lia | reflexivity].
  - unfold Bulk.set_stats, Bulk.ret.
    cbn [snd Bulk.requests Bulk.matches Bulk.players Bulk.uploader Bulk.uploads
             Bulk.stats].
    apply outcome_upload_failed; [exact Hdry | lia | reflexivity].
Qed.

Lemma outcome_after_requests (filepath : string) (w : Bulk.World) (r : nat)
      (w' : Bulk.World) :
  (Bulk.requests w <= r)%nat ->
  file_outcome dry_run filepath (with_requests w r) w' ->
  file_outcome dry_run filepath w w'.
Proof.
  intros L H. destruct H;
    cbn [with_requests Bulk.requests Bulk.matches Bulk.players Bulk.uploader
           Bulk.uploads Bulk.stats] in *.
  - apply (outcome_failed_early dry_run filepath w r0). lia.
  - apply (outcome_unparsed dry_run filepath w r0). lia.
  - apply (outcome_already_uploaded dry_run filepath w r0). lia.
  - apply (outcome_dry_run dry_run filepath w r0); [assumption | lia].
  - apply (outcome_upload_failed dry_run filepath w r0 u call); [assumption | lia | assumption].
  - apply (outcome_uploaded dry_run filepath w r0 u call rows);
      [assumption | lia | assumption | assumption].
Qed.

Lemma process_parsed_outcome (filepath : string) (parsed : Bulk.Parsed)
      (skip_uploaded : bool) (playlist_name : option string) (w : Bulk.World) :
  let w' := snd (Bulk.process_parsed store_fails upload_env random local_epoch dry_run
                   filepath parsed skip_uploaded playlist_name w) in
  file_outcome dry_run filepath w w'.
Proof.
  unfold Bulk.process_parsed, Bulk.bind.
  destruct (resolve_match_only parsed w) as [(r1 & L1 & E1) N1].
  destruct (Bulk.resolve_match store_fails parsed w) as [[match_id match_record] w1].
  cbn [fst snd] in *. subst w1.
  pose proof (skip_test_only skip_uploaded match_id (with_requests w r1)) as (r2 & L2 & E2).
  destruct (Bulk.skip_test store_fails skip_uploaded match_id (with_requests w r1))
    as [skip w2].
  cbn [fst snd] in *. subst w2.
  cbn [with_requests Bulk.requests] in L2.
  destruct skip.
  - unfold Bulk.set_stats, Bulk.ret. cbn.
    apply (outcome_already_uploaded dry_run filepath w r2). lia.
  - destruct (prepare_metadata_only (Bulk.timestamp parsed) match_id match_record
                (with_requests (with_requests w r1) r2)) as [(r3 & L3 & E3) N3].
    destruct (Bulk.prepare_metadata store_fails local_epoch (Bulk.timestamp parsed)
                match_id match_record (with_requests (with_requests w r1) r2))
      as [[metadata final_id] w3].
    cbn [fst snd] in *. subst w3.
    cbn [with_requests Bulk.requests] in L3.
    destruct final_id as [n |].
    + pose proof (upload_and_save_outcome filepath match_record n metadata playlist_name
                    (with_requests w r3)) as U.
      pose proof (outcome_dry_run dry_run filepath w r3) as D.
      pose proof (outcome_after_requests filepath w r3) as R.
      destruct dry_run.
      * cbn [Bulk.ret snd]. apply D; [reflexivity | lia].
      * apply R; [lia |]. apply U. reflexivity.
    + destruct (N3 eq_refl) as [-> Hrec]. specialize (N1 eq_refl). contradiction.
Qed.

Lemma run_one_outcome (filepath : string) (skip_uploaded : bool)
      (playlist_name : option string) (w : Bulk.World) :
  file_outcome dry_run filepath w
    (Bulk.run_one store_fails upload_env random local_epoch dry_run
       skip_uploaded playlist_name w filepath).
Proof.
  unfold Bulk.run_one, Bulk.process_video.
  destruct (Bulk.parse_filename (Bulk.basename filepath)) as [[parsed |] | e].
  - pose proof (process_parsed_outcome filepath parsed skip_uploaded playlist_name w) as P.
    cbv zeta in P.
    destruct (Bulk.process_parsed _ _ _ _ _ filepath parsed skip_uploaded playlist_name w)
      as [r w1].
    exact P.
  - cbn. apply outcome_unparsed. lia.
  - cbn. apply outcome_failed_early. lia.
Qed.

Lemma run_outcomes (files : list string) (skip_uploaded : bool)
      (playlist_name : option string) (w : Bulk.World) :
  run_outcome dry_run files w
    (fold_left (Bulk.run_one store_fails upload_env random local_epoch dry_run
                  skip_uploaded playlist_name) files w).
Proof.
  revert w. induction files as [| filepath files IH]; intros w; cbn [fold_left].
  - constructor.
  - econstructor; [apply run_one_outcome | apply IH].
Qed.

End BulkRun.

Lemma file_outcome_counted (filepath : string) (w w' : Bulk.World) :
  file_outcome false filepath w w' ->
  counted (Bulk.stats w') = counted (Bulk.stats w) + 1
  /\ Bulk.total_files (Bulk.stats w') = Bulk.total_files (Bulk.stats w).
Proof.
  intros H. destruct H; try discriminate;
    unfold counted; cbn; split; try reflexivity; lia.
Qed.

Lemma file_outcome_dry (filepath : string) (w w' : Bulk.World) :
  file_outcome true filepath w w' ->
  Bulk.uploads w' = Bulk.uploads w
  /\ Bulk.matches w' = Bulk.matches w
  /\ Bulk.players w' = Bulk.players w
  /\ Bulk.uploader w' = Bulk.uploader w
  /\ Bulk.successful (Bulk.stats w') = Bulk.successful (Bulk.stats w).
Proof. intros H. destruct H; try discriminate; cbn; repeat split; reflexivity. Qed.

Lemma file_outcome_rows (dry_run : bool) (filepath : string) (w w' : Bulk.World) :
  file_outcome dry_run filepath w w' ->
  Forall2 row_kept (Bulk.matches w) (Bulk.matches w')
  /\ Bulk.players w' = Bulk.players w.
Proof.
  intros H. destruct H; cbn; (split; [| reflexivity]); try apply row_kept_refl.
  assumption.
Qed.

Lemma file_outcome_uploads (dry_run : bool) (filepath : string) (w w' : Bulk.World) :
  file_outcome dry_run filepath w w' ->
  (Bulk.uploads w' = Bulk.uploads w
   /\ Bulk.successful (Bulk.stats w') = Bulk.successful (Bulk.stats w))
  \/ exists call,
       Bulk.uploads w' = Bulk.uploads w ++ [call]
       /\ Bulk.call_filepath call = filepath
       /\ Bulk.successful (Bulk.stats w) <= Bulk.successful (Bulk.stats w')
          <= Bulk.successful (Bulk.stats w) + 1.
Proof.
  intros H. destruct H; cbn; try (left; split; reflexivity);
    right; exists call; (split; [reflexivity |]); (split; [assumption |]); lia.
Qed.

Lemma run_outcome_counted (files : list string) (w w' : Bulk.World) :
  run_outcome false files w w' ->
  counted (Bulk.stats w') = counted (Bulk.stats w) + Z.of_nat (List.length files)
  /\ Bulk.total_files (Bulk.stats w') = Bulk.total_files (Bulk.stats w).
Proof.
  intros R. induction R as [w | filepath files w w1 w2 F R IH].
  - cbn. split; [lia | reflexivity].
  - apply file_outcome_counted in F as [F1 F2]. destruct IH as [I1 I2].
    cbn [List.length]. split; [lia | congruence].
Qed.

Lemma run_outcome_dry (files : list string) (w w' : Bulk.World) :
  run_outcome true files w w' ->
  Bulk.uploads w' = Bulk.uploads w
  /\ Bulk.matches w' = Bulk.matches w
  /\ Bulk.players w' = Bulk.players w
  /\ Bulk.uploader w' = Bulk.uploader w
  /\ Bulk.successful (Bulk.stats w') = Bulk.successful (Bulk.stats w).
Proof.
  intros R. induction R as [w | filepath files w w1 w2 F R IH].
  - repeat split; reflexivity.
  - apply file_outcome_dry in F as (F1 & F2 & F3 & F4 & F5).
    destruct IH as (I1 & I2 & I3 & I4 & I5). repeat split; congruence.
Qed.

Lemma run_outcome_rows (dry_run : bool) (files : list string) (w w' : Bulk.World) :
  run_outcome dry_run files w w' ->
  Forall2 row_kept (Bulk.matches w) (Bulk.matches w')
  /\ Bulk.players w' = Bulk.players w.
Proof.
  intros R. induction R as [w | filepath files w w1 w2 F R IH].
  - split; [apply row_kept_refl | reflexivity].
  - apply file_outcome_rows in F as [F1 F2]. destruct IH as [I1 I2].
    split; [eapply row_kept_trans; eassumption | congruence].
Qed.

Lemma run_outcome_uploads (dry_run : bool) (files : list string) (w w' : Bulk.World) :
  run_outcome dry_run files w w' ->
  exists new,
    Bulk.uploads w' = Bulk.uploads w ++ new
    /\ subsequence (map Bulk.call_filepath new) files
    /\ Bulk.successful (Bulk.stats w) <= Bulk.successful (Bulk.stats w')
       <= Bulk.successful (Bulk.stats w) + Z.of_nat (List.length new).
Proof.
  intros R. induction R as [w | filepath files w w1 w2 F R IH].
  - exists []. rewrite app_nil_r. repeat split; [constructor | lia | cbn; lia].
  - destruct IH as (new & I1 & I2 & I3).
    apply file_outcome_uploads in F as [[F1 F2] | (call & F1 & F2 & F3)].
    + exists new. split; [congruence |]. split; [constructor; exact I2 | lia].
    + exists (call :: new). split; [rewrite I1, F1, <- app_assoc; reflexivity |].
      split; [cbn [map]; rewrite F2; constructor; exact I2 |].
      cbn [List.length]. lia.
Qed.

(** X14.  A run that is not a dry run counts every file once: the number
    of files is stored as the total, and the four counters of the summary
    grow by that number together. *)
Theorem run_counts_every_file (store_fails : nat -> bool)
        (upload_env : nat -> Youtube.UploadEnv) (random : nat -> nat -> Q)
        (local_epoch : DateTime -> Z) (files : list string) (skip_uploaded : bool)
        (playlist_name : option string) (w : Bulk.World) :
  let w' := Bulk.run store_fails upload_env random local_epoch false
              files skip_uploaded playlist_name w in
  Bulk.total_files (Bulk.stats w') = Z.of_nat (List.length files)
  /\ counted (Bulk.stats w') = counted (Bulk.stats w) + Z.of_nat (List.length files).
Proof.
  cbv zeta. unfold Bulk.run.
  match goal with |- context [fold_left _ files ?w0] =>
    destruct (run_outcome_counted files w0 _
                (run_outcomes store_fails upload_env random local_epoch false files
                   skip_uploaded playlist_name w0)) as [C T] end.
  rewrite C, T. split; reflexivity.
Qed.

(** X15.  A dry run calls no upload and changes neither the tables nor
    the uploader, and counts no file as uploaded. *)
Theorem dry_run_uploads_nothing (store_fails : nat -> bool)
        (upload_env : nat -> Youtube.UploadEnv) (random : nat -> nat -> Q)
        (local_epoch : DateTime -> Z) (files : list string) (skip_uploaded : bool)
        (playlist_name : option string) (w : Bulk.World) :
  let w' := Bulk.run store_fails upload_env random local_epoch true
              files skip_uploaded playlist_name w in
  Bulk.uploads w' = Bulk.uploads w
  /\ Bulk.matches w' = Bulk.matches w
  /\ Bulk.players w' = Bulk.players w
  /\ Bulk.uploader w' = Bulk.uploader w
  /\ Bulk.successful (Bulk.stats w') = Bulk.successful (Bulk.stats w).
Proof.
  cbv zeta. unfold Bulk.run.
  match goal with |- context [fold_left _ files ?w0] =>
    exact (run_outcome_dry files w0 _
             (run_outcomes store_fails upload_env random local_epoch true files
                skip_uploaded playlist_name w0)) end.
Qed.

(** X16.  A run neither adds nor removes a row of [matches] and leaves
    the identifier, the creation time and the participants of every row
    as they are; a reference is only ever replaced by a non-empty one.
    The [players] table is not written. *)
Theorem run_keeps_rows (store_fails : nat -> bool)
        (upload_env : nat -> Youtube.UploadEnv) (random : nat -> nat -> Q)
        (local_epoch : DateTime -> Z) (dry_run : bool) (files : list string)
        (skip_uploaded : bool) (playlist_name : option string) (w : Bulk.World) :
  let w' := Bulk.run store_fails upload_env random local_epoch dry_run
              files skip_uploaded playlist_name w in
  Forall2 row_kept (Bulk.matches w) (Bulk.matches w')
  /\ Bulk.players w' = Bulk.players w.
Proof.
  cbv zeta. unfold Bulk.run.
  match goal with |- context [fold_left _ files ?w0] =>
    exact (run_outcome_rows dry_run files w0 _
             (run_outcomes store_fails upload_env random local_epoch dry_run files
                skip_uploaded playlist_name w0)) end.
Qed.

(** X17.  A run calls [upload_video] at most once for each file, in the
    order of the files and for no other path, and counts at most one
    successful upload for each call. *)
Theorem run_uploads_each_file_at_most_once (store_fails : nat -> bool)
        (upload_env : nat -> Youtube.UploadEnv) (random : nat -> nat -> Q)
        (local_epoch : DateTime -> Z) (dry_run : bool) (files : list string)
        (skip_uploaded : bool) (playlist_name : option string) (w : Bulk.World) :
  let w' := Bulk.run store_fails upload_env random local_epoch dry_run
              files skip_uploaded playlist_name w in
  exists new,
    Bulk.uploads w' = Bulk.uploads w ++ new
    /\ subsequence (map Bulk.call_filepath new) files
    /\ Bulk.successful (Bulk.stats w) <= Bulk.successful (Bulk.stats w')
       <= Bulk.successful (Bulk.stats w) + Z.of_nat (List.length new).
Proof.
  cbv zeta. unfold Bulk.run.
  match goal with |- context [fold_left _ files ?w0] =>
    exact (run_outcome_uploads dry_run files w0 _
             (run_outcomes store_fails upload_env random local_epoch dry_run files
                skip_uploaded playlist_name w0)) end.
Qed.

(** ** Reconciliation and the stored reference *)

Lemma in_window_iff (probe : DateTime) (tolerance_seconds : Z) (m : Bulk.MatchRecord) :
  Bulk.in_window probe tolerance_seconds m = true
  <-> Bulk.time_delta probe m <= tolerance_seconds * 1000000.
Proof.
  unfold Bulk.in_window, Bulk.time_delta. cbv zeta.
  rewrite andb_true_iff, !Z.leb_le. lia.
Qed.

(** X18.  [find_match_by_timestamp] makes one request and changes nothing
    else.  The row it returns is a row of the table within the tolerance
    and as near to the probe as any row of the table; it returns [None]
    only when the request failed or no row lies within the tolerance. *)
Theorem find_match_by_timestamp_nearest_in_window (store_fails : nat -> bool)
        (probe : DateTime) (tolerance_seconds : Z) (w : Bulk.World) :
  let result := Bulk.find_match_by_timestamp store_fails probe tolerance_seconds w in
  snd result = Bulk.count_request w
  /\ match fst result with
     | Some m =>
         store_fails (Bulk.requests w) = false
         /\ In m (Bulk.matches w)
         /\ Bulk.time_delta probe m <= tolerance_seconds * 1000000
         /\ Forall (fun m' => Bulk.time_delta probe m <= Bulk.time_delta probe m')
                   (Bulk.matches w)
     | None =>
         store_fails (Bulk.requests w) = true
         \/ Forall (fun m' => tolerance_seconds * 1000000 < Bulk.time_delta probe m')
                   (Bulk.matches w)
     end.
Proof.
  cbv zeta. unfold Bulk.find_match_by_timestamp, Bulk.bind, Bulk.execute.
  destruct (store_fails (Bulk.requests w)) eqn:Ef; cbn [fst snd Bulk.ret];
    [split; [reflexivity | left; reflexivity] |].
  split; [reflexivity |].
  cbn [Bulk.count_request Bulk.matches].
  set (data := filter (Bulk.in_window probe tolerance_seconds) (Bulk.matches w)).
  assert (Hdata : forall m, In m data <->
            In m (Bulk.matches w)
            /\ Bulk.time_delta probe m <= tolerance_seconds * 1000000).
  { intros m. unfold data. rewrite filter_In, in_window_iff. reflexivity. }
  assert (Least : forall m, Bulk.pick_match probe data = Some m ->
            In m data /\ Forall (fun m' => Bulk.time_delta probe m
                                           <= Bulk.time_delta probe m') data).
  { intros m H. split; [exact (pick_match_in probe data m H) |].
    unfold Bulk.pick_match in H. destruct data as [| a [| b rest]].
    - discriminate H.
    - injection H as <-. repeat constructor. lia.
    - injection H as <-.
      destruct (min_by_first_least (Bulk.time_delta probe) a (b :: rest))
        as (pre & post & E & P1 & P2).
      set (best := Bulk.min_by (Bulk.time_delta probe) a (b :: rest)) in *.
      change (Forall (fun m' => Bulk.time_delta probe best <= Bulk.time_delta probe m')
                     (a :: b :: rest)).
      rewrite E. apply Forall_app. split.
      + eapply Forall_impl; [| exact P1]. intros x Hx. cbv beta in Hx |- *. lia.
      + constructor; [lia | exact P2]. }
  destruct (Bulk.pick_match probe data) as [m |] eqn:Ep.
  - destruct (Least m eq_refl) as [Hin Hleast]. apply Hdata in Hin as [Hin Hd].
    split; [reflexivity |]. split; [exact Hin |]. split; [exact Hd |].
    apply Forall_forall. intros m' Hm'.
    destruct (Z.le_gt_cases (Bulk.time_delta probe m') (tolerance_seconds * 1000000))
      as [Near | Far]; [| lia].
    rewrite Forall_forall in Hleast. apply Hleast. apply Hdata. split; assumption.
  - right. apply Forall_forall. intros m' Hm'.
    destruct (Z.le_gt_cases (Bulk.time_delta probe m') (tolerance_seconds * 1000000))
      as [Near | Far]; [| lia].
    assert (Hin : In m' data) by (apply Hdata; split; assumption).
    unfold Bulk.pick_match in Ep. destruct data as [| a [| b rest]];
      [destruct Hin | discriminate Ep | discriminate Ep].
Qed.

Lemma with_url_rows (n : Z) (url : string) (rows : list Bulk.MatchRecord) :
  filter (Bulk.has_id n) (map (Bulk.with_url n url) rows)
  = map (Bulk.with_url n url) (filter (Bulk.has_id n) rows)
  /\ filter (fun m => negb (Bulk.has_id n m)) (map (Bulk.with_url n url) rows)
     = filter (fun m => negb (Bulk.has_id n m)) rows
  /\ Forall (fun m => Bulk.has_id n m = true -> Bulk.youtube_url m = Some url)
            (map (Bulk.with_url n url) rows).
Proof.
  induction rows as [| m rows (I1 & I2 & I3)]; [repeat split; constructor |].
  cbn [map filter].
  assert (E : Bulk.has_id n (Bulk.with_url n url m) = Bulk.has_id n m)
    by (unfold Bulk.with_url, Bulk.has_id; destruct (Bulk.id m =? n) eqn:Hid;
        cbn [Bulk.id]; rewrite ?Hid; reflexivity).
  rewrite E. split; [| split].
  - destruct (Bulk.has_id n m); cbn [map]; rewrite I1; reflexivity.
  - destruct (Bulk.has_id n m) eqn:H; cbn [negb]; rewrite I2; [reflexivity |].
    unfold Bulk.with_url. rewrite H. reflexivity.
  - constructor; [| exact I3]. unfold Bulk.with_url at 2.
    destruct (Bulk.has_id n m) eqn:H; [reflexivity | congruence].
Qed.

(** X19.  What [save_youtube_url] wrote, [is_already_uploaded] finds: after
    a successful write of a non-empty reference the status query answers
    [True] exactly when a row has that identifier (the write reports
    success also when none has); every row with the identifier carries the
    reference, and the other rows are as before. *)
Theorem saved_reference_is_found (store_fails : nat -> bool) (n : Z) (url : string)
        (w w1 : Bulk.World) :
  Bulk.save_youtube_url store_fails n url w = (true, w1) ->
  store_fails (Bulk.requests w1) = false ->
  fst (Bulk.is_already_uploaded store_fails (Some n) w1)
  = existsb (Bulk.has_id n) (Bulk.matches w) && PyStr.truthy url
  /\ Forall (fun m => Bulk.has_id n m = true -> Bulk.youtube_url m = Some url)
            (Bulk.matches w1)
  /\ filter (fun m => negb (Bulk.has_id n m)) (Bulk.matches w1)
     = filter (fun m => negb (Bulk.has_id n m)) (Bulk.matches w).
Proof.
  unfold Bulk.save_youtube_url, Bulk.bind, Bulk.execute.
  destruct (store_fails (Bulk.requests w)); cbn [Bulk.ret]; [discriminate |].
  intros E Hanswers. injection E as <-.
  cbn [snd Bulk.set_matches Bulk.matches Bulk.count_request Bulk.requests] in *.
  destruct (with_url_rows n url (Bulk.matches w)) as (R1 & R2 & R3).
  split; [| split; assumption].
  unfold Bulk.is_already_uploaded, Bulk.bind, Bulk.execute.
  cbn [Bulk.requests]. rewrite Hanswers.
  cbn [fst snd Bulk.count_request Bulk.matches]. rewrite R1.
  clear R1 R2 R3.
  transitivity (match map (Bulk.with_url n url) (filter (Bulk.has_id n) (Bulk.matches w)) with
                | [] => false
                | m :: _ => Youtube.truthy_opt (Bulk.youtube_url m)
                end);
    [destruct (map _ _); reflexivity |].
  induction (Bulk.matches w) as [| m rows IH]; [reflexivity |].
  cbn [filter existsb]. destruct (Bulk.has_id n m) eqn:H; cbn [orb map].
  - unfold Bulk.with_url. rewrite H. reflexivity.
  - exact IH.
Qed.

Lemma saved_reference_is_found_witness :
  fst (Bulk.is_already_uploaded always_answers (Some 42)
         (snd (Bulk.save_youtube_url always_answers 42 "https://youtu.be/x"
                 world_without_upload)))
  = existsb (Bulk.has_id 42) (Bulk.matches world_without_upload)
    && PyStr.truthy "https://youtu.be/x".
Proof.
  apply (saved_reference_is_found always_answers 42 "https://youtu.be/x"
           world_without_upload
           (snd (Bulk.save_youtube_url always_answers 42 "https://youtu.be/x"
                   world_without_upload))); reflexivity.
Defined.

(** ** File names written and read back *)

Lemma append_assoc (a b c : string) : (a +++ b) +++ c = a +++ (b +++ c).
Proof. induction a as [| x a IH]; cbn; [reflexivity | rewrite IH; reflexivity]. Qed.

Lemma avoids_append (c : ascii) (a b : string) :
  avoids c (a +++ b) = avoids c a && avoids c b.
Proof.
  induction a as [| x a IH]; cbn; [reflexivity |]. rewrite IH. apply andb_assoc.
Qed.

Lemma digits_avoid (c : ascii) (s : string) :
  PyStr.is_digit c = false -> PyStr.all_digits s = true -> avoids c s = true.
Proof.
  intros Hc. induction s as [| x s IH]; cbn; [reflexivity |].
  intros H. apply andb_true_iff in H as [Hx Hs]. rewrite (IH Hs), andb_true_r.
  destruct (Ascii.eqb_spec x c) as [-> | _]; [congruence | reflexivity].
Qed.

Lemma digits_of_uint (d : Decimal.uint) :
  PyStr.all_digits (NilEmpty.string_of_uint d) = true.
Proof. induction d; cbn; auto. Qed.

Lemma int_of_uint (d : Decimal.uint) (acc : Z) :
  PyStr.int_of_digits_from acc (NilEmpty.string_of_uint d)
  = Z.of_N (DecimalPos.Unsigned.of_lu (Decimal.rev d))
    + acc * 10 ^ Z.of_N (DecimalPos.Unsigned.usize d).
Proof.
  revert acc.
  induction d; intros acc; cbn [NilEmpty.string_of_uint PyStr.int_of_digits_from
                                  DecimalPos.Unsigned.usize];
    [cbn; lia | ..];
    rewrite IHd;
    match goal with
    | |- context [DecimalPos.Unsigned.of_lu (Decimal.rev (?D d))] =>
        change (Decimal.rev (D d)) with (Decimal.revapp d (D Decimal.Nil));
        rewrite (DecimalPos.Unsigned.of_lu_revapp d (D Decimal.Nil))
    end;
    rewrite N2Z.inj_succ, Z.pow_succ_r by lia;
    rewrite N2Z.inj_add, N2Z.inj_mul, N2Z.inj_pow;
    change (Z.of_N 10) with 10;
    generalize (Z.of_N (DecimalPos.Unsigned.of_lu (Decimal.rev d)));
    generalize (10 ^ Z.of_N (DecimalPos.Unsigned.usize d));
    intros P R;
    repeat match goal with
           | |- context [PyStr.digit_val ?c] =>
               let v := eval vm_compute in (PyStr.digit_val c) in
               change (PyStr.digit_val c) with v
           | |- context [Z.of_N (DecimalPos.Unsigned.of_lu ?x)] =>
               let v := eval vm_compute in (Z.of_N (DecimalPos.Unsigned.of_lu x)) in
               change (Z.of_N (DecimalPos.Unsigned.of_lu x)) with v
           end;
    ring.
Qed.

Lemma of_Z_digits (n : Z) :
  0 <= n ->
  PyStr.all_digits (PyStr.of_Z n) = true
  /\ PyStr.truthy (PyStr.of_Z n) = true
  /\ PyStr.int_of_digits (PyStr.of_Z n) = n.
Proof.
  intros H. unfold PyStr.of_Z. destruct n as [| p | p]; [cbn; auto | | lia].
  cbn [Z.to_int NilEmpty.string_of_int]. split; [apply digits_of_uint |]. split.
  - pose proof (DecimalPos.Unsigned.to_uint_nonnil p) as N.
    destruct (Pos.to_uint p); [contradiction | ..]; reflexivity.
  - unfold PyStr.int_of_digits. rewrite int_of_uint.
    rewrite <- DecimalPos.Unsigned.of_uint_alt, DecimalPos.Unsigned.of_to. cbn. lia.
Qed.

Lemma basename_from_avoids (acc f : string) :
  avoids "/" f = true -> Bulk.basename_from acc f = acc.
Proof.
  revert acc. induction f as [| c f IH]; intros acc H; cbn in *; [reflexivity |].
  apply andb_true_iff in H as [Hc Hf]. destruct (Ascii.eqb c "/"); [discriminate |].
  apply IH. exact Hf.
Qed.

(** [os.path.basename] of a path that ends in a component without slash. *)
Lemma basename_last_component (dir f : string) :
  avoids "/" f = true -> Bulk.basename (dir +++ "/" +++ f) = f.
Proof.
  intros H. unfold Bulk.basename.
  assert (G : forall acc, Bulk.basename_from acc (dir +++ "/" +++ f) = f).
  { induction dir as [| c dir IH]; intros acc.
    - cbn. apply basename_from_avoids. exact H.
    - cbn [String.append Bulk.basename_from]. destruct (Ascii.eqb c "/"); apply IH. }
  apply G.
Qed.

Lemma remove_extension (s : string) :
  avoids "." s = true -> PyStr.remove_all ".mp4" (s +++ ".mp4") = s.
Proof.
  unfold PyStr.remove_all. induction s as [| c s IH]; intros H; [reflexivity |].
  cbn [avoids] in H. apply andb_true_iff in H as [Hc Hs].
  cbn [String.append PyStr.remove_all_from prefix].
  destruct (ascii_dec "." c) as [<- | _]; [discriminate Hc |].
  rewrite (IH Hs). reflexivity.
Qed.

Lemma remove_no_extension (s : string) :
  avoids "." s = true -> PyStr.remove_all ".mp4" s = s.
Proof.
  unfold PyStr.remove_all. induction s as [| c s IH]; intros H; [reflexivity |].
  cbn [avoids] in H. apply andb_true_iff in H as [Hc Hs].
  cbn [PyStr.remove_all_from prefix].
  destruct (ascii_dec "." c) as [<- | _]; [discriminate Hc |].
  rewrite (IH Hs). reflexivity.
Qed.

Lemma chomp_avoids (s : string) : avoids PyStr.newline s = true -> PyStr.chomp s = s.
Proof.
  induction s as [| c s IH]; intros H; [reflexivity |].
  cbn [avoids] in H. apply andb_true_iff in H as [Hc Hs].
  cbn [PyStr.chomp]. destruct s as [| c' s'].
  - destruct (Ascii.eqb c PyStr.newline); [discriminate Hc | reflexivity].
  - rewrite (IH Hs). reflexivity.
Qed.

Lemma span_digits_stops (ds : string) (c : ascii) (r : string) :
  PyStr.all_digits ds = true -> PyStr.is_digit c = false ->
  PyStr.span_digits (ds +++ String c r) = (ds, String c r).
Proof.
  intros Hd Hc. induction ds as [| x ds IH]; cbn [String.append PyStr.span_digits].
  - rewrite Hc. reflexivity.
  - cbn [PyStr.all_digits] in Hd. apply andb_true_iff in Hd as [Hx Hd].
    rewrite Hx, (IH Hd). reflexivity.
Qed.

Lemma digit_is_not (c x : ascii) :
  PyStr.is_digit x = false -> PyStr.is_digit c = true -> Ascii.eqb c x = false.
Proof. intros Hx Hc. destruct (Ascii.eqb_spec c x) as [-> | _]; congruence. Qed.

(** A timestamp holds digits and one underscore. *)
Lemma timestamp_avoids (c : ascii) (ts : string) :
  Bulk.is_timestamp ts = true ->
  PyStr.is_digit c = false -> Ascii.eqb "_" c = false ->
  avoids c ts = true /\ String.length ts = 15%nat.
Proof.
  intros H Hc Hu.
  do 15 (destruct ts as [| ? ts]; [discriminate H |]). destruct ts; [| discriminate H].
  split; [| reflexivity].
  unfold Bulk.is_timestamp in H. cbn in H.
  repeat match type of H with
         | _ && _ = true => let A := fresh "A" in apply andb_true_iff in H as [A H]
         end.
  repeat match goal with
         | A : _ && _ = true |- _ =>
             let B := fresh "B" in apply andb_true_iff in A as [B A]
         end.
  cbn [avoids].
  repeat match goal with
         | D : PyStr.is_digit ?a = true |- _ =>
             rewrite (digit_is_not a c Hc D); clear D
         end.
  destruct (Ascii.eqb_spec a7 "_") as [-> | N]; [| discriminate].
  rewrite Hu. reflexivity.
Qed.

Lemma length_append (a b : string) :
  String.length (a +++ b) = (String.length a + String.length b)%nat.
Proof. induction a as [| c a IH]; cbn; [reflexivity | rewrite IH; reflexivity]. Qed.

Lemma timestamp_length (s : string) :
  Bulk.is_timestamp s = true -> String.length s = 15%nat.
Proof.
  unfold Bulk.is_timestamp. intros H.
  repeat (apply andb_true_iff in H as [H _]). apply Nat.eqb_eq. exact H.
Qed.

(** X20.  The name [upload_match_video] gives an object is read back by
    [parse_filename]: for a match identifier that is not negative and a
    timestamp of the form YYYYMMDD_HHMMSS, the last component of the key
    parses to that identifier and that time (or raises as [strptime] does
    on an impossible date).  The names of the result-screen video and of
    the frame image parse to nothing. *)
Theorem r2_match_name_parses_back (match_id : Z) (timestamp : string) :
  0 <= match_id ->
  Bulk.is_timestamp timestamp = true ->
  Bulk.basename (R2.dated_key "matches" timestamp (R2.match_filename match_id timestamp))
  = R2.match_filename match_id timestamp
  /\ Bulk.parse_filename (R2.match_filename match_id timestamp)
     = match Bulk.strptime timestamp with
       | Ret t => Ret (Some (Bulk.mkParsed (Some match_id) t))
       | Raise e => Raise e
       end
  /\ Bulk.parse_filename (R2.result_screen_filename match_id timestamp) = Ret None.
Proof.
  intros Hid Hts.
  destruct (of_Z_digits match_id Hid) as (Dg & Tr & Iv).
  assert (Av : forall c, PyStr.is_digit c = false -> Ascii.eqb "_" c = false ->
                         Ascii.eqb "-" c = false ->
                         avoids c (PyStr.of_Z match_id +++ "-" +++ timestamp) = true).
  { intros c Hc Hu Hm. rewrite !avoids_append.
    rewrite (digits_avoid c _ Hc Dg), (proj1 (timestamp_avoids c timestamp Hts Hc Hu)).
    cbn [avoids]. rewrite Hm. reflexivity. }
  set (stem := PyStr.of_Z match_id +++ "-" +++ timestamp) in *.
  assert (E1 : R2.match_filename match_id timestamp = stem +++ ".mp4")
    by (unfold R2.match_filename, stem; rewrite !append_assoc; reflexivity).
  assert (E2 : R2.result_screen_filename match_id timestamp
               = (stem +++ "-result") +++ ".mp4")
    by (unfold R2.result_screen_filename, stem; rewrite !append_assoc; reflexivity).
  assert (E3 : stem = PyStr.of_Z match_id +++ String "-" timestamp) by reflexivity.
  assert (E4 : stem +++ "-result"
               = PyStr.of_Z match_id +++ String "-" (timestamp +++ "-result"))
    by (unfold stem; rewrite !append_assoc; reflexivity).
  split; [| split].
  - unfold R2.dated_key.
    rewrite <- !append_assoc.
    rewrite (append_assoc _ "/" (R2.match_filename match_id timestamp)).
    apply basename_last_component.
    rewrite E1, avoids_append, Av by reflexivity. reflexivity.
  - unfold Bulk.parse_filename. rewrite E1.
    rewrite remove_extension by (apply Av; reflexivity).
    unfold Bulk.match_id_and_timestamp.
    rewrite chomp_avoids by (apply Av; reflexivity).
    rewrite E3, (span_digits_stops _ "-" timestamp Dg eq_refl), Tr.
    cbn [PyStr.strip_prefix]. change (Ascii.eqb "-" "-") with true. cbv iota.
    rewrite Hts, Iv. reflexivity.
  - unfold Bulk.parse_filename. rewrite E2.
    assert (Av' : forall c, PyStr.is_digit c = false -> Ascii.eqb "_" c = false ->
                    Ascii.eqb "-" c = false -> avoids c "-result" = true ->
                    avoids c (stem +++ "-result") = true).
    { intros c Hc Hu Hm Hr. rewrite avoids_append, Av, Hr by assumption. reflexivity. }
    rewrite remove_extension by (apply Av'; reflexivity).
    unfold Bulk.match_id_and_timestamp, Bulk.match_timestamp_only.
    rewrite chomp_avoids by (apply Av'; reflexivity).
    rewrite E4, (span_digits_stops _ "-" _ Dg eq_refl), Tr.
    cbn [PyStr.strip_prefix]. change (Ascii.eqb "-" "-") with true. cbv iota.
    pose proof (timestamp_length timestamp Hts) as L.
    assert (N1 : Bulk.is_timestamp (timestamp +++ "-result") = false).
    { destruct (Bulk.is_timestamp (timestamp +++ "-result")) eqn:E; [| reflexivity].
      apply timestamp_length in E. rewrite length_append, L in E. discriminate E. }
    assert (N2 : Bulk.is_timestamp
                   (PyStr.of_Z match_id +++ String "-" (timestamp +++ "-result")) = false).
    { destruct (Bulk.is_timestamp
                  (PyStr.of_Z match_id +++ String "-" (timestamp +++ "-result"))) eqn:E;
        [| reflexivity].
      apply timestamp_length in E. rewrite length_append in E.
      cbn [String.length] in E. rewrite length_append, L in E. cbn in E. lia. }
    rewrite N1, N2. reflexivity.
Qed.

Lemma r2_match_name_parses_back_witness :
  Bulk.parse_filename (R2.match_filename 42 "20240115_143052")
  = Ret (Some (Bulk.mkParsed (Some 42) some_time))
  /\ Bulk.parse_filename (R2.result_screen_filename 42 "20240115_143052") = Ret None.
Proof.
  split.
  - apply (proj1 (proj2 (r2_match_name_parses_back 42 "20240115_143052"
                           ltac:(lia) eq_refl))).
  - apply (proj2 (proj2 (r2_match_name_parses_back 42 "20240115_143052"
                           ltac:(lia) eq_refl))).
Defined.

(** ** Directory listings *)

Section SortFacts.

Context {A : Type} (key : A -> string).

Lemma insert_permutation (x : A) (l : list A) :
  Permutation (Listing.insert key x l) (x :: l).
Proof.
  induction l as [| y l IH]; cbn [Listing.insert]; [apply Permutation_refl |].
  destruct (key x <=? key y)%string; [apply Permutation_refl |].
  eapply Permutation_trans; [apply perm_skip; exact IH | apply perm_swap].
Qed.

Lemma sorted_permutation (l : list A) : Permutation (Listing.sorted key l) l.
Proof.
  induction l as [| x l IH]; cbn [Listing.sorted fold_right]; [constructor |].
  eapply Permutation_trans; [apply insert_permutation |]. apply perm_skip. exact IH.
Qed.

Lemma insert_sorted (x : A) (l : list A) :
  Sorted (fun a b => (key a <=? key b)%string = true) l ->
  Sorted (fun a b => (key a <=? key b)%string = true) (Listing.insert key x l).
Proof.
  induction l as [| y l IH]; intros S; cbn [Listing.insert]; [repeat constructor |].
  destruct (key x <=? key y)%string eqn:L.
  - constructor; [exact S |]. constructor. exact L.
  - inversion S as [| y' l' Sl Hd]; subst. constructor; [apply IH; exact Sl |].
    assert (Lyx : (key y <=? key x)%string = true)
      by (destruct (String.leb_total (key x) (key y)); congruence).
    destruct l as [| z l]; cbn [Listing.insert]; [constructor; exact Lyx |].
    destruct (key x <=? key z)%string; constructor; [exact Lyx |].
    inversion Hd; assumption.
Qed.

Lemma sorted_is_sorted (l : list A) :
  Sorted (fun a b => (key a <=? key b)%string = true) (Listing.sorted key l).
Proof.
  induction l as [| x l IH]; cbn [Listing.sorted fold_right]; [constructor |].
  apply insert_sorted. exact IH.
Qed.

End SortFacts.

Lemma insert_map {A B : Type} (key : B -> string) (key' : A -> string) (f : A -> B)
      (x : A) (l : list A) :
  key (f x) = key' x -> Forall (fun y => key (f y) = key' y) l ->
  Listing.insert key (f x) (map f l) = map f (Listing.insert key' x l).
Proof.
  intros Hx F. induction F as [| y l Hy F IH]; cbn [map Listing.insert]; [reflexivity |].
  rewrite Hx, Hy. destruct (key' x <=? key' y)%string; [reflexivity |].
  cbn [map]. rewrite IH. reflexivity.
Qed.

Lemma sorted_map {A B : Type} (key : B -> string) (key' : A -> string) (f : A -> B)
      (l : list A) :
  Forall (fun y => key (f y) = key' y) l ->
  Listing.sorted key (map f l) = map f (Listing.sorted key' l).
Proof.
  intros F. induction F as [| x l Hx F IH]; cbn [map Listing.sorted fold_right];
    [reflexivity |].
  fold (Listing.sorted key (map f l)). fold (Listing.sorted key' l). rewrite IH.
  apply insert_map; [exact Hx |].
  apply Forall_forall. intros y Hy. rewrite Forall_forall in F. apply F.
  eapply Permutation_in; [apply sorted_permutation | exact Hy].
Qed.

Lemma ends_with_slash (a : string) :
  PyStr.ends_with "/" a = true -> exists a', a = a' +++ "/".
Proof.
  induction a as [| c a IH]; cbn [PyStr.ends_with]; [discriminate |].
  intros H. apply orb_true_iff in H as [H | H].
  - apply String.eqb_eq in H. exists "". exact H.
  - destruct (IH H) as [a' ->]. exists (String c a'). reflexivity.
Qed.

Lemma basename_join (directory name : string) :
  avoids "/" name = true ->
  Bulk.basename (Listing.join directory name) = name.
Proof.
  intros H. unfold Listing.join.
  assert (P : prefix "/" name = false).
  { destruct name as [| c name]; [reflexivity |]. cbn [avoids] in H. cbn [prefix].
    destruct (ascii_dec "/" c) as [<- | _]; [discriminate H | reflexivity]. }
  rewrite P. destruct directory as [| c d] eqn:Ed.
  - cbn. apply basename_from_avoids. exact H.
  - rewrite <- Ed. replace (PyStr.truthy directory) with true by (subst; reflexivity).
    cbn [negb orb]. destruct (PyStr.ends_with "/" directory) eqn:E.
    + destruct (ends_with_slash directory E) as [a' ->].
      rewrite append_assoc. apply basename_last_component. exact H.
    + apply basename_last_component. exact H.
Qed.

Lemma scan_directory_members (directory : string) (entries : list Listing.Entry)
      (path : string) :
  In path (Listing.scan_directory directory (Some entries)) <->
  exists e, In e entries
            /\ PyStr.ends_with ".mp4" (Listing.entry_name e) = true
            /\ PyStr.contains "result_screen" (Listing.entry_name e) = false
            /\ Listing.is_file e = true
            /\ path = Listing.join directory (Listing.entry_name e).
Proof.
  unfold Listing.scan_directory. split.
  - intros H. apply (Permutation_in _ (sorted_permutation _ _)) in H.
    apply in_map_iff in H as (e & <- & He). apply filter_In in He as [He Hok].
    unfold Bulk.is_match_video in Hok.
    apply andb_true_iff in Hok as [Hok Hfile]. apply andb_true_iff in Hok as [Hmp4 Hrs].
    apply negb_true_iff in Hrs. exists e. auto.
  - intros (e & He & Hmp4 & Hrs & Hfile & ->).
    apply (Permutation_in _ (Permutation_sym (sorted_permutation _ _))).
    apply in_map_iff. exists e. split; [reflexivity |]. apply filter_In.
    split; [exact He |]. unfold Bulk.is_match_video. rewrite Hmp4, Hrs, Hfile. reflexivity.
Qed.

(** X21.  [scan_directory] lists the paths of the regular files whose
    name ends in [.mp4] and does not contain [result_screen], each joined
    to the directory, in the order of [str]; a directory that does not
    exist gives the empty list. *)
Theorem scan_directory_lists_sorted_match_videos (directory : string)
        (entries : list Listing.Entry) :
  Listing.scan_directory directory None = []
  /\ Sorted (fun a b => (a <=? b)%string = true)
            (Listing.scan_directory directory (Some entries))
  /\ Permutation
       (Listing.scan_directory directory (Some entries))
       (map (fun e => Listing.join directory (Listing.entry_name e))
            (filter (fun e => Bulk.is_match_video (Listing.entry_name e)
                              && Listing.is_file e) entries))
  /\ (forall path,
        In path (Listing.scan_directory directory (Some entries)) <->
        exists e, In e entries
                  /\ PyStr.ends_with ".mp4" (Listing.entry_name e) = true
                  /\ PyStr.contains "result_screen" (Listing.entry_name e) = false
                  /\ Listing.is_file e = true
                  /\ path = Listing.join directory (Listing.entry_name e)).
Proof.
  split; [reflexivity |].
  split; [apply (sorted_is_sorted (fun path : string => path)) |].
  split; [apply sorted_permutation |].
  apply scan_directory_members.
Qed.

(** X22.  [get_video_files] returns the names with a video extension
    (in any letter case) in the order of the names, each joined to the
    directory: sorting the paths by their last component is sorting the
    names. *)
Theorem get_video_files_in_name_order (directory : string) (names : list string) :
  Forall (fun name => avoids "/" name = true) names ->
  Listing.get_video_files directory (Ret names)
  = Ret (map (Listing.join directory)
             (Listing.sorted (fun name => name) (filter Listing.is_video_name names)))
  /\ Sorted (fun a b => (a <=? b)%string = true)
            (Listing.sorted (fun name => name) (filter Listing.is_video_name names))
  /\ Permutation (Listing.sorted (fun name => name) (filter Listing.is_video_name names))
                 (filter Listing.is_video_name names).
Proof.
  intros F. split; [| split].
  - unfold Listing.get_video_files. f_equal. apply sorted_map.
    apply Forall_forall. intros name H. apply filter_In in H as [H _].
    rewrite Forall_forall in F. apply basename_join. apply F. exact H.
  - apply (sorted_is_sorted (fun name : string => name)).
  - apply sorted_permutation.
Qed.

Lemma get_video_files_in_name_order_witness :
  Listing.get_video_files "videos" (Ret ["b.MP4"; "notes.txt"; "a.mkv"])
  = Ret ["videos/a.mkv"; "videos/b.MP4"].
Proof.
  apply (proj1 (get_video_files_in_name_order "videos" ["b.MP4"; "notes.txt"; "a.mkv"]
                  ltac:(repeat constructor))).
Defined.

Lemma scan_directory_lists_sorted_match_videos_witness :
  In "matches/42-20240115_143052.mp4"
     (Listing.scan_directory "matches" (Some match_directory)).
Proof.
  apply (proj2 (proj2 (proj2 (proj2
           (scan_directory_lists_sorted_match_videos "matches" match_directory)))
           "matches/42-20240115_143052.mp4")).
  exists (Listing.mkEntry "42-20240115_143052.mp4" true).
  repeat split; try reflexivity. right. right. left. reflexivity.
Defined.

Lemma prefix_append (pat rest : string) : prefix pat (pat +++ rest) = true.
Proof.
  induction pat as [| c pat IH]; cbn [String.append prefix];
    [destruct rest; reflexivity |].
  destruct (ascii_dec c c) as [_ | N]; [exact IH | contradiction].
Qed.

Lemma contains_append (pat before after : string) :
  PyStr.contains pat (before +++ pat +++ after) = true.
Proof.
  induction before as [| c before IH].
  - cbn [String.append]. destruct (pat +++ after) eqn:E; cbn [PyStr.contains];
      rewrite <- E, prefix_append; reflexivity.
  - cbn [String.append PyStr.contains]. rewrite IH. apply orb_true_r.
Qed.

Lemma eqb_length (a b : string) : (a =? b)%string = true -> String.length a = String.length b.
Proof. intros H. apply String.eqb_eq in H. congruence. Qed.

(** A suffix no longer than [tail] is looked for in [tail] alone. *)
Lemma ends_with_append (suffix before tail : string) :
  (String.length suffix <= String.length tail)%nat ->
  PyStr.ends_with suffix (before +++ tail) = PyStr.ends_with suffix tail.
Proof.
  intros L. induction before as [| c before IH]; [reflexivity |].
  cbn [String.append PyStr.ends_with]. rewrite IH.
  destruct (String c (before +++ tail) =? suffix)%string eqn:E; [| reflexivity].
  apply eqb_length in E. cbn [String.length] in E. rewrite length_append in E. lia.
Qed.

(** X23.  What the batch processor writes beside the recordings is never
    taken for a match video by the bulk uploader: whatever the source is
    called, [scan_directory] accepts neither the name of its
    result-screen video nor that of its frame image, and lists no path
    made of such a name. *)
Theorem artifacts_are_not_match_videos (base_name directory : string)
        (entries : list Listing.Entry) :
  Bulk.is_match_video (Listing.result_filename base_name) = false
  /\ Bulk.is_match_video (Listing.frame_42_filename base_name) = false
  /\ Forall (fun path =>
               exists e, In e entries
                 /\ path = Listing.join directory (Listing.entry_name e)
                 /\ Listing.entry_name e <> Listing.result_filename base_name
                 /\ Listing.entry_name e <> Listing.frame_42_filename base_name)
            (Listing.scan_directory directory (Some entries)).
Proof.
  assert (R : Bulk.is_match_video (Listing.result_filename base_name) = false).
  { unfold Bulk.is_match_video, Listing.result_filename.
    change "_result_screen.mp4" with ("_" +++ "result_screen" +++ ".mp4").
    rewrite <- append_assoc, contains_append. apply andb_false_r. }
  assert (F : Bulk.is_match_video (Listing.frame_42_filename base_name) = false).
  { unfold Bulk.is_match_video, Listing.frame_42_filename.
    rewrite ends_with_append by (cbn; lia). reflexivity. }
  split; [exact R |]. split; [exact F |].
  apply Forall_forall. intros path H.
  apply scan_directory_members in H as (e & He & Hmp4 & Hrs & Hfile & ->).
  exists e. split; [exact He |]. split; [reflexivity |].
  assert (Ok : Bulk.is_match_video (Listing.entry_name e) = true)
    by (unfold Bulk.is_match_video; rewrite Hmp4, Hrs; reflexivity).
  split; intros E; rewrite E in Ok; congruence.
Qed.

(** ** The tags and the description of an upload *)

Lemma to_lower_idempotent (c : ascii) : PyStr.to_lower (PyStr.to_lower c) = PyStr.to_lower c.
Proof. destruct c as [[] [] [] [] [] [] [] []]; reflexivity. Qed.

Lemma lower_idempotent (s : string) : PyStr.lower (PyStr.lower s) = PyStr.lower s.
Proof.
  induction s as [| c s IH]; cbn [PyStr.lower]; [reflexivity |].
  rewrite to_lower_idempotent, IH. reflexivity.
Qed.

Lemma lower_truthy (s : string) : PyStr.truthy (PyStr.lower s) = PyStr.truthy s.
Proof. destruct s; reflexivity. Qed.

Lemma name_tags_spec (ps : list Youtube.Player) :
  match Youtube.name_tags ps with
  | Raise e => e = AttributeError /\ existsb name_is_none ps = true
  | Ret tags => existsb name_is_none ps = false /\ Forall clean_tag tags
  end.
Proof.
  induction ps as [| p ps IH]; cbn [Youtube.name_tags existsb]; [split; constructor |].
  assert (Hn : name_is_none p
               = match Youtube.name p with None => true | Some _ => false end)
    by reflexivity.
  rewrite Hn. destruct (Youtube.name p) as [n |]; [| split; reflexivity].
  cbn [orb]. destruct (Youtube.name_tags ps) as [tags | e].
  - destruct IH as [N F]. split; [exact N |].
    destruct (PyStr.truthy (PyStr.strip n)) eqn:T; [| exact F]. cbn [andb].
    destruct (existsb _ Youtube.placeholder_names) eqn:P; [exact F |]. cbn [negb].
    constructor; [| exact F]. repeat split.
    + rewrite lower_truthy. exact T.
    + apply lower_idempotent.
    + intros E. rewrite E in P. discriminate P.
  - exact IH.
Qed.

Lemma character_tags_spec (ps : list Youtube.Player) :
  match Youtube.character_tags ps with
  | Raise e => e = AttributeError /\ existsb character_is_none ps = true
  | Ret tags => existsb character_is_none ps = false /\ Forall clean_tag tags
  end.
Proof.
  induction ps as [| p ps IH]; cbn [Youtube.character_tags existsb]; [split; constructor |].
  assert (Hn : character_is_none p
               = match Youtube.character p with None => true | Some _ => false end)
    by reflexivity.
  rewrite Hn. destruct (Youtube.character p) as [c |]; [| split; reflexivity].
  cbn [orb]. destruct (Youtube.character_tags ps) as [tags | e].
  - destruct IH as [N F]. split; [exact N |].
    destruct (PyStr.truthy (PyStr.lower (PyStr.strip c))) eqn:T; [| exact F]. cbn [andb].
    destruct (PyStr.lower (PyStr.strip c) =? "unknown")%string eqn:U; [exact F |].
    cbn [negb]. constructor; [| exact F]. repeat split.
    + exact T.
    + apply lower_idempotent.
    + intros E. rewrite E in U. discriminate U.
  - exact IH.
Qed.

Lemma dedupe_in (tag : string) (tags : list string) :
  In tag (Youtube.dedupe tags) -> In tag tags.
Proof.
  induction tags as [| t tags IH]; cbn [Youtube.dedupe]; [auto |].
  intros [E | H]; [left; exact E | right].
  apply filter_In in H as [H _]. apply IH. exact H.
Qed.

Lemma dedupe_nodup (tags : list string) : NoDup (Youtube.dedupe tags).
Proof.
  induction tags as [| t tags IH]; cbn [Youtube.dedupe]; constructor.
  - intros H. apply filter_In in H as [_ H]. rewrite String.eqb_refl in H. discriminate H.
  - apply NoDup_filter. exact IH.
Qed.

Lemma firstn_in {A : Type} (n : nat) (l : list A) (x : A) : In x (firstn n l) -> In x l.
Proof. intros H. rewrite <- (firstn_skipn n l). apply in_or_app. left. exact H. Qed.

Lemma firstn_nodup {A : Type} (n : nat) (l : list A) : NoDup l -> NoDup (firstn n l).
Proof.
  intros H. rewrite <- (firstn_skipn n l) in H. apply NoDup_app_remove_r in H. exact H.
Qed.

(** X24.  The tags of an upload: [build_tags] raises exactly when a name
    or a character is [None]; otherwise it returns at most 30 tags
    without repetition, the five fixed tags first, every tag non-empty,
    in lower case and different from "unknown". *)
Theorem build_tags_are_clean (metadata : Youtube.Metadata) :
  match Youtube.build_tags metadata with
  | Raise e => e = AttributeError /\ Youtube.build_tags_raises metadata = true
  | Ret tags =>
      Youtube.build_tags_raises metadata = false
      /\ NoDup tags
      /\ (List.length tags <= 30)%nat
      /\ firstn 5 tags = Youtube.base_tags
      /\ Forall clean_tag tags
  end.
Proof.
  unfold Youtube.build_tags, Youtube.build_tags_raises.
  pose proof (name_tags_spec (Youtube.players metadata)) as N.
  pose proof (character_tags_spec (Youtube.players metadata)) as C.
  fold name_is_none character_is_none in *.
  change (existsb (fun p => match Youtube.name p with None => true | Some _ => false end)
            (Youtube.players metadata))
    with (existsb name_is_none (Youtube.players metadata)).
  change (existsb (fun p => match Youtube.character p with None => true | Some _ => false end)
            (Youtube.players metadata))
    with (existsb character_is_none (Youtube.players metadata)).
  destruct (Youtube.name_tags (Youtube.players metadata)) as [names | e];
    [| destruct N as [-> ->]; split; reflexivity].
  destruct N as [-> Nc]. cbn [orb].
  destruct (Youtube.character_tags (Youtube.players metadata)) as [characters | e];
    [| destruct C as [-> ->]; split; reflexivity].
  destruct C as [-> Cc].
  split; [reflexivity |]. split; [apply firstn_nodup, dedupe_nodup |].
  split; [rewrite length_firstn; lia |]. split.
  - unfold Youtube.base_tags. cbn [app Youtube.dedupe].
    set (rest := Youtube.dedupe (names ++ characters)).
    cbn [filter String.eqb Ascii.eqb Bool.eqb negb andb firstn]. reflexivity.
  - apply Forall_forall. intros tag H. apply firstn_in, dedupe_in in H.
    apply in_app_or in H as [H | H].
    + unfold Youtube.base_tags in H. cbn [In] in H.
      repeat (destruct H as [<- | H]; [repeat split; discriminate |]). destruct H.
    + apply in_app_or in H as [H | H];
        [rewrite Forall_forall in Nc; apply Nc | rewrite Forall_forall in Cc; apply Cc];
        exact H.
Qed.

Example build_tags_of_noisy_metadata :
  Youtube.build_tags noisy_metadata
  = Ret ["super smash bros"; "smash ultimate"; "ssbu"; "gameplay"; "competitive";
         "habeas"; "mario"].
Proof. vm_compute. reflexivity. Qed.

Lemma player_lines_spec (ps : list Youtube.Player) :
  match Youtube.player_lines ps with
  | Raise e => e = AttributeError /\ existsb character_is_none ps = true
  | Ret lines =>
      existsb character_is_none ps = false
      /\ Forall2 (fun p line => Youtube.player_line p = Ret line) ps lines
  end.
Proof.
  induction ps as [| p ps IH]; cbn [Youtube.player_lines existsb]; [split; constructor |].
  assert (Hn : character_is_none p
               = match Youtube.player_line p with Raise _ => true | Ret _ => false end)
    by (unfold character_is_none, Youtube.player_line;
        destruct (Youtube.character p); reflexivity).
  assert (He : forall e, Youtube.player_line p = Raise e -> e = AttributeError)
    by (unfold Youtube.player_line; destruct (Youtube.character p); congruence).
  rewrite Hn. destruct (Youtube.player_line p) as [line | e] eqn:El.
  - cbn [orb]. destruct (Youtube.player_lines ps) as [lines | e]; [| exact IH].
    destruct IH as [N F]. split; [exact N |]. constructor; assumption.
  - split; [apply He; reflexivity | reflexivity].
Qed.

(** X25.  The description of an upload: [build_description] raises
    exactly when a character is [None]; otherwise its lines are the
    heading, the identifier and the date of the match, one line for each
    player in order between "Players:" and an empty line (nothing when
    there is no player), and the closing line. *)
Theorem build_description_lines (match_id : Z) (metadata : Youtube.Metadata) :
  match Youtube.description_lines match_id metadata with
  | Raise e =>
      e = AttributeError
      /\ Youtube.build_description_raises metadata = true
      /\ Youtube.build_description match_id metadata = Raise AttributeError
  | Ret lines =>
      Youtube.build_description_raises metadata = false
      /\ Youtube.build_description match_id metadata
         = Ret (String.concat (String PyStr.newline "") lines)
      /\ exists player_lines,
           Forall2 (fun p line => Youtube.player_line p = Ret line)
                   (Youtube.players metadata) player_lines
           /\ lines
              = ["Super Smash Bros Ultimate Match"; "";
                 "Match ID: " +++ PyStr.of_Z match_id;
                 "Date: " +++ Youtube.strftime_long (Youtube.timestamp metadata); ""]
                ++ match player_lines with
                   | [] => []
                   | _ => ["Players:"] ++ player_lines ++ [""]
                   end
                ++ ["Recorded with automated capture system"]
  end.
Proof.
  unfold Youtube.build_description, Youtube.description_lines,
    Youtube.build_description_raises.
  change (existsb (fun p => match Youtube.character p with None => true | Some _ => false end)
            (Youtube.players metadata))
    with (existsb character_is_none (Youtube.players metadata)).
  destruct (Youtube.players metadata) as [| p ps] eqn:Ep.
  - split; [reflexivity |]. split; [reflexivity |]. exists []. split; [constructor |].
    reflexivity.
  - pose proof (player_lines_spec (p :: ps)) as L.
    destruct (Youtube.player_lines (p :: ps)) as [lines | e].
    + destruct L as [N F]. split; [exact N |]. split; [reflexivity |].
      exists lines. split; [exact F |].
      inversion F; subst. cbn [app]. rewrite <- !app_assoc. reflexivity.
    + destruct L as [-> N]. split; [reflexivity |]. split; [exact N | reflexivity].
Qed.

Example description_of_versus_metadata :
  Youtube.description_lines 7 versus_metadata
  = Ret ["Super Smash Bros Ultimate Match"; ""; "Match ID: 7";
         "Date: January 15, 2024 02:30 PM"; ""; "Players:";
         "- habeas (Mario) - 3 KOs, 1 Falls, 0 SD - WINNER";
         "- jmoon (Luigi) - 1 KOs, 3 Falls, 0 SD"; "";
         "Recorded with automated capture system"].
Proof. vm_compute. reflexivity. Qed.

(** ** What [parse_filename] can return *)






(** ** The upload to the bucket *)

Lemma match_filename_has_no_slash (match_id : Z) (timestamp : string) :
  0 <= match_id -> Bulk.is_timestamp timestamp = true ->
  avoids "/" (R2.match_filename match_id timestamp) = true.
Proof.
  intros Hid Hts. unfold R2.match_filename.
  destruct (of_Z_digits match_id Hid) as (Dg & _ & _).
  rewrite !avoids_append, (digits_avoid "/" _ eq_refl Dg),
    (proj1 (timestamp_avoids "/" timestamp Hts eq_refl eq_refl)).
  reflexivity.
Qed.

(** X27.  [upload_match_video] touches the bucket only when the four
    environment variables are set and not empty and the file exists, and
    then once.  A URL it returns names the object it stored, under the
    key matches/YYYY/MM/ and with the content type of a video; for an
    identifier that is not negative and a timestamp of the form
    YYYYMMDD_HHMMSS the last component of the URL is the file name of
    the match. *)
Theorem r2_upload_match_video_stores_once
        (account_id access_key_id secret_access_key bucket_name : option string)
        (host : R2.Host) (file_path : string) (match_id : Z) (timestamp : string)
        (participants : option (list string)) :
  let client := R2.init account_id access_key_id secret_access_key bucket_name in
  let result := R2.upload_match_video client host file_path match_id timestamp
                                      participants in
  (snd result <> [] <->
   forallb Youtube.truthy_opt [account_id; access_key_id; secret_access_key; bucket_name]
   = true /\ R2.file_exists host = true)
  /\ (List.length (snd result) <= 1)%nat
  /\ (forall url, fst result = Some url ->
        exists call,
          snd result = [call]
          /\ R2.put_file call = file_path
          /\ R2.put_bucket call = bucket_name
          /\ R2.put_content_type call = "video/mp4"
          /\ R2.put_key call
             = R2.dated_key "matches" timestamp (R2.match_filename match_id timestamp)
          /\ url = R2.public_url client (R2.put_key call)
          /\ (0 <= match_id -> Bulk.is_timestamp timestamp = true ->
              Bulk.basename url = R2.match_filename match_id timestamp)).
Proof.
  cbv zeta. unfold R2.upload_match_video, R2.upload_file, R2.init. cbn [R2.enabled].
  set (configured := forallb Youtube.truthy_opt
                       [account_id; access_key_id; secret_access_key; bucket_name]).
  destruct configured; cbn [negb];
    [| cbn; split; [split; [congruence | intros [? _]; discriminate] |];
       split; [lia | discriminate]].
  destruct (R2.file_exists host); cbn [negb];
    [| cbn; split; [split; [congruence | intros [_ ?]; discriminate] |];
       split; [lia | discriminate]].
  destruct (R2.s3_upload host) as [u | e]; cbn [fst snd List.length].
  - split; [split; [auto | discriminate] |]. split; [lia |].
    intros url E. injection E as <-. eexists. split; [reflexivity |].
    cbn [R2.put_file R2.put_bucket R2.put_content_type R2.put_key R2.bucket_name].
    repeat (split; [reflexivity |]).
    intros Hid Hts. unfold R2.public_url, R2.dated_key.
    rewrite <- !append_assoc.
    rewrite (append_assoc _ "/" (R2.match_filename match_id timestamp)).
    apply basename_last_component. apply match_filename_has_no_slash; assumption.
  - split; [split; [auto | discriminate] |]. split; [lia | discriminate].
Qed.

Lemma r2_upload_match_video_stores_once_witness :
  Bulk.basename "https://smash-videos.acct.r2.cloudflarestorage.com/matches/2024/01/42-20240115_143052.mp4"
  = R2.match_filename 42 "20240115_143052"
  /\ snd (R2.upload_match_video r2_client storing_host "out/42.mp4" 42 "20240115_143052"
            None) <> [].
Proof.
  split.
  - destruct (proj2 (proj2 (r2_upload_match_video_stores_once
                (Some "acct") (Some "key") (Some "secret") (Some "smash-videos")
                storing_host "out/42.mp4" 42 "20240115_143052" None))
              "https://smash-videos.acct.r2.cloudflarestorage.com/matches/2024/01/42-20240115_143052.mp4"
              eq_refl) as (call & _ & _ & _ & _ & _ & _ & B).
    apply B; [lia | reflexivity].
  - apply (proj2 (proj1 (r2_upload_match_video_stores_once
                (Some "acct") (Some "key") (Some "secret") (Some "smash-videos")
                storing_host "out/42.mp4" 42 "20240115_143052" None))).
    split; reflexivity.
Defined.

(** X28.  The three objects of one match never share a key: with a
    configured client and existing files, the match video, the
    result-screen video and the frame image are each stored by one call to
    the configured bucket, under three different keys (below matches/,
    result_screens/ and frames/), the image as image/png and the videos
    as video/mp4; with a client that is not configured none of the three
    touches the bucket. *)
Theorem r2_objects_of_a_match_are_distinct (client : R2.Client) (host : R2.Host)
        (video_path screen_path frame_path : string) (match_id : Z) (timestamp : string)
        (participants : option (list string)) (frame_number : Z) :
  let video := R2.upload_match_video client host video_path match_id timestamp
                                     participants in
  let screen := R2.upload_result_screen_video client host screen_path match_id timestamp in
  let frame := R2.upload_frame_image client host frame_path match_id timestamp
                                     frame_number in
  (R2.enabled client = false ->
   video = (None, []) /\ screen = (None, []) /\ frame = (None, []))
  /\ (R2.enabled client = true -> R2.file_exists host = true ->
      exists video_call screen_call frame_call,
        snd video = [video_call] /\ snd screen = [screen_call] /\ snd frame = [frame_call]
        /\ NoDup [R2.put_key video_call; R2.put_key screen_call; R2.put_key frame_call]
        /\ Forall (fun call => R2.put_bucket call = R2.bucket_name client)
                  [video_call; screen_call; frame_call]
        /\ map R2.put_content_type [video_call; screen_call; frame_call]
           = ["video/mp4"; "video/mp4"; "image/png"]
        /\ Forall (fun call =>
                     exists rest,
                       R2.put_metadata call
                       = Some (("match-id", PyStr.of_Z match_id)
                               :: ("timestamp", timestamp) :: rest))
                  [video_call; screen_call; frame_call]).
Proof.
  cbv zeta. unfold R2.upload_match_video, R2.upload_result_screen_video,
    R2.upload_frame_image, R2.upload_file.
  split.
  - intros ->. cbn [negb]. repeat split.
  - intros -> ->. cbn [negb].
    destruct (R2.s3_upload host) as [u | e]; cbn [snd];
      (do 3 eexists; repeat (split; [reflexivity |]);
       cbn [R2.put_key R2.put_bucket R2.put_content_type R2.put_metadata map];
       split; [| split; [repeat constructor | split; [reflexivity |]]]).
    all: try (unfold R2.dated_key; cbn [String.append];
              repeat constructor; cbn [In]; intros H;
              repeat (destruct H as [H | H]; try discriminate H); exact H).
    all: repeat constructor;
      try (destruct participants as [[| p ps] |]; eexists; reflexivity);
      eexists; reflexivity.
Qed.

Lemma r2_objects_of_a_match_are_distinct_witness :
  List.length (snd (R2.upload_frame_image r2_client storing_host "out/42.png" 42
                      "20240115_143052" 42)) = 1%nat
  /\ R2.upload_match_video (R2.init None None None None) storing_host "out/42.mp4" 42
       "20240115_143052" None = (None, []).
Proof.
  split.
  - destruct (proj2 (r2_objects_of_a_match_are_distinct r2_client storing_host
                "out/42.mp4" "out/42-result.mp4" "out/42.png" 42 "20240115_143052"
                None 42) eq_refl eq_refl)
      as (video_call & screen_call & frame_call & _ & _ & E & _).
    rewrite E. reflexivity.
  - apply (proj1 (r2_objects_of_a_match_are_distinct (R2.init None None None None)
                    storing_host "out/42.mp4" "out/42-result.mp4" "out/42.png" 42
                    "20240115_143052" None 42) eq_refl).
Defined.

Example frame_image_of_match_42 :
  R2.upload_frame_image r2_client storing_host "out/42.png" 42 "20240115_143052" 42
  = (Some "https://smash-videos.acct.r2.cloudflarestorage.com/frames/2024/01/42-20240115_143052-frame_42.png",
     [R2.mkPut "out/42.png" (Some "smash-videos")
        "frames/2024/01/42-20240115_143052-frame_42.png" "image/png"
        (Some [("match-id", "42"); ("timestamp", "20240115_143052");
               ("frame-number", "42")])]).
Proof. vm_compute. reflexivity. Qed.
